(** * Incident and evidence lifecycle of the surveillance mobile client

    A shallow embedding of the client-side logic of the dashboards
    (security, viewer, admin), of the bulk assignment screen and of the
    evidence stores, together with the [services/api.js] wrappers they call.

    Conventions of the embedding.
    - A JavaScript object with a fixed set of properties is a record; a
      property that may be [null] or [undefined] is an [option].
    - An [async] handler is cut at each [await]: the part before the await is
      a function on the component state, the part after it is a function
      that takes what the awaited promise produced ([Awaited]).
    - [useState] cells and [useRef] cells are fields of a state record; a
      functional updater [setX(prev => f prev)] is [f] applied to the field.
    - A [Set] of incident ids is a [gset Z]. *)

From Stdlib Require Import ZArith List Bool Lia DecimalString.
From Stdlib Require String Ascii.
From stdpp Require Import gmap strings.
Import ListNotations.

Local Open Scope Z_scope.

(** ** JavaScript helpers *)

Module Js.

(** [`${n}`] for an integer. *)
Definition string_of_Z (z : Z) : string := NilZero.string_of_int (Z.to_int z).

(** [`${n}`] for an array length. *)
Definition string_of_nat (n : nat) : string := NilZero.string_of_uint (Nat.to_uint n).

(** [s.startsWith(p)]. *)
Definition startsWith (p s : string) : bool := String.prefix p s.

(** [s.includes(p)]. *)
Fixpoint includes (p s : string) : bool :=
  String.prefix p s ||
  match s with
  | EmptyString => false
  | String _ s' => includes p s'
  end.

(** [x?.startsWith(p)] used as a condition: [undefined] is falsy. *)
Definition opt_startsWith (p : string) (x : option string) : bool :=
  match x with
  | Some s => startsWith p s
  | None => false
  end.

Definition opt_includes (p : string) (x : option string) : bool :=
  match x with
  | Some s => includes p s
  | None => false
  end.

(** Truthiness of a number that may be missing: [0], [null] and
    [undefined] are falsy. *)
Definition truthy_num (x : option Z) : bool :=
  match x with
  | Some n => negb (n =? 0)
  | None => false
  end.

(** Truthiness of a string that may be missing: the empty string is falsy. *)
Definition truthy_str (x : option string) : bool :=
  match x with
  | Some EmptyString => false
  | Some _ => true
  | None => false
  end.

(** [x === 'lit'] for a property that may be missing. *)
Definition str_is (lit : string) (x : option string) : bool :=
  match x with
  | Some s => String.eqb s lit
  | None => false
  end.

(** [x === true] and the truthiness of a boolean property coincide. *)
Definition is_true (x : option bool) : bool :=
  match x with
  | Some b => b
  | None => false
  end.

(** [a || b] on strings that may be missing, as used for messages. *)
Definition or_str (a : option string) (b : string) : string :=
  match a with
  | Some EmptyString => b
  | Some s => s
  | None => b
  end.

(** What an awaited promise produced: a value, or a thrown error with its
    [message]. *)
Inductive Awaited (A : Type) : Type :=
| Resolved (a : A)
| Rejected (message : option string).
Arguments Resolved {A} a.
Arguments Rejected {A} message.

End Js.

(** ** Data model *)

Module User.
Record t : Type := mk {
  id : Z;
  username : option string;
  email : option string;
  phone : option string;
  role : option string
}.
End User.

Module Incident.
Record t : Type := mk {
  id : Z;
  camera_id : option Z;
  type : option string;
  severity : option string;
  description : option string;
  status : option string;
  acknowledged : option bool;
  assigned_user_id : option Z;
  assigned_user : option User.t
}.

(** [{ ...inc, acknowledged: a, status: s }] *)
Definition with_ack (inc : t) (a : bool) (s : string) : t :=
  mk (id inc) (camera_id inc) (type inc) (severity inc) (description inc)
     (Some s) (Some a) (assigned_user_id inc) (assigned_user inc).

(** [{ ...inc, acknowledged: a, status: s, assigned_user_id: uid,
       assigned_user: u }] *)
Definition with_ack_assigned (inc : t) (a : bool) (s : string)
    (uid : option Z) (u : option User.t) : t :=
  mk (id inc) (camera_id inc) (type inc) (severity inc) (description inc)
     (Some s) (Some a) uid u.

(** [item.status === 'acknowledged' || item.acknowledged === true] *)
Definition shown_acknowledged (inc : t) : bool :=
  Js.str_is "acknowledged" (status inc) || Js.is_true (acknowledged inc).

(** The consistency invariant between the two encodings of the state. *)
Definition consistent (inc : t) : Prop :=
  status inc = Some "acknowledged" <-> acknowledged inc = Some true.

(** The pending state as the client writes it. *)
Definition is_pending (inc : t) : Prop :=
  status inc = Some "pending" /\ acknowledged inc = Some false.
End Incident.

(** ** services/api.js *)

Module Api.

(** The uniform result shape: [{ success: true, data }] or
    [{ success: false, status?, message }]. *)
Inductive Response (D : Type) : Type :=
| Ok (data : D)
| Err (status : option Z) (message : option string).
Arguments Ok {D} data.
Arguments Err {D} status message.

Definition success {D} (r : Response D) : bool :=
  match r with
  | Ok _ => true
  | Err _ _ => false
  end.

Definition message {D} (r : Response D) : option string :=
  match r with
  | Ok _ => None
  | Err _ m => m
  end.

(** What [fetch] followed by [res.json()] produced inside the [try]. *)
Inductive HttpReply (D : Type) : Type :=
| FetchFailed (message : option string)              (* fetch() rejected *)
| BadJson (http_status : Z) (message : option string) (* res.json() threw *)
| ReplyError (http_status : Z) (detail : option string)   (* !res.ok *)
| ReplyOk (payload : D).                             (* res.ok *)
Arguments FetchFailed {D}.
Arguments BadJson {D}.
Arguments ReplyError {D}.
Arguments ReplyOk {D}.

(** A network error or a non-success response. *)
Definition failed {D} (r : HttpReply D) : Prop :=
  match r with
  | ReplyOk _ => False
  | _ => True
  end.

(** The body of [POST /api/v1/incidents/]. *)
Record IncidentPayload : Type := mkPayload {
  p_camera_id : option Z;
  p_type : string;
  p_severity : string;
  p_severity_score : Z;
  p_description : string
}.

Inductive Body : Type :=
| NoBody
| IncidentBody (payload : IncidentPayload)
| NotifyBody (user_ids : list Z).

Record Request : Type := mkRequest {
  method : string;
  url : string;
  body : Body
}.

Definition js_bool (b : bool) : string := if b then "true" else "false".

Record UserInfo : Type := mkUserInfo {
  ui_username : option string;
  ui_phone : option string;
  ui_email : option string
}.

(** The two line feeds of the template strings. *)
Definition nl2 : string :=
  String (Ascii.ascii_of_nat 10) (String (Ascii.ascii_of_nat 10) EmptyString).

(** The description assembled by sendSOSAlert. *)
Definition sos_description (message : option string) (userInfo : option UserInfo)
  : string :=
  let d0 := "[SOS ALERT] " +:+
            Js.or_str message "Emergency SOS Alert triggered by user" in
  match userInfo with
  | None => d0
  | Some ui =>
      let d1 := if Js.truthy_str (ui_username ui)
                then d0 +:+ nl2 +:+ "User: " +:+ default "" (ui_username ui)
                else d0 in
      let d2 := if Js.truthy_str (ui_phone ui)
                then d1 +:+ nl2 +:+ "Phone: " +:+ default "" (ui_phone ui)
                else d1 in
      if Js.truthy_str (ui_email ui)
      then d2 +:+ nl2 +:+ "Email: " +:+ default "" (ui_email ui)
      else d2
  end.

Section WithBase.
Variable base : string.                  (* await getBaseUrl() *)
Variable BASE_URL : string.

Definition network_message (m : option string) : string :=
  Js.or_str m "Network error" +:+ " (base: " +:+ BASE_URL +:+ ")".

(** The common tail of the wrappers: [data.detail || fallback] when the
    response is not ok, the network message when anything threw. *)
Definition result_of {D} (fallback : string) (r : HttpReply D) : Response D :=
  match r with
  | ReplyOk d => Ok d
  | ReplyError _ detail => Err None (Some (Js.or_str detail fallback))
  | BadJson _ m => Err None (Some (network_message m))
  | FetchFailed m => Err None (Some (network_message m))
  end.

(** acknowledgeIncidentWithStatus(id, acknowledged = true) *)
Definition acknowledgeIncidentWithStatus_request (id : Z) (acknowledged : bool)
  : Request :=
  mkRequest "PUT"
    (base +:+ "/api/v1/incidents/" +:+ Js.string_of_Z id +:+
     "/acknowledge?acknowledged=" +:+ js_bool acknowledged)
    NoBody.

Definition acknowledgeIncidentWithStatus_result {D} (r : HttpReply D)
  : Response D :=
  result_of "Failed to acknowledge" r.

(** acknowledgeIncident(id) = acknowledgeIncidentWithStatus(id, true) *)
Definition acknowledgeIncident_request (id : Z) : Request :=
  acknowledgeIncidentWithStatus_request id true.

Definition acknowledgeIncident_result {D} (r : HttpReply D) : Response D :=
  acknowledgeIncidentWithStatus_result r.

(** createIncident(payload) *)
Definition createIncident_request (payload : IncidentPayload) : Request :=
  mkRequest "POST" (base +:+ "/api/v1/incidents/") (IncidentBody payload).

Definition createIncident_result {D} (r : HttpReply D) : Response D :=
  result_of "Failed to create incident" r.

(** sendSOSAlert(message, location, userInfo = null); the wrapper does not
    use [location], and the camera id of the body is the literal 1. *)
Definition sendSOSAlert_request (message : option string)
    (userInfo : option UserInfo) : Request :=
  mkRequest "POST" (base +:+ "/api/v1/incidents/")
    (IncidentBody
       (mkPayload (Some 1) "fall_health" "critical" 100
                  (sos_description message userInfo))).

Definition sendSOSAlert_result {D} (r : HttpReply D) : Response D :=
  result_of "Failed to send SOS alert" r.

(** getSOSAlerts(): all incidents are fetched and filtered client-side *)
Definition is_sos_alert (inc : Incident.t) : bool :=
  Js.opt_startsWith "[SOS ALERT]" (Incident.description inc).

Definition getSOSAlerts_result (r : HttpReply (list Incident.t))
  : Response (list Incident.t) :=
  match r with
  | ReplyOk data => Ok (List.filter is_sos_alert data)
  | other => result_of "Failed to fetch SOS alerts" other
  end.

(** notifyIncident(incidentId, userIds) *)
Definition notifyIncident_request (incidentId : Z) (userIds : list Z)
  : Request :=
  mkRequest "POST"
    (base +:+ "/api/v1/incidents/" +:+ Js.string_of_Z incidentId +:+ "/notify")
    (NotifyBody userIds).

Definition notifyIncident_result {D} (r : HttpReply D) : Response D :=
  match r with
  | ReplyOk d => Ok d
  | ReplyError st detail =>
      Err None (Some (Js.or_str detail
                        ("Server error (status " +:+ Js.string_of_Z st +:+ ")")))
  | BadJson st _ =>
      Err None (Some ("Server returned invalid JSON (status "
                      +:+ Js.string_of_Z st +:+ ")"))
  | FetchFailed m => Err None (Some (Js.or_str m "Network error"))
  end.
End WithBase.

End Api.

(** A call to [Alert.alert(title, message)]. *)
Record AlertMsg : Type := mkAlert { alert_title : string; alert_text : string }.

(** ** hooks/useIncidents.js *)

Module UseIncidents.
Import Js.

Record State : Type := mkState {
  incidents : list Incident.t;
  loading : bool;
  error : option string;
  alerts : list AlertMsg
}.

Definition initial : State := mkState [] true None [].

(** fetchIncidents, up to [await getIncidents()] *)
Definition fetchIncidents_begin (st : State) : State :=
  mkState (incidents st) true None (alerts st).

(** fetchIncidents, from the resolution of [getIncidents()] on *)
Definition fetchIncidents_resume
    (r : Awaited (Api.Response (list Incident.t))) (st : State) : State :=
  match r with
  | Resolved (Api.Ok data) => mkState data false (error st) (alerts st)
  | Resolved (Api.Err _ m) =>
      let msg := or_str m "Failed to fetch incidents." in
      mkState (incidents st) false (Some msg)
              (alerts st ++ [mkAlert "Error" msg])
  | Rejected _ =>
      let msg := "An unexpected error occurred while fetching incidents." in
      mkState (incidents st) false (Some msg)
              (alerts st ++ [mkAlert "Error" msg])
  end.

Inductive Event : Type :=
| FetchStart
| FetchResolve (r : Awaited (Api.Response (list Incident.t))).

Definition step (st : State) (e : Event) : State :=
  match e with
  | FetchStart => fetchIncidents_begin st
  | FetchResolve r => fetchIncidents_resume r st
  end.

Definition run (trace : list Event) (st : State) : State :=
  fold_left step trace st.

End UseIncidents.

(** ** screens/SecurityDashboard.jsx: SecurityDashboardScreen *)

Module SecurityDashboard.
Import Js.

Record State : Type := mkState {
  incidents : list Incident.t;
  loadingIncidents : bool;
  actionLoading : gmap Z bool;
  acknowledgedIncidentsRef : gset Z;
  alerts : list AlertMsg
}.

Definition initial : State := mkState [] true ∅ ∅ [].

(** The [response.data.map(...)] of fetchIncidents.  The callback reads and
    extends [acknowledgedIncidentsRef.current] while the array is walked,
    so the set is threaded through the traversal. *)
Fixpoint mergeAcknowledged (ref : gset Z) (data : list Incident.t)
  : list Incident.t * gset Z :=
  match data with
  | [] => ([], ref)
  | incident :: rest =>
      if bool_decide (Incident.id incident ∈ ref) then
        let '(out, ref') := mergeAcknowledged ref rest in
        (Incident.with_ack incident true "acknowledged" :: out, ref')
      else
        let ref1 :=
          if is_true (Incident.acknowledged incident)
             || str_is "acknowledged" (Incident.status incident)
          then {[Incident.id incident]} ∪ ref else ref in
        let '(out, ref') := mergeAcknowledged ref1 rest in
        (incident :: out, ref')
  end.

(** fetchIncidents, up to [await getIncidents()] *)
Definition fetchIncidents_begin (st : State) : State :=
  mkState (incidents st) true (actionLoading st)
          (acknowledgedIncidentsRef st) (alerts st).

(** fetchIncidents, from the resolution of [getIncidents()] on *)
Definition fetchIncidents_resume
    (r : Awaited (Api.Response (list Incident.t))) (st : State) : State :=
  match r with
  | Resolved (Api.Ok data) =>
      let '(updatedData, ref') :=
        mergeAcknowledged (acknowledgedIncidentsRef st) data in
      mkState updatedData false (actionLoading st) ref' (alerts st)
  | Resolved (Api.Err _ m) =>
      mkState (incidents st) false (actionLoading st)
              (acknowledgedIncidentsRef st)
              (alerts st ++
               [mkAlert "Error" (or_str m "Failed to fetch incidents.")])
  | Rejected _ =>
      mkState (incidents st) false (actionLoading st)
              (acknowledgedIncidentsRef st) (alerts st)
  end.

(** [prev.map(inc => inc.id === incidentId
                     ? { ...inc, acknowledged: a, status: s } : inc)] *)
Definition set_ack (incidentId : Z) (a : bool) (s : string)
    (prev : list Incident.t) : list Incident.t :=
  map (fun inc => if Incident.id inc =? incidentId
                  then Incident.with_ack inc a s else inc) prev.

(** acknowledge(incidentId), up to [await acknowledgeIncident(incidentId)] *)
Definition acknowledge_begin (incidentId : Z) (st : State) : State :=
  mkState (set_ack incidentId true "acknowledged" (incidents st))
          (loadingIncidents st)
          (<[incidentId := true]> (actionLoading st))
          ({[incidentId]} ∪ acknowledgedIncidentsRef st)
          (alerts st).

(** The revert shared by the [else] branch and the [catch] block. *)
Definition revert (incidentId : Z) (text : string) (st : State) : State :=
  mkState (set_ack incidentId false "pending" (incidents st))
          (loadingIncidents st)
          (<[incidentId := false]> (actionLoading st))
          (acknowledgedIncidentsRef st ∖ {[incidentId]})
          (alerts st ++ [mkAlert "Error" text]).

(** acknowledge(incidentId), from the resolution of the API call on *)
Definition acknowledge_resume {D} (incidentId : Z)
    (r : Awaited (Api.Response D)) (st : State) : State :=
  match r with
  | Resolved (Api.Ok _) =>
      mkState (incidents st) (loadingIncidents st)
              (<[incidentId := false]> (actionLoading st))
              (acknowledgedIncidentsRef st)
              (alerts st ++
               [mkAlert "Success"
                  "Incident marked as handled. Admin and incident reporter have been notified."])
  | Resolved (Api.Err _ m) =>
      revert incidentId (or_str m "Failed to acknowledge incident") st
  | Rejected _ =>
      revert incidentId "Failed to acknowledge incident" st
  end.

(** The whole handler against a backend reply: the API wrapper turns the
    reply into a result and never rejects. *)
Definition acknowledge {D} (BASE_URL : string) (incidentId : Z)
    (reply : Api.HttpReply D) (st : State) : State :=
  acknowledge_resume incidentId
    (Resolved (Api.acknowledgeIncident_result BASE_URL reply))
    (acknowledge_begin incidentId st).

(** The "Mark as Handled" button is rendered only for an incident that is
    not shown as acknowledged, and is disabled while its action is loading. *)
Definition handle_button_enabled (st : State) (item : Incident.t) : bool :=
  negb (Incident.shown_acknowledged item)
  && negb (default false (actionLoading st !! Incident.id item)).

(** The dashboard as an event system: refreshes (timer or pull) and
    acknowledgements start and resolve in any interleaving. *)
Inductive Event : Type :=
| FetchStart
| FetchResolve (r : Awaited (Api.Response (list Incident.t)))
| AckStart (incidentId : Z)
| AckResolve (incidentId : Z) (r : Awaited (Api.Response Incident.t)).

Definition step (st : State) (e : Event) : State :=
  match e with
  | FetchStart => fetchIncidents_begin st
  | FetchResolve r => fetchIncidents_resume r st
  | AckStart i => acknowledge_begin i st
  | AckResolve i r => acknowledge_resume i r st
  end.

Definition run (trace : list Event) (st : State) : State :=
  fold_left step trace st.

End SecurityDashboard.

(** ** SecurityDashboardNew (tabbed security dashboard, with assignment stamping) *)

Module SecurityDashboardNew.
Import Js.

Record State : Type := mkState {
  incidents : list Incident.t;
  sosAlerts : list Incident.t;
  loading : bool;
  actionLoading : gmap Z bool;
  acknowledgedIncidentsRef : gset Z;
  userProfile : option User.t;
  alerts : list AlertMsg
}.

Definition initial : State := mkState [] [] true ∅ ∅ None [].

(** [inc.description?.startsWith('[VIEWER REPORT]')] *)
Definition isViewerReport (inc : Incident.t) : bool :=
  opt_startsWith "[VIEWER REPORT]" (Incident.description inc).

(** [currentUserId && inc.assigned_user_id === currentUserId] *)
Definition isAssignedToMe (currentUserId : option Z) (inc : Incident.t) : bool :=
  truthy_num currentUserId &&
  match currentUserId, Incident.assigned_user_id inc with
  | Some u, Some a => a =? u
  | _, _ => false
  end.

(** The [map] of fetchData over a fetched list; the callback consults and
    extends [acknowledgedIncidentsRef.current] as it goes. *)
Fixpoint processIncidents (ref : gset Z) (data : list Incident.t)
  : list Incident.t * gset Z :=
  match data with
  | [] => ([], ref)
  | inc :: rest =>
      let enhanced :=
        if bool_decide (Incident.id inc ∈ ref)
        then Incident.with_ack inc true "acknowledged" else inc in
      let ref1 :=
        if is_true (Incident.acknowledged inc)
           || str_is "acknowledged" (Incident.status inc)
        then {[Incident.id inc]} ∪ ref else ref in
      let '(out, ref') := processIncidents ref1 rest in
      (enhanced :: out, ref')
  end.

(** [profileResponse.data?.id] *)
Definition profile_id (profileResponse : Api.Response User.t) : option Z :=
  match profileResponse with
  | Api.Ok u => Some (User.id u)
  | Api.Err _ _ => None
  end.

(** fetchData, from the resolution of the [Promise.all] on *)
Definition fetchData_resume
    (incidentsResponse sosResponse : Api.Response (list Incident.t))
    (profileResponse : Api.Response User.t) (st : State) : State :=
  let profile :=
    match profileResponse with
    | Api.Ok u => Some u
    | Api.Err _ _ => userProfile st
    end in
  let currentUserId := profile_id profileResponse in
  let '(incs, ref1) :=
    match incidentsResponse with
    | Api.Ok data =>
        processIncidents (acknowledgedIncidentsRef st)
          (List.filter (fun inc => isViewerReport inc
                                   || isAssignedToMe currentUserId inc) data)
    | Api.Err _ _ => (incidents st, acknowledgedIncidentsRef st)
    end in
  let '(sos, ref2) :=
    match sosResponse with
    | Api.Ok data => processIncidents ref1 data
    | Api.Err _ _ => (sosAlerts st, ref1)
    end in
  mkState incs sos false (actionLoading st) ref2 profile (alerts st).

(** updateFunc of handleAcknowledge *)
Definition updateFunc (incidentId : Z) (profile : option User.t)
    (prev : list Incident.t) : list Incident.t :=
  map (fun inc =>
         if Incident.id inc =? incidentId
         then Incident.with_ack_assigned inc true "acknowledged"
                (option_map User.id profile) profile
         else inc) prev.

(** revertFunc of handleAcknowledge *)
Definition revertFunc (incidentId : Z) (prev : list Incident.t)
  : list Incident.t :=
  map (fun inc =>
         if Incident.id inc =? incidentId
         then Incident.with_ack_assigned inc false "pending" None None
         else inc) prev.

(** [if (isSOS) setSOSAlerts(f); else setIncidents(f);] *)
Definition apply_to (isSOS : bool) (f : list Incident.t -> list Incident.t)
    (st : State) : list Incident.t * list Incident.t :=
  if isSOS then (incidents st, f (sosAlerts st))
  else (f (incidents st), sosAlerts st).

(** handleAcknowledge(incidentId, isSOS = false), up to the await *)
Definition handleAcknowledge_begin (incidentId : Z) (isSOS : bool) (st : State)
  : State :=
  let '(incs, sos) := apply_to isSOS (updateFunc incidentId (userProfile st)) st in
  mkState incs sos (loading st)
          (<[incidentId := true]> (actionLoading st))
          ({[incidentId]} ∪ acknowledgedIncidentsRef st)
          (userProfile st) (alerts st).

(** handleAcknowledge, from the resolution of the API call on.  The
    [catch] block only alerts. *)
Definition handleAcknowledge_resume {D} (incidentId : Z) (isSOS : bool)
    (r : Awaited (Api.Response D)) (st : State) : State :=
  match r with
  | Resolved (Api.Ok _) =>
      mkState (incidents st) (sosAlerts st) (loading st)
              (<[incidentId := false]> (actionLoading st))
              (acknowledgedIncidentsRef st) (userProfile st)
              (alerts st ++
               [mkAlert "Success"
                  "Incident handled by security! Admin and reporter have been notified."])
  | Resolved (Api.Err _ m) =>
      let '(incs, sos) := apply_to isSOS (revertFunc incidentId) st in
      mkState incs sos (loading st)
              (<[incidentId := false]> (actionLoading st))
              (acknowledgedIncidentsRef st ∖ {[incidentId]})
              (userProfile st)
              (alerts st ++
               [mkAlert "Error" (or_str m "Failed to handle incident")])
  | Rejected _ =>
      mkState (incidents st) (sosAlerts st) (loading st)
              (<[incidentId := false]> (actionLoading st))
              (acknowledgedIncidentsRef st) (userProfile st)
              (alerts st ++ [mkAlert "Error" "Failed to handle incident"])
  end.

(** The whole handler against a backend reply. *)
Definition handleAcknowledge {D} (BASE_URL : string) (incidentId : Z)
    (isSOS : bool) (reply : Api.HttpReply D) (st : State) : State :=
  handleAcknowledge_resume incidentId isSOS
    (Resolved (Api.acknowledgeIncident_result BASE_URL reply))
    (handleAcknowledge_begin incidentId isSOS st).

End SecurityDashboardNew.

(** ** screens/SecurityDashboardNew_v2.jsx: three separate tabs *)

Module SecurityDashboardNew_v2.
Import Js.

Record State : Type := mkState {
  incidents : list Incident.t;
  sosAlerts : list Incident.t;
  loading : bool;
  actionLoading : gmap Z bool;
  acknowledgedIncidentsRef : gset Z;
  userProfile : option User.t;
  alerts : list AlertMsg
}.

Definition initial : State := mkState [] [] true ∅ ∅ None [].

(** The per-list processing is the same code as in SecurityDashboardNew. *)
Definition processIncidents := SecurityDashboardNew.processIncidents.

(** fetchData, from the resolution of the [Promise.all] on: the incident
    list is kept whole, the tabs filter it. *)
Definition fetchData_resume
    (incidentsResponse sosResponse : Api.Response (list Incident.t))
    (profileResponse : Api.Response User.t) (st : State) : State :=
  let profile :=
    match profileResponse with
    | Api.Ok u => Some u
    | Api.Err _ _ => userProfile st
    end in
  let '(incs, ref1) :=
    match incidentsResponse with
    | Api.Ok data => processIncidents (acknowledgedIncidentsRef st) data
    | Api.Err _ _ => (incidents st, acknowledgedIncidentsRef st)
    end in
  let '(sos, ref2) :=
    match sosResponse with
    | Api.Ok data => processIncidents ref1 data
    | Api.Err _ _ => (sosAlerts st, ref1)
    end in
  mkState incs sos false (actionLoading st) ref2 profile (alerts st).

(** [i.description?.startsWith('[VIEWER REPORT]')] *)
Definition isViewerReport (i : Incident.t) : bool :=
  opt_startsWith "[VIEWER REPORT]" (Incident.description i).

(** [userProfile?.id && i.assigned_user_id === userProfile.id] *)
Definition isAssignedToMe (profile : option User.t) (i : Incident.t) : bool :=
  match profile with
  | Some u =>
      truthy_num (Some (User.id u)) &&
      match Incident.assigned_user_id i with
      | Some a => a =? User.id u
      | None => false
      end
  | None => false
  end.

(** renderViewerReportsTab: [viewerReports] *)
Definition viewerReports (st : State) : list Incident.t :=
  List.filter isViewerReport (incidents st).

(** renderSOSAlertsTab: the list shown is [sosAlerts] *)
Definition sosTab (st : State) : list Incident.t := sosAlerts st.

(** renderAssignedTab: [assignedIncidents] *)
Definition assignedIncidents (st : State) : list Incident.t :=
  List.filter (isAssignedToMe (userProfile st)) (incidents st).

(** [prev.map(inc => inc.id === incidentId ? {...inc, acknowledged, status} : inc)] *)
Definition set_ack (incidentId : Z) (a : bool) (s : string)
    (prev : list Incident.t) : list Incident.t :=
  map (fun inc => if Incident.id inc =? incidentId
                  then Incident.with_ack inc a s else inc) prev.

End SecurityDashboardNew_v2.

(** ** screens/ViewerDashboardClean_backup.jsx: ViewerDashboardScreen
       (camera-based filter, floating SOS button) *)

Module Camera.
Record t : Type := mk {
  id : Z;
  admin_user_id : option Z
}.
End Camera.

Module ViewerDashboardClean.
Import Js.

(** [Number(x)] for an id that may be [null]: [Number(null)] is [0]. *)
Definition Number (x : option Z) : Z := default 0 x.

(** The literal 29 of the filter: "AI worker cameras". *)
Definition AI_CAMERA_MIN : Z := 29.

(** [new Set(cameras.filter(c => Number(c.admin_user_id) === Number(user.id))
                   .map(c => c.id))] *)
Definition ownedCameraIds (user : User.t) (cameras : list Camera.t) : gset Z :=
  list_to_set
    (map Camera.id
       (List.filter (fun c => Number (Camera.admin_user_id c) =? User.id user)
                    cameras)).

(** The callback of [allIncidents.filter(...)]. *)
Definition visible (owned : gset Z) (inc : Incident.t) : bool :=
  let cameraId := Number (Incident.camera_id inc) in
  let ownedByUser := bool_decide (cameraId ∈ owned) in
  let isAICamera := AI_CAMERA_MIN <=? cameraId in
  ownedByUser || isAICamera.

Definition filteredIncidents (user : User.t) (cameras : list Camera.t)
    (allIncidents : list Incident.t) : list Incident.t :=
  List.filter (visible (ownedCameraIds user cameras)) allIncidents.

Record State : Type := mkState {
  incidents : list Incident.t;
  loadingIncidents : bool;
  sosDisabled : bool;
  sosSentRef : bool;
  sosDialogs : list (option Z);  (* the "Emergency SOS" confirmations that are
                                    up, the last raised first, each with the
                                    [incidents?.[0]?.camera_id] of the render
                                    whose button raised it *)
  bannerMessage : string;
  bannerVisible : bool;
  requests : list Api.Request;   (* createIncident calls issued so far *)
  fetches : nat                  (* fetchIncidents() calls started so far *)
}.

Definition initial : State :=
  mkState [] true false false [] "" false [] 0.

(** fetchIncidents, from the resolution of the [Promise.all] on.  When the
    three results are successful the filtered list is installed; a 401 or
    a failed result alerts and leaves the list as it is.  The alerts, the
    "new incident(s)" banner of a silent refresh and [prevIdsRef] are not
    part of this state. *)
Definition fetchIncidents_resume
    (meRes : Api.Response User.t) (camsRes : Api.Response (list Camera.t))
    (incidentsRes : Api.Response (list Incident.t)) (st : State) : State :=
  match meRes, camsRes, incidentsRes with
  | Api.Ok user, Api.Ok cameras, Api.Ok allIncidents =>
      mkState (filteredIncidents user cameras allIncidents) false
              (sosDisabled st) (sosSentRef st) (sosDialogs st)
              (bannerMessage st) (bannerVisible st) (requests st) (fetches st)
  | _, _, _ =>
      mkState (incidents st) false
              (sosDisabled st) (sosSentRef st) (sosDialogs st)
              (bannerMessage st) (bannerVisible st) (requests st) (fetches st)
  end.

(** [!sosDisabled && !sosSentRef.current]: the floating button is rendered;
    otherwise the text "SOS Sent" takes its place. *)
Definition sos_button_rendered (st : State) : bool :=
  negb (sosDisabled st) && negb (sosSentRef st).

(** [incidents?.[0]?.camera_id] *)
Definition first_camera_id (st : State) : option Z :=
  match incidents st with
  | [] => None
  | inc :: _ => Incident.camera_id inc
  end.

Definition sos_payload (cameraId : Z) : Api.IncidentPayload :=
  Api.mkPayload (Some cameraId) "fall_health" "critical" 100
                "SOS triggered by viewer".

Section WithBase.
Variable base : string.

(** "Send SOS" of a confirmation, up to [await createIncident(payload)];
    [cameraId] is the [incidents?.[0]?.camera_id] of the closure.  The
    latch (ref and state) is written first; the handler does not read it. *)
Definition sendSOS_begin (cameraId : option Z) (st : State) : State :=
  if truthy_num cameraId then
    mkState (incidents st) (loadingIncidents st) true true (sosDialogs st)
            (bannerMessage st) (bannerVisible st)
            (requests st ++
             [Api.createIncident_request base (sos_payload (default 0 cameraId))])
            (fetches st)
  else
    mkState (incidents st) (loadingIncidents st) true true (sosDialogs st)
            "SOS sent — security notified" true
            (requests st) (fetches st).

(** "Send SOS", from the resolution of [createIncident] on. *)
Definition sendSOS_resume {D} (r : Awaited (Api.Response D)) (st : State)
  : State :=
  match r with
  | Resolved (Api.Ok _) =>
      mkState (incidents st) (loadingIncidents st) (sosDisabled st)
              (sosSentRef st) (sosDialogs st)
              "SOS sent — emergency incident created" true
              (requests st) (S (fetches st))
  | Resolved (Api.Err _ _) =>
      mkState (incidents st) (loadingIncidents st) (sosDisabled st)
              (sosSentRef st) (sosDialogs st)
              "SOS sent (offline mode)" true (requests st) (fetches st)
  | Rejected _ =>
      mkState (incidents st) (loadingIncidents st) (sosDisabled st)
              (sosSentRef st) (sosDialogs st)
              "SOS sent (will sync when online)" true (requests st) (fetches st)
  end.

(** The confirmations that are up, replaced. *)
Definition with_dialogs (ds : list (option Z)) (st : State) : State :=
  mkState (incidents st) (loadingIncidents st) (sosDisabled st)
          (sosSentRef st) ds (bannerMessage st) (bannerVisible st)
          (requests st) (fetches st).

(** What the user and the network can do to the mounted screen.  A press
    needs the button to be rendered, and each press calls [Alert.alert]:
    the onPress tests nothing, so a second press that lands before the
    first confirmation is on the screen raises a second one.  The buttons
    of a confirmation exist while it is up; the one answered is the one
    on top. *)
Inductive Event : Type :=
| PressSOS
| DialogCancel
| DialogSendSOS
| CreateResolve (r : Awaited (Api.Response Incident.t))
| FetchResolve (meRes : Api.Response User.t)
               (camsRes : Api.Response (list Camera.t))
               (incidentsRes : Api.Response (list Incident.t)).

Definition step (st : State) (e : Event) : State :=
  match e with
  | PressSOS =>
      if sos_button_rendered st
      then with_dialogs (first_camera_id st :: sosDialogs st) st
      else st
  | DialogCancel => with_dialogs (tail (sosDialogs st)) st
  | DialogSendSOS =>
      match sosDialogs st with
      | cameraId :: rest => sendSOS_begin cameraId (with_dialogs rest st)
      | [] => st
      end
  | CreateResolve r => sendSOS_resume r st
  | FetchResolve meRes camsRes incidentsRes =>
      fetchIncidents_resume meRes camsRes incidentsRes st
  end.

Definition run (trace : list Event) (st : State) : State :=
  fold_left step trace st.
End WithBase.

End ViewerDashboardClean.

(** ** ViewerDashboardNew (tabbed viewer dashboard, SOS modal) *)

Module ViewerDashboardNew.
Import Js.

(** The callback of [newList.filter(...)] in fetchIncidents. *)
Definition visible (userProfile : option User.t) (incident : Incident.t) : bool :=
  let description := Incident.description incident in
  let currentUsername :=
    or_str (match userProfile with Some u => User.username u | None => None end) "" in
  if opt_startsWith "[SOS ALERT]" description
     && negb (String.eqb currentUsername "")
     && opt_includes ("User: " +:+ currentUsername) description
  then true
  else if opt_startsWith "[VIEWER REPORT]" description
  then false
  else true.

Definition filteredList (userProfile : option User.t)
    (newList : list Incident.t) : list Incident.t :=
  List.filter (visible userProfile) newList.

Record State : Type := mkState {
  incidents : list Incident.t;
  userProfile : option User.t;
  sosModal : bool;
  sosMessage : string;
  editPhone : string;
  alerts : list AlertMsg;
  requests : list Api.Request;   (* sendSOSAlert calls issued so far *)
  fetches : nat
}.

Definition initial : State := mkState [] None false "" "" [] [] 0.

(** White space as [String.prototype.trim] takes it (WhiteSpace and
    LineTerminator of ECMAScript), read on the UTF-8 bytes of the string.
    One byte: U+0009 to U+000D and U+0020. *)
Definition is_space (c : Ascii.ascii) : bool :=
  let n := Ascii.nat_of_ascii c in
  ((9 <=? n) && (n <=? 13))%nat || (n =? 32)%nat.

(** Two bytes: U+00A0 (C2 A0). *)
Definition is_space2 (c1 c2 : Ascii.ascii) : bool :=
  ((Ascii.nat_of_ascii c1 =? 194) && (Ascii.nat_of_ascii c2 =? 160))%nat.

(** Three bytes: U+1680 (E1 9A 80), U+2000 to U+200A (E2 80 80 to 8A),
    U+2028, U+2029, U+202F (E2 80 A8, A9, AF), U+205F (E2 81 9F),
    U+3000 (E3 80 80) and U+FEFF (EF BB BF). *)
Definition is_space3 (c1 c2 c3 : Ascii.ascii) : bool :=
  let n1 := Ascii.nat_of_ascii c1 in
  let n2 := Ascii.nat_of_ascii c2 in
  let n3 := Ascii.nat_of_ascii c3 in
  ((n1 =? 225) && (n2 =? 154) && (n3 =? 128)
   || (n1 =? 226) && (n2 =? 128)
      && ((128 <=? n3) && (n3 <=? 138)
          || (n3 =? 168) || (n3 =? 169) || (n3 =? 175))
   || (n1 =? 226) && (n2 =? 129) && (n3 =? 159)
   || (n1 =? 227) && (n2 =? 128) && (n3 =? 128)
   || (n1 =? 239) && (n2 =? 187) && (n3 =? 191))%nat.

(** What follows the white-space character the string starts with, if it
    starts with one. *)
Definition after_space (s : string) : option string :=
  match s with
  | String c1 s1 =>
      if is_space c1 then Some s1
      else
        match s1 with
        | String c2 s2 =>
            if is_space2 c1 c2 then Some s2
            else
              match s2 with
              | String c3 s3 => if is_space3 c1 c2 c3 then Some s3 else None
              | EmptyString => None
              end
        | EmptyString => None
        end
  | EmptyString => None
  end.

(** [s.trimStart()] *)
Fixpoint trimStart (s : string) : string :=
  match s with
  | String c1 s1 =>
      if is_space c1 then trimStart s1
      else
        match s1 with
        | String c2 s2 =>
            if is_space2 c1 c2 then trimStart s2
            else
              match s2 with
              | String c3 s3 => if is_space3 c1 c2 c3 then trimStart s3 else s
              | EmptyString => s
              end
        | EmptyString => s
        end
  | EmptyString => EmptyString
  end.

(** The string is white space from end to end. *)
Definition is_blank (s : string) : bool :=
  match trimStart s with
  | EmptyString => true
  | String _ _ => false
  end.

(** [s.trimEnd()]: the string up to its last stretch of white space. *)
Fixpoint trimEnd (s : string) : string :=
  match s with
  | String c s' => if is_blank s then EmptyString else String c (trimEnd s')
  | EmptyString => EmptyString
  end.

(** [s.trim()] *)
Definition trim (s : string) : string := trimEnd (trimStart s).

(** [a || b] where the result may still be falsy. *)
Definition or_opt (a b : option string) : option string :=
  if truthy_str a then a else b.

Definition sos_userInfo (st : State) : Api.UserInfo :=
  let prop (f : User.t -> option string) :=
    match userProfile st with Some u => f u | None => None end in
  Api.mkUserInfo
    (Some (or_str (prop User.username) "Unknown User"))
    (Some (or_str (or_opt (prop User.phone) (Some (editPhone st))) "N/A"))
    (Some (or_str (prop User.email) "N/A")).

Section WithBase.
Variable base : string.

(** handleSOS, up to [await sendSOSAlert(...)]: nothing is written to the
    state before the call. *)
Definition handleSOS_begin (st : State) : State :=
  let message := or_str (Some (trim (sosMessage st))) "Emergency SOS Alert!" in
  mkState (incidents st) (userProfile st) (sosModal st) (sosMessage st)
          (editPhone st) (alerts st)
          (requests st ++
           [Api.sendSOSAlert_request base (Some message) (Some (sos_userInfo st))])
          (fetches st).

(** handleSOS, from the resolution of [sendSOSAlert] on. *)
Definition handleSOS_resume {D} (r : Awaited (Api.Response D)) (st : State)
  : State :=
  match r with
  | Resolved (Api.Ok _) =>
      mkState (incidents st) (userProfile st) false "" (editPhone st)
              (alerts st ++
               [mkAlert "âœ“ SOS Sent"
                  "Emergency alert has been sent to security personnel"])
              (requests st) (S (fetches st))
  | Resolved (Api.Err _ m) =>
      mkState (incidents st) (userProfile st) (sosModal st) (sosMessage st)
              (editPhone st)
              (alerts st ++
               [mkAlert "Error"
                  ("Failed to send SOS alert: " +:+ or_str m "Unknown error")])
              (requests st) (fetches st)
  | Rejected _ =>
      mkState (incidents st) (userProfile st) (sosModal st) (sosMessage st)
              (editPhone st)
              (alerts st ++
               [mkAlert "Error" "Failed to send SOS alert. Please try again."])
              (requests st) (fetches st)
  end.

(** The SOS modal: its "Send SOS Alert" button exists while [sosModal]
    is true and calls handleSOS. *)
Inductive Event : Type :=
| OpenSOSModal
| CancelSOSModal
| PressSendSOSAlert
| SOSResolve (r : Awaited (Api.Response Incident.t)).

Definition step (st : State) (e : Event) : State :=
  match e with
  | OpenSOSModal =>
      mkState (incidents st) (userProfile st) true (sosMessage st)
              (editPhone st) (alerts st) (requests st) (fetches st)
  | CancelSOSModal =>
      mkState (incidents st) (userProfile st) false "" (editPhone st)
              (alerts st) (requests st) (fetches st)
  | PressSendSOSAlert =>
      if sosModal st then handleSOS_begin st else st
  | SOSResolve r => handleSOS_resume r st
  end.

Definition run (trace : list Event) (st : State) : State :=
  fold_left step trace st.
End WithBase.

End ViewerDashboardNew.

(** ** GrantAccessScreen: bulk assignment of incidents to one security user *)

Module GrantAccess.
Import Js.

Section WithBackend.
Variable D : Type.                             (* body of a notify reply *)
Variable base : string.
(** The reply of the backend to the notify call of each incident. *)
Variable backend : Z -> Api.HttpReply D.

(** [Object.keys(selectedIncidents).filter(k => selectedIncidents[k])
           .map(id => Number(id))]; the object is given by its
    properties in key order. *)
Definition selectedIds (selectedIncidents : list (Z * bool)) : list Z :=
  map fst (List.filter snd selectedIncidents).

(** What submit() did. *)
Inductive Outcome : Type :=
| Refused (alert : AlertMsg)
| Dispatched (calls : list Api.Request)
             (succeeded failed : list (Api.Response D))
             (alert : AlertMsg)
             (goBack : bool).

(** [results.filter(r => r && r.success)] *)
Definition succeeded_of (results : list (Api.Response D)) : list (Api.Response D) :=
  List.filter Api.success results.

(** [results.filter(r => !r || !r.success)] *)
Definition failed_of (results : list (Api.Response D)) : list (Api.Response D) :=
  List.filter (fun r => negb (Api.success r)) results.

(** [failed[0]?.message] *)
Definition first_message (failed : list (Api.Response D)) : option string :=
  match failed with
  | [] => None
  | r :: _ => Api.message r
  end.

Definition success_text (succeeded failed : nat) : string :=
  "Assigned " +:+ string_of_nat succeeded +:+ " incident(s) to security personnel."
  +:+ (if (0 <? failed)%nat then " " +:+ string_of_nat failed +:+ " failed." else "").

(** submit() *)
Definition submit (selectedIncidents : list (Z * bool)) (selectedUser : option Z)
  : Outcome :=
  let incidentIds := selectedIds selectedIncidents in
  if (length incidentIds =? 0)%nat then
    Refused (mkAlert "Select Incidents" "Please select at least one incident")
  else
    match selectedUser with
    | None =>
        Refused (mkAlert "Select Security" "Please select one security personnel")
    | Some user =>
        if user =? 0 then
          Refused (mkAlert "Select Security" "Please select one security personnel")
        else
          (* one notifyIncident per incident, joined by Promise.all *)
          let calls :=
            map (fun incId => Api.notifyIncident_request base incId [user])
                incidentIds in
          let results :=
            map (fun incId => Api.notifyIncident_result (backend incId))
                incidentIds in
          let succeeded := succeeded_of results in
          let failed := failed_of results in
          if (0 <? length succeeded)%nat then
            Dispatched calls succeeded failed
              (mkAlert "Success" (success_text (length succeeded) (length failed)))
              true
          else
            Dispatched calls succeeded failed
              (mkAlert "Error"
                 ("Failed to assign incidents: "
                  +:+ or_str (first_message failed) "Unknown error"))
              false
    end.
End WithBackend.

Arguments Refused {D}.
Arguments Dispatched {D}.

End GrantAccess.

(** ** Evidence *)

Module Evidence.
Record t : Type := mk {
  id : Z;
  incident_id : Z;
  file_path : option string;
  blockchain_tx_hash : option string;
  verification_status : option string;
  tamper_status : option string;
  can_verify : bool
}.

(** [{ ...ev, tamper_status: s, verification_status: s }] *)
Definition with_status (ev : t) (s : option string) : t :=
  mk (id ev) (incident_id ev) (file_path ev) (blockchain_tx_hash ev) s s
     (can_verify ev).
End Evidence.

(** The body of a successful verify reply. *)
Record VerifyData : Type := mkVerifyData {
  v_status : option string;
  v_message : option string;
  v_blockchain_hash : option string;
  v_current_hash : option string
}.

(** ** EvidenceStore (in screens/SecurityDashboard.jsx) *)

Module EvidenceStore.
Import Js.

Record Badge : Type := mkBadge { badge_text : string; badge_color : string }.

(** getVerificationBadge(item) *)
Definition getVerificationBadge (item : Evidence.t) : Badge :=
  if negb (truthy_str (Evidence.blockchain_tx_hash item)) then
    mkBadge "Not on Blockchain" "bg-gray-400"
  else if str_is "VERIFIED" (Evidence.verification_status item) then
    mkBadge "✅ Verified" "bg-green-500"
  else if str_is "TAMPERED" (Evidence.verification_status item) then
    mkBadge "❌ Tampered" "bg-red-500"
  else
    mkBadge "⏳ Pending" "bg-yellow-500".

(** [userRole === 'admin' || userRole === 'viewer'] *)
Definition canVerify (userRole : option string) : bool :=
  str_is "admin" userRole || str_is "viewer" userRole.

(** What renderItem puts on the screen for one item. *)
Inductive ItemView : Type :=
| InvalidCard                       (* "Invalid evidence data" *)
| Card (badge : Badge)
       (verifyButton : bool)        (* "Verify Evidence", calls handleVerifyEvidence(item.id) *)
       (notOnBlockchain : bool).    (* the "Not on blockchain" notice *)

(** renderItem({ item }) *)
Definition renderItem (userRole : option string) (item : Evidence.t) : ItemView :=
  if negb (truthy_num (Some (Evidence.id item)))
     || negb (truthy_num (Some (Evidence.incident_id item)))
     || negb (truthy_str (Evidence.file_path item))
  then InvalidCard
  else
    Card (getVerificationBadge item)
         (canVerify userRole && truthy_str (Evidence.blockchain_tx_hash item))
         (canVerify userRole && negb (truthy_str (Evidence.blockchain_tx_hash item))).

Definition verify_offered (v : ItemView) : bool :=
  match v with
  | InvalidCard => false
  | Card _ b _ => b
  end.

(** What handleVerifyEvidence(evidenceId) does before any await. *)
Inductive Action : Type :=
| Denied (alert : AlertMsg)
| AskConfirmation (evidenceId : Z).   (* Alert with "Cancel" and "Verify" *)

(** handleVerifyEvidence(evidenceId) *)
Definition handleVerifyEvidence (userRole : option string) (evidenceId : Z)
  : Action :=
  if str_is "security" userRole then
    Denied (mkAlert "Permission Denied" "Security role cannot verify evidence")
  else if negb (truthy_str userRole)
          || (negb (str_is "admin" userRole) && negb (str_is "viewer" userRole))
  then
    Denied (mkAlert "Permission Denied"
              "You do not have permission to verify evidence")
  else AskConfirmation evidenceId.

Section WithBase.
Variable base : string.

(** verifyEvidence(evidenceId): the request *)
Definition verifyEvidence_request (evidenceId : Z) : Api.Request :=
  Api.mkRequest "POST"
    (base +:+ "/api/v1/evidence/" +:+ string_of_Z evidenceId +:+ "/verify")
    Api.NoBody.

(** The network calls of one invocation of the handler; [pressVerify]
    tells which button of the confirmation the user takes. *)
Definition handler_calls (userRole : option string) (evidenceId : Z)
    (pressVerify : bool) : list Api.Request :=
  match handleVerifyEvidence userRole evidenceId with
  | Denied _ => []
  | AskConfirmation i => if pressVerify then [verifyEvidence_request i] else []
  end.

(** The network calls a user can cause from the card of one item: the
    handler runs only through the button that renderItem puts there. *)
Definition item_calls (userRole : option string) (item : Evidence.t)
    (pressVerify : bool) : list Api.Request :=
  if verify_offered (renderItem userRole item)
  then handler_calls userRole (Evidence.id item) pressVerify
  else [].
End WithBase.

End EvidenceStore.

(** ** EvidenceStoreSecure (in screens/SecurityDashboard.jsx) *)

Module EvidenceStoreSecure.
Import Js.

Record State : Type := mkState {
  evidence : list Evidence.t;
  loading : bool;
  alerts : list AlertMsg
}.

Definition initial : State := mkState [] false [].

(** fetchEvidence, from the resolution of [getSecureEvidence()] on: the
    list in the state is replaced by [response.data || []]. *)
Definition fetchEvidence_resume
    (r : Awaited (Api.Response (list Evidence.t))) (st : State) : State :=
  match r with
  | Resolved (Api.Ok data) => mkState data false (alerts st)
  | Resolved (Api.Err status m) =>
      let a :=
        if match status with Some 401 => true | _ => false end
           || opt_includes "authenticated" m
        then mkAlert "Authentication Required"
               "Your session has expired. Please log in again."
        else mkAlert "Error" (or_str m "Failed to load evidence") in
      mkState (evidence st) false (alerts st ++ [a])
  | Rejected m =>
      let a :=
        if opt_includes "authenticated" m
        then mkAlert "Authentication Required"
               "Please log in to access the Evidence Store"
        else mkAlert "Error" (or_str m "Network error") in
      mkState (evidence st) false (alerts st ++ [a])
  end.

(** The [setEvidence(prevEvidence => prevEvidence.map(...))] of a
    successful verification. *)
Definition set_status (evidenceId : Z) (s : option string)
    (prevEvidence : list Evidence.t) : list Evidence.t :=
  map (fun ev => if Evidence.id ev =? evidenceId
                 then Evidence.with_status ev s else ev) prevEvidence.

(** The "Verify" button of the confirmation, from the resolution of
    [verifySecureEvidence] on (the alerts that show the result and the
    [verifying] spinner map are left out). *)
Definition verify_resume (evidenceId : Z)
    (r : Awaited (Api.Response VerifyData)) (st : State) : State :=
  match r with
  | Resolved (Api.Ok data) =>
      mkState (set_status evidenceId (v_status data) (evidence st))
              (loading st) (alerts st)
  | Resolved (Api.Err _ m) =>
      mkState (evidence st) (loading st)
              (alerts st ++ [mkAlert "Verification Failed" (or_str m "Unknown error")])
  | Rejected m =>
      mkState (evidence st) (loading st)
              (alerts st ++ [mkAlert "Error" (or_str m "Failed to verify evidence")])
  end.

(** renderEvidenceCard: the "Verify Evidence" button is rendered under
    [item.can_verify &&] and is disabled while [verifying[item.id]]. *)
Definition verify_offered (item : Evidence.t) : bool := Evidence.can_verify item.

(** What handleVerifyEvidence(evidenceItem) does before any await. *)
Inductive Action : Type :=
| Denied (alert : AlertMsg)
| AskConfirmation (evidenceId : Z).   (* Alert with "Cancel" and "Verify" *)

(** handleVerifyEvidence(evidenceItem).  [userRole] is the state of the
    component, set by loadUserRole: the handler does not read it. *)
Definition handleVerifyEvidence (userRole : option string)
    (evidenceItem : Evidence.t) : Action :=
  if negb (Evidence.can_verify evidenceItem) then
    Denied (mkAlert "Permission Denied" "Only administrators can verify evidence")
  else AskConfirmation (Evidence.id evidenceItem).

Section WithBase.
Variable base : string.

(** verifySecureEvidence(evidenceId): the request *)
Definition verifySecureEvidence_request (evidenceId : Z) : Api.Request :=
  Api.mkRequest "POST"
    (base +:+ "/api/v1/evidence-secure/" +:+ string_of_Z evidenceId +:+ "/verify")
    Api.NoBody.

(** The network calls of verifySecureEvidence(evidenceId): authHeaders()
    throws without a stored 'userToken', and the function returns a
    failure without a fetch. *)
Definition verifySecureEvidence_calls (userToken : option string)
    (evidenceId : Z) : list Api.Request :=
  if negb (truthy_str userToken) then []
  else [verifySecureEvidence_request evidenceId].

(** The network calls of one invocation of the handler; [pressVerify]
    tells which button of the confirmation the user takes. *)
Definition handler_calls (userToken userRole : option string)
    (evidenceItem : Evidence.t) (pressVerify : bool) : list Api.Request :=
  match handleVerifyEvidence userRole evidenceItem with
  | Denied _ => []
  | AskConfirmation i =>
      if pressVerify then verifySecureEvidence_calls userToken i else []
  end.

(** The network calls a user can cause from the card of one item;
    [busy] is [verifying[item.id]]. *)
Definition item_calls (userToken userRole : option string) (busy : bool)
    (item : Evidence.t) (pressVerify : bool) : list Api.Request :=
  if verify_offered item && negb busy
  then handler_calls userToken userRole item pressVerify
  else [].
End WithBase.

(** The label of getTamperStatusBadge(item.tamper_status). *)
Definition badge_label (item : Evidence.t) : string :=
  if str_is "VERIFIED" (Evidence.tamper_status item) then "VERIFIED"
  else if str_is "TAMPERED" (Evidence.tamper_status item) then "TAMPERED"
  else if str_is "FILE_MISSING" (Evidence.tamper_status item) then "FILE MISSING"
  else "PENDING".

(** The labels on the screen, by evidence id. *)
Definition shown (st : State) : list (Z * string) :=
  map (fun ev => (Evidence.id ev, badge_label ev)) (evidence st).

Inductive Event : Type :=
| FetchResolve (r : Awaited (Api.Response (list Evidence.t)))
| VerifyResolve (evidenceId : Z) (r : Awaited (Api.Response VerifyData)).

Definition step (st : State) (e : Event) : State :=
  match e with
  | FetchResolve r => fetchEvidence_resume r st
  | VerifyResolve i r => verify_resume i r st
  end.

Definition run (trace : list Event) (st : State) : State :=
  fold_left step trace st.

End EvidenceStoreSecure.

(** ** IncidentDetailScreen (in screens/SecurityDashboard.jsx): evidence of one incident *)

Module IncidentDetail.
Import Js.

Record State : Type := mkState {
  evidence_items : list Evidence.t;           (* incident.evidence_items *)
  verificationResults : gmap Z VerifyData
}.

(** handleRefresh: [setIncident(freshIncident)] *)
Definition handleRefresh_resume (fresh : list Evidence.t) (st : State) : State :=
  mkState fresh (verificationResults st).

(** handleVerifyEvidence: [setVerificationResults(prev => ({...prev, [id]: {...}}))];
    the record kept has the status and the two hashes of the reply. *)
Definition verify_resume (evidenceId : Z)
    (r : Awaited (Api.Response VerifyData)) (st : State) : State :=
  match r with
  | Resolved (Api.Ok data) =>
      mkState (evidence_items st) (<[evidenceId := data]> (verificationResults st))
  | _ => st
  end.

(** [verificationResults[item.id]?.status || item.verification_status] *)
Definition shown_status (st : State) (item : Evidence.t) : option string :=
  match verificationResults st !! Evidence.id item with
  | Some res =>
      if truthy_str (v_status res) then v_status res
      else Evidence.verification_status item
  | None => Evidence.verification_status item
  end.

(** canVerifyEvidence() *)
Definition canVerifyEvidence (userRole : option string) : bool :=
  if str_is "security" userRole then false
  else str_is "admin" userRole || str_is "viewer" userRole.

(** renderEvidence: the verification section of an item, with its
    "Verify Evidence" button, is rendered under
    [canVerifyEvidence() && item.blockchain_tx_hash]. *)
Definition verify_offered (userRole : option string) (item : Evidence.t) : bool :=
  canVerifyEvidence userRole && truthy_str (Evidence.blockchain_tx_hash item).

(** What handleVerifyEvidence(evidenceItem) does before any await: it
    tests the id of the item and nothing else. *)
Inductive Action : Type :=
| NotFound (alert : AlertMsg)
| Verify (evidenceId : Z).

Definition handleVerifyEvidence (evidenceItem : Evidence.t) : Action :=
  if negb (truthy_num (Some (Evidence.id evidenceItem))) then
    NotFound (mkAlert "Error" "Evidence ID not found")
  else Verify (Evidence.id evidenceItem).

Section WithBase.
Variable base : string.

(** The network calls of one invocation of the handler. *)
Definition handler_calls (evidenceItem : Evidence.t) : list Api.Request :=
  match handleVerifyEvidence evidenceItem with
  | NotFound _ => []
  | Verify i => [EvidenceStore.verifyEvidence_request base i]
  end.

(** The network calls a user can cause from the section of one item; the
    button is disabled while [loading]. *)
Definition item_calls (userRole : option string) (loading : bool)
    (item : Evidence.t) : list Api.Request :=
  if verify_offered userRole item && negb loading
  then handler_calls item
  else [].
End WithBase.

End IncidentDetail.

(** ** screens/AdminDashboard.jsx: AdminDashboardScreen (optimistic acknowledge) *)

Module AdminDashboard.
Import Js.

Record State : Type := mkState {
  incidents : list Incident.t;
  actionLoading : gmap Z bool;
  alerts : list AlertMsg
}.

(** [prevIncidents.map(inc => inc.id === incidentId
                              ? { ...inc, acknowledged: a, status: s } : inc)] *)
Definition set_ack (incidentId : Z) (a : bool) (s : string)
    (prevIncidents : list Incident.t) : list Incident.t :=
  map (fun inc => if Incident.id inc =? incidentId
                  then Incident.with_ack inc a s else inc) prevIncidents.

(** acknowledge(incidentId), up to the await: the optimistic update *)
Definition acknowledge_begin (incidentId : Z) (st : State) : State :=
  mkState (set_ack incidentId true "acknowledged" (incidents st))
          (<[incidentId := true]> (actionLoading st)) (alerts st).

(** acknowledge(incidentId), from the resolution of the API call on *)
Definition acknowledge_resume {D} (incidentId : Z)
    (r : Awaited (Api.Response D)) (st : State) : State :=
  match r with
  | Resolved (Api.Ok _) =>
      mkState (incidents st) (<[incidentId := false]> (actionLoading st))
              (alerts st ++ [mkAlert "Success" "Incident acknowledged"])
  | Resolved (Api.Err _ m) =>
      mkState (set_ack incidentId false "pending" (incidents st))
              (<[incidentId := false]> (actionLoading st))
              (alerts st ++
               [mkAlert "Error" (or_str m "Failed to acknowledge incident")])
  | Rejected m =>
      mkState (set_ack incidentId false "pending" (incidents st))
              (<[incidentId := false]> (actionLoading st))
              (alerts st ++
               [mkAlert "Error"
                  ("Failed to acknowledge incident: " +:+ or_str m "Unknown error")])
  end.

(** The whole handler against a backend reply. *)
Definition acknowledge {D} (BASE_URL : string) (incidentId : Z)
    (reply : Api.HttpReply D) (st : State) : State :=
  acknowledge_resume incidentId
    (Resolved (Api.acknowledgeIncident_result BASE_URL reply))
    (acknowledge_begin incidentId st).

End AdminDashboard.

(** ** AdminDashboardScreen of screens/Acknowledgement.jsx
       (one action button labelled "Revoke" or "Acknowledge") *)

Module AdminDashboardRevoke.
Import Js.

Record State : Type := mkState {
  incidents : list Incident.t;
  loadingIncidents : bool;
  actionLoading : gmap Z bool;
  alerts : list AlertMsg;
  requests : list Api.Request      (* API calls issued so far *)
}.

Definition initial : State := mkState [] true ∅ [] [].

(** The text of the action button of renderIncidentItem. *)
Definition action_label (item : Incident.t) : string :=
  if Incident.shown_acknowledged item then "Revoke" else "Acknowledge".

Section WithBase.
Variable base : string.

Definition getIncidents_request : Api.Request :=
  Api.mkRequest "GET" (base +:+ "/api/v1/incidents/") Api.NoBody.

(** fetchIncidents, up to [await getIncidents()] *)
Definition fetchIncidents_begin (st : State) : State :=
  mkState (incidents st) true (actionLoading st) (alerts st)
          (requests st ++ [getIncidents_request]).

(** fetchIncidents, from the resolution of [getIncidents()] on *)
Definition fetchIncidents_resume
    (r : Awaited (Api.Response (list Incident.t))) (st : State) : State :=
  match r with
  | Resolved (Api.Ok data) =>
      mkState data false (actionLoading st) (alerts st) (requests st)
  | Resolved (Api.Err _ m) =>
      mkState (incidents st) false (actionLoading st)
              (alerts st ++
               [mkAlert "Error" (or_str m "Failed to fetch incidents.")])
              (requests st)
  | Rejected _ =>
      mkState (incidents st) false (actionLoading st) (alerts st) (requests st)
  end.

(** acknowledge(incidentId), up to [await acknowledgeIncident(incidentId)] *)
Definition acknowledge_begin (incidentId : Z) (st : State) : State :=
  mkState (incidents st) (loadingIncidents st)
          (<[incidentId := true]> (actionLoading st)) (alerts st)
          (requests st ++ [Api.acknowledgeIncident_request base incidentId]).

(** acknowledge(incidentId), from the resolution of the API call up to
    the next await (the refresh, on success) or to the end. *)
Definition acknowledge_resume {D} (incidentId : Z)
    (r : Awaited (Api.Response D)) (st : State) : State :=
  match r with
  | Resolved (Api.Ok _) => fetchIncidents_begin st
  | Resolved (Api.Err _ m) =>
      mkState (incidents st) (loadingIncidents st)
              (<[incidentId := false]> (actionLoading st))
              (alerts st ++
               [mkAlert "Error" (or_str m "Failed to acknowledge incident")])
              (requests st)
  | Rejected _ =>
      mkState (incidents st) (loadingIncidents st)
              (<[incidentId := false]> (actionLoading st))
              (alerts st ++ [mkAlert "Error" "Failed to acknowledge incident"])
              (requests st)
  end.

(** acknowledge(incidentId) on success, from the resolution of its
    [await fetchIncidents()] on. *)
Definition acknowledge_finish (incidentId : Z)
    (r : Awaited (Api.Response (list Incident.t))) (st : State) : State :=
  let st1 := fetchIncidents_resume r st in
  mkState (incidents st1) (loadingIncidents st1)
          (<[incidentId := false]> (actionLoading st1))
          (alerts st1 ++ [mkAlert "Success" "Incident acknowledged"])
          (requests st1).

(** What can happen on the mounted screen. *)
Inductive Event : Type :=
| PressAction (item : Incident.t)          (* "Revoke" / "Acknowledge" *)
| AckResolve (incidentId : Z) (r : Awaited (Api.Response Incident.t))
| AckRefreshResolve (incidentId : Z)
                    (r : Awaited (Api.Response (list Incident.t)))
| Refresh                                   (* mount and pull to refresh *)
| RefreshResolve (r : Awaited (Api.Response (list Incident.t))).

Definition step (st : State) (e : Event) : State :=
  match e with
  | PressAction item =>
      (* the button is disabled while the action of the item is loading *)
      if default false (actionLoading st !! Incident.id item) then st
      else acknowledge_begin (Incident.id item) st
  | AckResolve i r => acknowledge_resume i r st
  | AckRefreshResolve i r => acknowledge_finish i r st
  | Refresh => fetchIncidents_begin st
  | RefreshResolve r => fetchIncidents_resume r st
  end.

Definition run (trace : list Event) (st : State) : State :=
  fold_left step trace st.
End WithBase.

End AdminDashboardRevoke.

(** ** Specification predicates *)

Module Spec.

(** One incident after a rollback, against the same incident before the
    acknowledge attempt on [incidentId]. *)
Definition rolled_back_one (incidentId : Z) (before after : Incident.t) : Prop :=
  Incident.id after = Incident.id before /\
  (Incident.id before <> incidentId -> after = before) /\
  (Incident.id before = incidentId ->
     Incident.acknowledged after = Some false /\
     Incident.status after = Some "pending").

Definition assignment_cleared (incidentId : Z) (after : Incident.t) : Prop :=
  Incident.id after = incidentId ->
  Incident.assigned_user_id after = None /\ Incident.assigned_user after = None.

(** The two fields the incident state machine is about. *)
Definition ack_fields (inc : Incident.t) : option string * option bool :=
  (Incident.status inc, Incident.acknowledged inc).

(** Every incident of the list with this id is pending. *)
Definition pending_at (incidentId : Z) (l : list Incident.t) : Prop :=
  forall inc, In inc l -> Incident.id inc = incidentId -> Incident.is_pending inc.

(** A processed incident is the fetched one, possibly with the acknowledged
    pair overridden. *)
Definition same_but_ack (fetched shown : Incident.t) : Prop :=
  shown = fetched \/ shown = Incident.with_ack fetched true "acknowledged".

(** "The description starts with [tag]", in the words of the
    specification: the description is [tag] followed by some text. *)
Definition tagged (tag : string) (inc : Incident.t) : Prop :=
  exists rest, Incident.description inc = Some (tag +:+ rest).

(** The same as a test. *)
Definition has_tag (tag : string) (inc : Incident.t) : bool :=
  match Incident.description inc with
  | Some d => String.prefix tag d
  | None => false
  end.

(** The number of security bucket predicates an incident matches. *)
Definition matches (profile : option User.t) (inc : Incident.t) : nat :=
  (if has_tag "[VIEWER REPORT]" inc then 1 else 0)
  + (if has_tag "[SOS ALERT]" inc then 1 else 0)
  + (if SecurityDashboardNew_v2.isAssignedToMe profile inc then 1 else 0).

(** The viewer's visible set in the words of the specification: owned
    camera or AI-worker camera, never a viewer report, always the viewer's
    own SOS alerts. *)
Definition spec_visible (user : User.t) (cameras : list Camera.t)
    (inc : Incident.t) : bool :=
  let d := Incident.description inc in
  (ViewerDashboardClean.visible (ViewerDashboardClean.ownedCameraIds user cameras) inc
   && negb (Js.opt_startsWith "[VIEWER REPORT]" d))
  || (Js.opt_startsWith "[SOS ALERT]" d
      && Js.opt_includes ("User: " +:+ Js.or_str (User.username user) "") d).

(** The camera of the incident belongs to the user. *)
Definition camera_owned (user : User.t) (cameras : list Camera.t)
    (inc : Incident.t) : Prop :=
  exists c, In c cameras
            /\ Camera.id c = ViewerDashboardClean.Number (Incident.camera_id inc)
            /\ ViewerDashboardClean.Number (Camera.admin_user_id c) = User.id user.



(** The data a refresh brings in is what the backend sent. *)
Definition backend_consistent (e : SecurityDashboard.Event) : Prop :=
  match e with
  | SecurityDashboard.FetchResolve (Js.Resolved (Api.Ok data)) =>
      Forall Incident.consistent data
  | _ => True
  end.

(** The request is an acknowledge update that carries [acknowledged=true]. *)
Definition acknowledges (base : string) (rq : Api.Request) : Prop :=
  exists id, rq = Api.acknowledgeIncidentWithStatus_request base id true.

(** The request asks the backend to take an acknowledgement back. *)
Definition revokes (base : string) (rq : Api.Request) : Prop :=
  exists id, rq = Api.acknowledgeIncidentWithStatus_request base id false.

(** What the admin screen may send: list fetches and acknowledgements. *)
Definition allowed (base : string) (rq : Api.Request) : Prop :=
  rq = AdminDashboardRevoke.getIncidents_request base \/ acknowledges base rq.

End Spec.

(** ** Concrete data *)

Module Examples.

Definition base : string := "http://10.0.2.2:8000".

Definition alice : User.t :=
  User.mk 7 (Some "alice") (Some "alice@example.org") None (Some "viewer").

Definition guard : User.t :=
  User.mk 9 (Some "guard") (Some "guard@example.org") (Some "555") (Some "security").

Definition cameras : list Camera.t := [Camera.mk 3 (Some 7); Camera.mk 5 (Some 9)].

(** A pending viewer report. *)
Definition report42 : Incident.t :=
  Incident.mk 42 (Some 3) (Some "theft") (Some "high")
    (Some "[VIEWER REPORT] bag stolen") (Some "pending") (Some false) None None.

(** An acknowledged incident assigned to the guard. *)
Definition handled7 : Incident.t :=
  Incident.mk 7 (Some 3) (Some "theft") (Some "medium") (Some "door forced")
    (Some "acknowledged") (Some true) (Some 9) (Some guard).

(** A pending viewer report already assigned to the guard. *)
Definition assignedReport : Incident.t :=
  Incident.mk 8 (Some 5) (Some "theft") (Some "medium")
    (Some "[VIEWER REPORT] broken window") (Some "pending") (Some false)
    (Some 9) (Some guard).

(** An SOS alert sent by alice. *)
Definition sosAlice : Incident.t :=
  Incident.mk 50 (Some 1) (Some "fall_health") (Some "critical")
    (Some (Api.sos_description (Some "help") (Some (Api.mkUserInfo (Some "alice") None None))))
    (Some "pending") (Some false) None None.

(** A viewer report that came in on an AI-worker camera. *)
Definition report30 : Incident.t :=
  Incident.mk 101 (Some 30) (Some "theft") (Some "high")
    (Some "[VIEWER REPORT] bag stolen") (Some "pending") (Some false) None None.

(** An untagged incident of a camera of somebody else, below the threshold. *)
Definition plain5 : Incident.t :=
  Incident.mk 102 (Some 5) (Some "theft") (Some "low")
    (Some "motion at the gate") (Some "pending") (Some false) None None.

Definition serverError : Api.HttpReply Incident.t :=
  Api.ReplyError 500 (Some "Internal Server Error").

(** The security dashboard with two incidents loaded. *)
Definition dashboard : SecurityDashboard.State :=
  SecurityDashboard.mkState [report42; handled7] false ∅ {[7]} [].

Definition dashboardNew : SecurityDashboardNew.State :=
  SecurityDashboardNew.mkState [report42; handled7] [sosAlice] false ∅ {[7]}
    (Some guard) [].

(** The tabbed viewer dashboard of alice, list loaded, SOS modal closed. *)
Definition viewerNew : ViewerDashboardNew.State :=
  ViewerDashboardNew.mkState [] (Some alice) false "" "" [] [] 0.

(** The viewer dashboard with the floating button, one incident loaded. *)
Definition viewerClean : ViewerDashboardClean.State :=
  ViewerDashboardClean.mkState [report42] false false false [] "" false [] 0.

Definition selection : list (Z * bool) := [(1, true); (2, true); (3, true)].
Definition notified : Api.HttpReply string := Api.ReplyOk "notified".
Definition rejected : Api.HttpReply string :=
  Api.ReplyError 409 (Some "Incident already assigned").
(** The notify call fails for incident 2 only. *)
Definition fails2 (incId : Z) : Api.HttpReply string :=
  if incId =? 2 then rejected else notified.

(** One anchored evidence item, as the list endpoint has it cached. *)
Definition pendingItem : Evidence.t :=
  Evidence.mk 1 42 (Some "camera_0/snapshot_1.jpg") (Some "0xabc")
    (Some "PENDING") (Some "PENDING") true.
Definition evidenceLoaded : EvidenceStoreSecure.State :=
  EvidenceStoreSecure.mkState [pendingItem] false [].
Definition tampered : VerifyData :=
  mkVerifyData (Some "TAMPERED") (Some "Hash mismatch") (Some "aa") (Some "bb").

(** The UTF-8 bytes of U+00A0 (no-break space) and of U+3000 (ideographic
    space). *)
Definition nbsp : string :=
  String (Ascii.ascii_of_nat 194) (String (Ascii.ascii_of_nat 160) EmptyString).
Definition ideographic_space : string :=
  String (Ascii.ascii_of_nat 227)
    (String (Ascii.ascii_of_nat 128)
       (String (Ascii.ascii_of_nat 128) EmptyString)).

(** What the backend held when refresh A, resp. the later refresh B, read it. *)
Definition dataA : list Incident.t := [report42].
Definition dataB : list Incident.t := [report42; sosAlice].

(** A refresh, then an acknowledgement of incident 42 that the server refuses. *)
Definition ackTrace : list SecurityDashboard.Event :=
  [SecurityDashboard.FetchStart;
   SecurityDashboard.FetchResolve (Js.Resolved (Api.Ok dataB));
   SecurityDashboard.AckStart 42;
   SecurityDashboard.AckResolve 42 (Js.Resolved (Api.Err None (Some "refused")))].

(** What the incident endpoint returns to the security dashboard. *)
Definition allIncidents : list Incident.t :=
  [report42; handled7; assignedReport; sosAlice; plain5].

End Examples.

(** ** AsyncStorage *)

Module AsyncStorage.

(** The object kept under the key 'user'.  Its writers store
    [JSON.stringify(u)] of a user object and its readers [JSON.parse] the
    item, so the item is kept as the object. *)
Record StoredUser : Type := mkStoredUser {
  su_id : option Z;
  su_username : option string;
  su_email : option string;
  su_role : option string
}.

Record t : Type := mk {
  items : gmap string string;      (* every key but 'user' *)
  user : option StoredUser         (* the item 'user' *)
}.

Definition empty : t := mk ∅ None.

(** [await AsyncStorage.getItem(key)], for a key other than 'user' *)
Definition getItem (key : string) (s : t) : option string := items s !! key.

(** [await AsyncStorage.setItem(key, value)], for a key other than 'user' *)
Definition setItem (key value : string) (s : t) : t :=
  mk (<[key := value]> (items s)) (user s).

(** [await AsyncStorage.setItem('user', JSON.stringify(u))] *)
Definition setUser (u : StoredUser) (s : t) : t := mk (items s) (Some u).

(** [await AsyncStorage.removeItem(key)] *)
Definition removeItem (key : string) (s : t) : t :=
  if String.eqb key "user" then mk (items s) None
  else mk (delete key (items s)) (user s).

(** [await AsyncStorage.multiRemove(keys)] *)
Definition multiRemove (keys : list string) (s : t) : t :=
  fold_left (fun acc key => removeItem key acc) keys s.

End AsyncStorage.

(** ** services/api.js: base URL override, tokens, login, getIncidents *)

Module ApiAuth.
Import Js.

Definition OVERRIDE_KEY : string := "OVERRIDE_BASE_URL".

(** setOverrideBaseUrl(url): the value returned and the storage left *)
Definition setOverrideBaseUrl (url : option string) (s : AsyncStorage.t)
  : option string * AsyncStorage.t :=
  if negb (truthy_str url)
  then (None, AsyncStorage.removeItem OVERRIDE_KEY s)
  else (url, AsyncStorage.setItem OVERRIDE_KEY (default "" url) s).

(** [res.ok] *)
Definition res_ok (status : Z) : bool := (200 <=? status) && (status <=? 299).

(** The token key of a role, as computed by authHeaders and loginUser. *)
Definition tokenKey (role : string) : string :=
  if String.eqb role "security" then "securityToken"
  else if String.eqb role "viewer" then "viewerToken"
  else if String.eqb role "admin" then "adminToken"
  else "userToken".

(** authHeaders(role = null): the Authorization header, [None] for [{}] *)
Definition authHeaders (role : option string) (s : AsyncStorage.t)
  : option string :=
  let token :=
    if truthy_str role
    then AsyncStorage.getItem (tokenKey (default "" role)) s
    else None in
  let token :=
    if negb (truthy_str token) then
      let token := AsyncStorage.getItem "viewerToken" s in
      let token :=
        if negb (truthy_str token)
        then AsyncStorage.getItem "securityToken" s else token in
      let token :=
        if negb (truthy_str token)
        then AsyncStorage.getItem "adminToken" s else token in
      if negb (truthy_str token)
      then AsyncStorage.getItem "userToken" s else token
    else token in
  if negb (truthy_str token) then None
  else Some ("Bearer " +:+ default "" token).

(** The JSON body of a login reply, as far as loginUser reads it. *)
Record LoginData : Type := mkLoginData {
  access_token : option string;
  d_user : option AsyncStorage.StoredUser;
  d_username : option string;
  d_email : option string;
  d_role : option string;
  d_id : option Z;
  d_user_id : option Z
}.

(** The "Persist token and user data" block of loginUser. *)
Definition persist (role : string) (data : LoginData) (s : AsyncStorage.t)
  : AsyncStorage.t :=
  if truthy_str (access_token data) then
    let token := default "" (access_token data) in
    let s1 :=
      AsyncStorage.multiRemove
        ["viewerToken"; "securityToken"; "adminToken"; "viewerUser";
         "securityUser"] s in
    let s2 := AsyncStorage.setItem (tokenKey role) token s1 in
    let s3 := AsyncStorage.setItem "userToken" token s2 in
    match d_user data with
    | Some u => AsyncStorage.setUser u s3
    | None =>
        if truthy_str (d_username data) || truthy_str (d_email data) then
          AsyncStorage.setUser
            (AsyncStorage.mkStoredUser
               (if truthy_num (d_id data) then d_id data else d_user_id data)
               (d_username data) (d_email data)
               (Some (or_str (d_role data) role)))
            s3
        else s3
    end
  else s.

(** A request together with the Authorization header it carries. *)
Record AuthedRequest : Type := mkAuthed {
  a_request : Api.Request;
  a_authorization : string
}.

Section WithPlatform.
Variable OS : string.                    (* Platform.OS *)
Variable BASE_URL : string.

(** getBaseUrl(): the URL and the storage left *)
Definition getBaseUrl (s : AsyncStorage.t) : string * AsyncStorage.t :=
  let override := AsyncStorage.getItem OVERRIDE_KEY s in
  if truthy_str override then
    let url := default "" override in
    if String.eqb OS "web" then
      if includes "localhost" url || includes "127.0.0.1" url
      then (url, s)
      else (BASE_URL, AsyncStorage.removeItem OVERRIDE_KEY s)
    else (url, s)
  else (BASE_URL, s).

(** loginUser(usernameOrEmail, password, role): the [success] field of the
    result and the storage left (the [message] of the result is not part of
    the model). *)
Definition loginUser (role : string) (reply : Api.HttpReply LoginData)
    (s : AsyncStorage.t) : bool * AsyncStorage.t :=
  let '(_, s0) := getBaseUrl s in
  match reply with
  | Api.FetchFailed _ => (false, s0)
  | Api.BadJson status _ => (res_ok status, s0)       (* data = null *)
  | Api.ReplyError _ _ => (false, s0)
  | Api.ReplyOk data => (true, persist role data s0)
  end.

Definition unauthorized {D} : Api.Response D :=
  Api.Err (Some 401) (Some "Unauthorized. Please login again.").

(** getIncidents(): the result, the storage left, and the requests sent *)
Definition getIncidents (reply : Api.HttpReply (list Incident.t))
    (s : AsyncStorage.t)
  : Api.Response (list Incident.t) * AsyncStorage.t * list AuthedRequest :=
  let '(base, s0) := getBaseUrl s in
  match authHeaders None s0 with
  | None =>
      (Api.Err (Some 401) (Some "Not authenticated. Please login first."),
       s0, [])
  | Some authorization =>
      let sent :=
        [mkAuthed (AdminDashboardRevoke.getIncidents_request base)
                  authorization] in
      let cleared :=
        AsyncStorage.multiRemove
          ["userToken"; "viewerToken"; "securityToken"; "adminToken"] s0 in
      match reply with
      | Api.FetchFailed m =>
          (Api.Err None (Some (Api.network_message BASE_URL m)), s0, sent)
      | Api.BadJson status m =>
          if status =? 401 then (unauthorized, cleared, sent)
          else (Api.Err None (Some (Api.network_message BASE_URL m)), s0, sent)
      | Api.ReplyError status detail =>
          if status =? 401 then (unauthorized, cleared, sent)
          else (Api.Err None (Some (or_str detail "Failed to load incidents")),
                s0, sent)
      | Api.ReplyOk data => (Api.Ok data, s0, sent)
      end
  end.

(** getMe(role = null): the result *)
Definition getMe_result {D} (reply : Api.HttpReply D) : Api.Response D :=
  Api.result_of BASE_URL "Failed to fetch user" reply.

End WithPlatform.

End ApiAuth.

(** ** services/api_secure.js *)

Module ApiSecure.
Import Js.

(** authHeaders(): [None] when it throws [Error('Not authenticated')] *)
Definition authHeaders (s : AsyncStorage.t) : option string :=
  let token := AsyncStorage.getItem "userToken" s in
  if negb (truthy_str token) then None
  else Some ("Bearer " +:+ default "" token).

Section WithPlatform.
Variable OS : string.
Variable BASE_URL : string.

(** getSecureEvidence(): the result, the storage left, the requests sent *)
Definition getSecureEvidence (reply : Api.HttpReply (list Evidence.t))
    (s : AsyncStorage.t)
  : Api.Response (list Evidence.t) * AsyncStorage.t
    * list ApiAuth.AuthedRequest :=
  let '(baseUrl, s0) := ApiAuth.getBaseUrl OS BASE_URL s in
  match authHeaders s0 with
  | None => (Api.Err None (Some "Not authenticated"), s0, [])
  | Some authorization =>
      let sent :=
        [ApiAuth.mkAuthed
           (Api.mkRequest "GET" (baseUrl +:+ "/api/v1/evidence-secure/")
                          Api.NoBody)
           authorization] in
      let result :=
        match reply with
        | Api.FetchFailed m => Api.Err None (Some (or_str m "Network error"))
        | Api.BadJson status m =>
            if ApiAuth.res_ok status
            then Api.Err None (Some (or_str m "Network error"))
            else Api.Err (Some status) (Some "Unknown error")
        | Api.ReplyError status detail =>
            Api.Err (Some status)
                    (Some (or_str detail ("HTTP " +:+ string_of_Z status)))
        | Api.ReplyOk data => Api.Ok data
        end in
      (result, s0, sent)
  end.

End WithPlatform.

End ApiSecure.

(** ** App.jsx *)

Module App.
Import Js.

(** checkExistingSession(): the initial route *)
Definition checkExistingSession (s : AsyncStorage.t) : string :=
  if truthy_str (AsyncStorage.getItem "userToken" s) then
    match AsyncStorage.user s with
    | Some user =>
        if str_is "admin" (AsyncStorage.su_role user) then "AdminDashboard"
        else if str_is "security" (AsyncStorage.su_role user)
        then "SecurityDashboard"
        else if str_is "viewer" (AsyncStorage.su_role user)
        then "ViewerDashboard"
        else "Registration"
    | None => "Registration"
    end
  else "Registration".

End App.

(** ** ViewerLoginScreen and SecurityLoginScreen: handleLogin *)

Module RoleLogin.
Import Js.

Inductive Outcome : Type :=
| Navigated (route : string)       (* navigation.replace(route) *)
| AccessDenied                     (* the 'Access Denied' alert; no navigation *)
| LoginFailed.                     (* the 'Login Failed' alert *)

Section WithPlatform.
Variable OS : string.
Variable BASE_URL : string.

(** The handler of both screens; they differ in the role they ask for and
    in the dashboard they open. *)
Definition handleLogin (role dashboard : string)
    (loginReply : Api.HttpReply ApiAuth.LoginData)
    (meReply : Api.HttpReply AsyncStorage.StoredUser)
    (s : AsyncStorage.t) : Outcome * AsyncStorage.t :=
  let s0 :=
    AsyncStorage.multiRemove
      ["viewerToken"; "securityToken"; "adminToken"; "userToken";
       "viewerUser"; "securityUser"; "user"] s in
  let '(success, s1) := ApiAuth.loginUser OS BASE_URL role loginReply s0 in
  if success then
    let '(_, s2) := ApiAuth.getBaseUrl OS BASE_URL s1 in     (* getMe() *)
    match ApiAuth.getMe_result BASE_URL meReply with
    | Api.Ok user =>
        if negb (str_is role (AsyncStorage.su_role user))
        then (AccessDenied, s2)
        else (Navigated dashboard, AsyncStorage.setUser user s2)
    | Api.Err _ _ => (Navigated dashboard, s2)
    end
  else (LoginFailed, s1).

(** ViewerLoginScreen.handleLogin *)
Definition viewerLogin := handleLogin "viewer" "ViewerDashboard".

(** SecurityLoginScreen.handleLogin *)
Definition securityLogin := handleLogin "security" "SecurityDashboard".

End WithPlatform.

(** The 'OK' button of the 'Access Denied' alert. *)
Definition accessDenied_OK (s : AsyncStorage.t) : AsyncStorage.t :=
  AsyncStorage.multiRemove ["userToken"; "user"] s.

End RoleLogin.

(** ** The logout buttons of the three roles *)

Module Logout.

(** AdminProfile: handleLogout, 'Logout' *)
Definition admin (s : AsyncStorage.t) : AsyncStorage.t :=
  AsyncStorage.multiRemove
    ["adminToken"; "viewerToken"; "securityToken"; "userToken"; "user";
     "token"] s.

(** SecurityDashboardNew, profile tab *)
Definition security (s : AsyncStorage.t) : AsyncStorage.t :=
  AsyncStorage.multiRemove
    ["securityToken"; "securityUser"; "userToken"; "user"; "token"] s.

(** ViewerDashboardNew, profile tab *)
Definition viewer (s : AsyncStorage.t) : AsyncStorage.t :=
  AsyncStorage.multiRemove
    ["viewerToken"; "viewerUser"; "userToken"; "user"; "token"] s.

End Logout.

(** ** services/api.js: reportIncident *)

Module ApiReport.
Import Js.

(** The severities the report form offers. *)
Inductive Severity : Type := low | medium | high.

Definition severity_name (v : Severity) : string :=
  match v with
  | low => "low"
  | medium => "medium"
  | high => "high"
  end.

(** severityScoreMap *)
Definition severityScoreMap (v : Severity) : Z :=
  match v with
  | high => 90
  | medium => 50
  | low => 30
  end.

Record ReportData : Type := mkReportData {
  r_type : option string;
  r_severity : option Severity;
  r_description : string;
  r_location : option string;
  r_phone : option string;
  r_notes : option string
}.

(** What the GET of the cameras gave. *)
Inductive CamerasReply : Type :=
| CamerasFailed                          (* fetch threw, or !camerasRes.ok *)
| CamerasOk (cameras : list Camera.t).

Definition cameraId (reply : CamerasReply) : Z :=
  match reply with
  | CamerasOk (c :: _) => Camera.id c
  | _ => 1
  end.

(** The line feed of the template string. *)
Definition nl : string := String (Ascii.ascii_of_nat 10) EmptyString.

Definition fullDescription (reportData : ReportData) : string :=
  let d0 := "[VIEWER REPORT]" +:+ nl +:+ r_description reportData in
  let d1 :=
    if truthy_str (r_notes reportData)
    then d0 +:+ Api.nl2 +:+ "Additional Notes: "
            +:+ default "" (r_notes reportData)
    else d0 in
  let d2 :=
    if truthy_str (r_phone reportData)
    then d1 +:+ Api.nl2 +:+ "Contact: " +:+ default "" (r_phone reportData)
    else d1 in
  if truthy_str (r_location reportData)
     && negb (str_is "Not specified" (r_location reportData))
  then d2 +:+ Api.nl2 +:+ "Location: " +:+ default "" (r_location reportData)
  else d2.

Definition payload (cameras : CamerasReply) (reportData : ReportData)
  : Api.IncidentPayload :=
  let severity := default medium (r_severity reportData) in
  Api.mkPayload (Some (cameraId cameras))
                (or_str (r_type reportData) "theft")
                (severity_name severity)
                (severityScoreMap severity)
                (fullDescription reportData).

(** The POST of reportIncident. *)
Definition reportIncident_request (base : string) (cameras : CamerasReply)
    (reportData : ReportData) : Api.Request :=
  Api.mkRequest "POST" (base +:+ "/api/v1/incidents/")
                (Api.IncidentBody (payload cameras reportData)).

End ApiReport.

(** ** ViewerDashboardNew: report form and notifications tab *)

Module ViewerDashboardNewTabs.
Import Js.

Record ReportForm : Type := mkReportForm {
  reportType : string;
  reportSeverity : ApiReport.Severity;
  reportDescription : string;
  reportLocation : string;
  reportPhone : string;
  reportNotes : string;
  submittingReport : bool;
  reportSubmitted : bool;
  form_alerts : list AlertMsg;
  form_requests : list Api.Request       (* reportIncident POSTs so far *)
}.

(** The object handleSubmitReport passes to reportIncident. *)
Definition reportData_of (f : ReportForm) : ApiReport.ReportData :=
  ApiReport.mkReportData
    (Some (reportType f)) (Some (reportSeverity f)) (reportDescription f)
    (Some (or_str (Some (reportLocation f)) "Not specified"))
    (Some (reportPhone f)) (Some (reportNotes f)).

(** handleSubmitReport, up to the POST of [await reportIncident(...)] *)
Definition handleSubmitReport_begin (base : string)
    (cameras : ApiReport.CamerasReply) (f : ReportForm) : ReportForm :=
  if negb (truthy_str (Some (ViewerDashboardNew.trim (reportDescription f))))
  then
    mkReportForm (reportType f) (reportSeverity f) (reportDescription f)
      (reportLocation f) (reportPhone f) (reportNotes f)
      (submittingReport f) (reportSubmitted f)
      (form_alerts f ++
       [mkAlert "Required Field"
                "Please provide a description of the incident"])
      (form_requests f)
  else
    mkReportForm (reportType f) (reportSeverity f) (reportDescription f)
      (reportLocation f) (reportPhone f) (reportNotes f)
      true false (form_alerts f)
      (form_requests f ++
       [ApiReport.reportIncident_request base cameras (reportData_of f)]).

(** One entry of the notifications tab ([read: false] and
    [isMyReport: true] are constants; the timestamp is not modelled). *)
Record Notification : Type := mkNotification {
  n_id : Z;
  n_message : string;
  n_incidentType : option string;
  n_severity : option string
}.

(** [s.replace('_', ' ')]: the first underscore only *)
Fixpoint replace_underscore (s : string) : string :=
  match s with
  | EmptyString => EmptyString
  | String c s' =>
      if Ascii.eqb c (Ascii.ascii_of_nat 95)
      then String (Ascii.ascii_of_nat 32) s'
      else String c (replace_underscore s')
  end.

(** [`${i.type?.replace('_', ' ')}`] *)
Definition type_text (type : option string) : string :=
  match type with
  | Some s => replace_underscore s
  | None => "undefined"
  end.

Definition notification_of (i : Incident.t) : Notification :=
  mkNotification (Incident.id i)
    ("Your reported incident #" +:+ string_of_Z (Incident.id i) +:+ " ("
     +:+ type_text (Incident.type i) +:+ ") has been handled by security")
    (Incident.type i) (Incident.severity i).

(** The popup of a newly handled report. *)
Definition handled_alert (id : Z) : AlertMsg :=
  mkAlert "âœ“ Report Handled"
    ("Your reported incident #" +:+ string_of_Z id
     +:+ " has been handled by security officials.").

(** [i.description?.startsWith('[VIEWER REPORT]') && i.acknowledged] *)
Definition handled_report (i : Incident.t) : bool :=
  opt_startsWith "[VIEWER REPORT]" (Incident.description i)
  && is_true (Incident.acknowledged i).

Record State : Type := mkState {
  notifications : list Notification;
  loadingNotifications : bool;
  handledReportsRef : gset Z;
  alerts : list AlertMsg
}.

Definition initial : State := mkState [] false ∅ [].

(** fetchNotifications, from the resolution of [getIncidents()] on *)
Definition fetchNotifications_resume
    (r : Awaited (Api.Response (list Incident.t))) (st : State) : State :=
  match r with
  | Resolved (Api.Ok allIncidents) =>
      let viewerReportedIncidents := List.filter handled_report allIncidents in
      let securityAcknowledgments :=
        map notification_of viewerReportedIncidents in
      let newHandledReports :=
        List.filter
          (fun n => negb (bool_decide (n_id n ∈ handledReportsRef st)))
          securityAcknowledgments in
      mkState securityAcknowledgments false
        (handledReportsRef st
         ∪ list_to_set (map n_id newHandledReports)
         ∪ list_to_set (map n_id securityAcknowledgments))
        (alerts st ++ map (fun n => handled_alert (n_id n)) newHandledReports)
  | _ =>
      mkState (notifications st) false (handledReportsRef st) (alerts st)
  end.

(** Successive resolutions of fetchNotifications on the mounted screen. *)
Definition run (trace : list (Awaited (Api.Response (list Incident.t))))
    (st : State) : State :=
  fold_left (fun acc r => fetchNotifications_resume r acc) trace st.

End ViewerDashboardNewTabs.

(** ** GrantAccessScreen: the selection *)

Module GrantAccessSelection.

(** selectUser(userId) *)
Definition selectUser (userId : Z) (prev : option Z) : option Z :=
  match prev with
  | Some p => if p =? userId then None else Some userId
  | None => Some userId
  end.

(** The selection object is the list of its properties in the order in
    which [Object.keys] lists them: the array indices (the integers from 0
    to 2^32 - 2) first, in ascending order, then the other keys, in the
    order in which they were created. *)
Definition is_index (key : Z) : bool := (0 <=? key) && (key <=? 4294967294).

(** [obj[key]] as a condition: [undefined] when there is no such property. *)
Fixpoint get (key : Z) (obj : list (Z * bool)) : bool :=
  match obj with
  | [] => false
  | (k, v) :: rest => if k =? key then v else get key rest
  end.

Definition has_key (key : Z) (obj : list (Z * bool)) : bool :=
  existsb (fun p => p.1 =? key) obj.

(** A property that the object does not have yet is created: an array
    index takes its place among the array indices, another key comes
    last. *)
Fixpoint add_property (key : Z) (v : bool) (obj : list (Z * bool))
  : list (Z * bool) :=
  match obj with
  | [] => [(key, v)]
  | (k, w) :: rest =>
      if is_index key && (negb (is_index k) || (key <? k))
      then (key, v) :: (k, w) :: rest
      else (k, w) :: add_property key v rest
  end.

(** [{ ...obj, [key]: v }]: the value of a property that is there is
    replaced where it stands. *)
Definition set_property (key : Z) (v : bool) (obj : list (Z * bool))
  : list (Z * bool) :=
  if has_key key obj
  then map (fun p => if p.1 =? key then (p.1, v) else p) obj
  else add_property key v obj.

(** toggleIncident(incidentId): [{ ...prev, [incidentId]: !prev[incidentId] }] *)
Definition toggleIncident (incidentId : Z) (prev : list (Z * bool))
  : list (Z * bool) :=
  set_property incidentId (negb (get incidentId prev)) prev.

(** The selection after a sequence of presses on incident rows, from the
    initial [{}]. *)
Definition toggles (presses : list Z) : list (Z * bool) :=
  fold_left (fun acc incidentId => toggleIncident incidentId acc) presses [].

(** The selected user after a sequence of presses on user rows, from the
    initial [null]. *)
Definition selections (presses : list Z) : option Z :=
  fold_left (fun acc userId => selectUser userId acc) presses None.

End GrantAccessSelection.

(** ** screens/AdminDashboard.jsx: the statistics header *)

Module AdminDashboardStats.
Import Js.

Record Stats : Type := mkStats {
  total : nat;
  pending : nat;
  acknowledged : nat
}.

(** The [useMemo] that computes [stats]. *)
Definition stats (incidents : list Incident.t) : Stats :=
  mkStats
    (length incidents)
    (length
       (List.filter
          (fun i => negb (str_is "acknowledged" (Incident.status i))
                    && negb (is_true (Incident.acknowledged i)))
          incidents))
    (length
       (List.filter
          (fun i => str_is "acknowledged" (Incident.status i)
                    || is_true (Incident.acknowledged i))
          incidents)).

End AdminDashboardStats.

(** ** screens/Acknowledgement.jsx: AcknowledgementScreen *)

Module AcknowledgementScreen.
Import Js.

(** The payload of markUnseen(incident); [incident.camera_id || null]. *)
Definition markUnseen_payload (incident : Incident.t) : Api.IncidentPayload :=
  Api.mkPayload
    (if truthy_num (Incident.camera_id incident)
     then Incident.camera_id incident else None)
    "fall_health" "critical" 100
    ("Viewer reported unseen incident: " +:+ string_of_Z (Incident.id incident)).

End AcknowledgementScreen.

(** ** EvidenceStore: role and image URL *)

Module EvidenceStoreInit.
Import Js.

(** loadUserRole(): the value [userRole] ends with *)
Definition loadUserRole (s : AsyncStorage.t) : option string :=
  let role := AsyncStorage.getItem "userRole" s in
  if negb (truthy_str role) then
    if truthy_str (AsyncStorage.getItem "viewerToken" s) then Some "viewer"
    else if truthy_str (AsyncStorage.getItem "adminToken" s) then Some "admin"
    else if truthy_str (AsyncStorage.getItem "securityToken" s)
    then Some "security"
    else role
  else role.

Definition backslash : Ascii.ascii := Ascii.ascii_of_nat 92.
Definition slash : Ascii.ascii := Ascii.ascii_of_nat 47.

(** [filePath.replace(/\\/g, '/')] *)
Fixpoint replace_backslashes (s : string) : string :=
  match s with
  | EmptyString => EmptyString
  | String c s' =>
      String (if Ascii.eqb c backslash then slash else c)
             (replace_backslashes s')
  end.

(** getImageUrl(filePath) *)
Definition getImageUrl (baseUrl : string) (filePath : option string)
  : option string :=
  if negb (truthy_str filePath) then None
  else if negb (truthy_str (Some baseUrl)) then None
  else
    let filePath := default "" filePath in
    let filePath :=
      if includes (String backslash EmptyString) filePath
      then replace_backslashes filePath else filePath in
    let filePath :=
      if startsWith (String slash EmptyString) filePath
      then match filePath with
           | String _ rest => rest
           | EmptyString => EmptyString
           end
      else filePath in
    Some (baseUrl +:+ "/evidence/" +:+ filePath).

End EvidenceStoreInit.

(** ** ProfileScreen: save *)

Module ProfileScreen.
Import Js.

(** The body of the updateUser call. *)
Record UpdateData : Type := mkUpdateData {
  u_username : string;
  u_phone : option string          (* absent when the field is blank *)
}.

(** What save() does before any await. *)
Inductive SaveStart : Type :=
| Invalid (alert : AlertMsg)
| Update (userId : option Z) (updateData : UpdateData).

(** save(), up to [await updateUser(userId, updateData)] *)
Definition save_begin (userId : option Z) (username phone : string)
  : SaveStart :=
  if negb (truthy_str (Some (ViewerDashboardNew.trim username))) then
    Invalid (mkAlert "Validation Error" "Username is required")
  else
    Update userId
      (mkUpdateData
         (ViewerDashboardNew.trim username)
         (if truthy_str (Some phone)
             && truthy_str (Some (ViewerDashboardNew.trim phone))
          then Some (ViewerDashboardNew.trim phone) else None)).

End ProfileScreen.

(** ** components/BottomNavigation.jsx *)

Module BottomNavigation.

Record NavItem : Type := mkNavItem {
  name : string;
  route : string;
  icon : string
}.

(** getNavItems() for the [role] prop *)
Definition getNavItems (role : string) : list NavItem :=
  if String.eqb role "admin" then
    [mkNavItem "Home" "AdminDashboard" "home";
     mkNavItem "Incidents" "IncidentList" "list";
     mkNavItem "Security" "GrantAccess" "shield";
     mkNavItem "Profile" "AdminProfile" "person"]
  else if String.eqb role "security" then
    [mkNavItem "Home" "SecurityDashboard" "home";
     mkNavItem "SOS Alerts" "IncidentList" "alert-circle";
     mkNavItem "Profile" "Profile" "person"]
  else
    [mkNavItem "Home" "ViewerDashboard" "home";
     mkNavItem "Incidents" "IncidentList" "list";
     mkNavItem "Report" "Acknowledgement" "add-circle";
     mkNavItem "Profile" "Profile" "person"].

End BottomNavigation.

(** ** SecurityDashboardNew: the lists of the tabs *)

Module SecurityDashboardNewTabs.
Import Js.

(** renderAssignedTab: [assignedIncidents] *)
Definition assignedIncidents (st : SecurityDashboardNew.State)
  : list Incident.t :=
  List.filter
    (fun i =>
       match SecurityDashboardNew.userProfile st with
       | Some u =>
           truthy_num (Some (User.id u)) &&
           match Incident.assigned_user_id i with
           | Some a => a =? User.id u
           | None => false
           end
       | None => false
       end)
    (SecurityDashboardNew.incidents st).

End SecurityDashboardNewTabs.

(** ** Predicates on the stored credentials *)

Module Credentials.

(** The four keys under which a token may be stored. *)
Definition token_keys : list string :=
  ["viewerToken"; "securityToken"; "adminToken"; "userToken"].

(** No token under any of the four keys. *)
Definition no_token (s : AsyncStorage.t) : Prop :=
  forall k, In k token_keys -> Js.truthy_str (AsyncStorage.getItem k s) = false.

(** The dashboard of a role. *)
Definition dashboard_of (role : string) : string :=
  if String.eqb role "admin" then "AdminDashboard"
  else if String.eqb role "security" then "SecurityDashboard"
  else if String.eqb role "viewer" then "ViewerDashboard"
  else "Registration".

(** The logout button of the dashboard of a role; any other role string
    has no dashboard. *)
Definition logout_of (role : string) (s : AsyncStorage.t) : AsyncStorage.t :=
  if String.eqb role "admin" then Logout.admin s
  else if String.eqb role "security" then Logout.security s
  else if String.eqb role "viewer" then Logout.viewer s
  else s.

End Credentials.

(** ** Predicates on traces and selections *)

Module TraceSpec.

(** A response whose incidents have pairwise different ids. *)
Definition distinct_ids (r : Js.Awaited (Api.Response (list Incident.t)))
  : Prop :=
  match r with
  | Js.Resolved (Api.Ok data) => List.NoDup (map Incident.id data)
  | _ => True
  end.

(** The acknowledgement of [incidentId] is not reported as failed. *)
Definition no_failed_ack (incidentId : Z) (e : SecurityDashboard.Event) : Prop :=
  match e with
  | SecurityDashboard.AckResolve i (Js.Resolved (Api.Ok _)) => True
  | SecurityDashboard.AckResolve i _ => i <> incidentId
  | _ => True
  end.

(** The order of [Object.keys]: a key that comes before an array index is
    a smaller array index. *)
Fixpoint key_order (keys : list Z) : Prop :=
  match keys with
  | [] => True
  | k :: rest =>
      (forall q, In q rest -> GrantAccessSelection.is_index q = true ->
                 GrantAccessSelection.is_index k = true /\ k < q)
      /\ key_order rest
  end.

(** Strictly ascending ids. *)
Fixpoint ascending (ids : list Z) : Prop :=
  match ids with
  | [] => True
  | i :: rest => (forall j, In j rest -> i < j) /\ ascending rest
  end.

(** The rows pressed, each once, in the order of their first press. *)
Definition first_pressed (presses : list Z) : list Z :=
  fold_left (fun acc p => if existsb (Z.eqb p) acc then acc else acc ++ [p])
            presses [].

End TraceSpec.

(** * Properties *)

(** ** Acknowledge: optimistic update, rollback, consistency *)

Lemma with_ack_pending_id inc :
  Incident.is_pending inc -> Incident.with_ack inc false "pending" = inc.
Proof. destruct inc; intros [Hs Ha]; simpl in *; subst; reflexivity. Qed.

Lemma set_ack_twice i a s a' s' l :
  SecurityDashboard.set_ack i a' s' (SecurityDashboard.set_ack i a s l)
  = SecurityDashboard.set_ack i a' s' l.
Proof.
  unfold SecurityDashboard.set_ack. rewrite map_map. apply map_ext.
  intros inc. destruct (Incident.id inc =? i) eqn:E; simpl; rewrite E; reflexivity.
Qed.

Lemma set_ack_pending_id i l :
  Spec.pending_at i l -> SecurityDashboard.set_ack i false "pending" l = l.
Proof.
  unfold Spec.pending_at, SecurityDashboard.set_ack.
  induction l as [|inc l IH]; intros H; simpl; [reflexivity|].
  rewrite IH by (intros; apply H; [right|]; assumption).
  destruct (Incident.id inc =? i) eqn:E; [|reflexivity].
  apply Z.eqb_eq in E. rewrite with_ack_pending_id; [reflexivity|].
  apply H; [left; reflexivity | exact E].
Qed.

Lemma set_ack_rolled_back i l :
  Forall2 (Spec.rolled_back_one i) l (SecurityDashboard.set_ack i false "pending" l).
Proof.
  unfold SecurityDashboard.set_ack.
  induction l as [|inc l IH]; simpl; constructor; [|exact IH].
  unfold Spec.rolled_back_one.
  destruct (Incident.id inc =? i) eqn:E.
  - apply Z.eqb_eq in E. simpl. repeat split; congruence.
  - apply Z.eqb_neq in E. repeat split; congruence.
Qed.

Lemma revertFunc_updateFunc i p l :
  SecurityDashboardNew.revertFunc i (SecurityDashboardNew.updateFunc i p l)
  = SecurityDashboardNew.revertFunc i l.
Proof.
  unfold SecurityDashboardNew.revertFunc, SecurityDashboardNew.updateFunc.
  rewrite map_map. apply map_ext.
  intros inc. destruct (Incident.id inc =? i) eqn:E; simpl; rewrite E; reflexivity.
Qed.

Lemma revertFunc_rolled_back i l :
  Forall2 (fun before after =>
             Spec.rolled_back_one i before after /\ Spec.assignment_cleared i after)
          l (SecurityDashboardNew.revertFunc i l).
Proof.
  unfold SecurityDashboardNew.revertFunc.
  induction l as [|inc l IH]; simpl; constructor; [|exact IH].
  unfold Spec.rolled_back_one, Spec.assignment_cleared.
  destruct (Incident.id inc =? i) eqn:E.
  - apply Z.eqb_eq in E. simpl. repeat split; congruence.
  - apply Z.eqb_neq in E. repeat split; congruence.
Qed.

Lemma revertFunc_ack_fields i l :
  Spec.pending_at i l ->
  map Spec.ack_fields (SecurityDashboardNew.revertFunc i l) = map Spec.ack_fields l.
Proof.
  unfold Spec.pending_at, SecurityDashboardNew.revertFunc. intros H.
  rewrite map_map. apply map_ext_in. intros inc Hin.
  destruct (Incident.id inc =? i) eqn:E; [|reflexivity].
  apply Z.eqb_eq in E. destruct (H inc Hin E) as [Hs Ha].
  unfold Spec.ack_fields. simpl. congruence.
Qed.

(** A network error and a non-success response both reach the handler as a
    result with [success: false]. *)
Lemma failed_result_is_err {D} BASE_URL (reply : Api.HttpReply D) :
  Api.failed reply ->
  exists m, @Api.acknowledgeIncident_result BASE_URL D reply = Api.Err None (Some m).
Proof.
  destruct reply; simpl; intros H; try contradiction; eexists; reflexivity.
Qed.

Lemma not_in_after_delete (i : Z) (s : gset Z) : i ∉ ({[i]} ∪ s) ∖ {[i]}.
Proof.
  intros H. apply elem_of_difference in H as [_ H].
  apply H, elem_of_singleton. reflexivity.
Qed.

Lemma set_ack_pending_at i l :
  Spec.pending_at i (SecurityDashboard.set_ack i false "pending" l).
Proof.
  intros inc Hin Hid. unfold SecurityDashboard.set_ack in Hin.
  apply in_map_iff in Hin as [x [Hx Hin]].
  destruct (Incident.id x =? i) eqn:E.
  - subst inc. split; reflexivity.
  - apply Z.eqb_neq in E. subst inc. contradiction.
Qed.

Lemma revertFunc_pending_at i l :
  Spec.pending_at i (SecurityDashboardNew.revertFunc i l).
Proof.
  intros inc Hin Hid. unfold SecurityDashboardNew.revertFunc in Hin.
  apply in_map_iff in Hin as [x [Hx Hin]].
  destruct (Incident.id x =? i) eqn:E.
  - subst inc. split; reflexivity.
  - apply Z.eqb_neq in E. subst inc. contradiction.
Qed.

(** C1. A failed acknowledge (network error or non-success response) puts
    the incident back to acknowledged=false, status='pending' (and, on the
    tabbed security dashboard, clears the assignment), takes its id out of
    the locally acknowledged set and shows the failure message; every other
    incident is left as it was.  For an incident that was pending before the
    call this is the identity on its status/acknowledged fields.  Whatever
    refresh landed while the call was in flight, the incident is pending
    once the failure has been handled. *)
Theorem acknowledge_failure_rolls_back :
  forall (D : Type) (BASE_URL : string) (incidentId : Z) (reply : Api.HttpReply D),
    Api.failed reply ->
    let failure := Js.Resolved (Api.acknowledgeIncident_result BASE_URL reply) in
    (forall st : SecurityDashboard.State,
        let st' := SecurityDashboard.acknowledge BASE_URL incidentId reply st in
        Forall2 (Spec.rolled_back_one incidentId)
                (SecurityDashboard.incidents st) (SecurityDashboard.incidents st')
        /\ (incidentId ∉ SecurityDashboard.acknowledgedIncidentsRef st')
        /\ (exists text,
               SecurityDashboard.alerts st'
               = SecurityDashboard.alerts st ++ [mkAlert "Error" text])
        /\ (Spec.pending_at incidentId (SecurityDashboard.incidents st) ->
            SecurityDashboard.incidents st' = SecurityDashboard.incidents st)
        /\ Spec.pending_at incidentId
             (SecurityDashboard.incidents
                (SecurityDashboard.acknowledge_resume incidentId failure st)))
    /\
    (forall (isSOS : bool) (st : SecurityDashboardNew.State),
        let st' :=
          SecurityDashboardNew.handleAcknowledge BASE_URL incidentId isSOS reply st in
        let touched (s : SecurityDashboardNew.State) :=
          if isSOS then SecurityDashboardNew.sosAlerts s
          else SecurityDashboardNew.incidents s in
        Forall2 (fun before after =>
                   Spec.rolled_back_one incidentId before after
                   /\ Spec.assignment_cleared incidentId after)
                (touched st) (touched st')
        /\ (incidentId ∉ SecurityDashboardNew.acknowledgedIncidentsRef st')
        /\ (exists text,
               SecurityDashboardNew.alerts st'
               = SecurityDashboardNew.alerts st ++ [mkAlert "Error" text])
        /\ (Spec.pending_at incidentId (touched st) ->
            map Spec.ack_fields (touched st') = map Spec.ack_fields (touched st))
        /\ Spec.pending_at incidentId
             (touched
                (SecurityDashboardNew.handleAcknowledge_resume incidentId isSOS
                   failure st)))
    /\
    (forall st : AdminDashboard.State,
        let st' := AdminDashboard.acknowledge BASE_URL incidentId reply st in
        Forall2 (Spec.rolled_back_one incidentId)
                (AdminDashboard.incidents st) (AdminDashboard.incidents st')
        /\ (Spec.pending_at incidentId (AdminDashboard.incidents st) ->
            AdminDashboard.incidents st' = AdminDashboard.incidents st)).
Proof.
  intros D BASE_URL incidentId reply Hfail failure. subst failure.
  destruct (failed_result_is_err BASE_URL reply Hfail) as [m Hm].
  split; [|split].
  - intros st st'. subst st'.
    unfold SecurityDashboard.acknowledge. rewrite Hm. simpl.
    rewrite set_ack_twice.
    split; [apply set_ack_rolled_back|].
    split; [apply not_in_after_delete|].
    split; [eexists; reflexivity|].
    split; [apply set_ack_pending_id | apply set_ack_pending_at].
  - intros isSOS st st' touched. subst st' touched.
    unfold SecurityDashboardNew.handleAcknowledge. rewrite Hm.
    destruct isSOS; simpl; rewrite revertFunc_updateFunc;
      (split; [apply revertFunc_rolled_back|];
       split; [apply not_in_after_delete|];
       split; [eexists; reflexivity|];
       split; [apply revertFunc_ack_fields | apply revertFunc_pending_at]).
  - intros st st'. subst st'.
    unfold AdminDashboard.acknowledge. rewrite Hm. simpl.
    change AdminDashboard.set_ack with SecurityDashboard.set_ack.
    rewrite set_ack_twice.
    split; [apply set_ack_rolled_back | apply set_ack_pending_id].
Qed.

(** C1 at work: the server answers 500 to the acknowledgement of the pending
    incident 42; the list is what it was before the call. *)
Lemma acknowledge_failure_rolls_back_witness :
  Api.failed Examples.serverError
  /\ Spec.pending_at 42 (SecurityDashboard.incidents Examples.dashboard)
  /\ SecurityDashboard.incidents
       (SecurityDashboard.acknowledge Examples.base 42 Examples.serverError
          Examples.dashboard)
     = SecurityDashboard.incidents Examples.dashboard
  /\ Spec.pending_at 50 (SecurityDashboardNew.sosAlerts Examples.dashboardNew)
  /\ map Spec.ack_fields
       (SecurityDashboardNew.sosAlerts
          (SecurityDashboardNew.handleAcknowledge Examples.base 50 true
             Examples.serverError Examples.dashboardNew))
     = map Spec.ack_fields (SecurityDashboardNew.sosAlerts Examples.dashboardNew).
Proof.
  assert (Hf : Api.failed Examples.serverError) by exact I.
  assert (Hp : Spec.pending_at 42 (SecurityDashboard.incidents Examples.dashboard)).
  { intros inc Hin Hid. simpl in Hin.
    destruct Hin as [<- | [<- | []]];
      [split; reflexivity | discriminate Hid]. }
  assert (Hq : Spec.pending_at 50
                 (SecurityDashboardNew.sosAlerts Examples.dashboardNew)).
  { intros inc Hin Hid. simpl in Hin.
    destruct Hin as [<- | []]. split; reflexivity. }
  split; [exact Hf|]. split; [exact Hp|].
  split.
  - destruct (acknowledge_failure_rolls_back Incident.t Examples.base 42
                Examples.serverError Hf) as (H & _ & _).
    destruct (H Examples.dashboard) as (_ & _ & _ & Hround & _).
    exact (Hround Hp).
  - split; [exact Hq|].
    destruct (acknowledge_failure_rolls_back Incident.t Examples.base 50
                Examples.serverError Hf) as (_ & H & _).
    destruct (H true Examples.dashboardNew) as (_ & _ & _ & Hround & _).
    exact (Hround Hq).
Defined.

(** The incident lemmas used by [auto]. *)
Create HintDb incident.

Lemma with_ack_acknowledged_consistent inc :
  Incident.consistent (Incident.with_ack inc true "acknowledged").
Proof. unfold Incident.consistent; simpl; split; reflexivity. Qed.

Lemma with_ack_pending_consistent inc :
  Incident.consistent (Incident.with_ack inc false "pending").
Proof. unfold Incident.consistent; simpl; split; intros H; discriminate H. Qed.

Lemma with_ack_assigned_consistent inc u p :
  Incident.consistent (Incident.with_ack_assigned inc true "acknowledged" u p)
  /\ Incident.consistent (Incident.with_ack_assigned inc false "pending" u p).
Proof.
  unfold Incident.consistent; simpl; split; split; intros H;
    first [reflexivity | discriminate H].
Qed.

#[local] Hint Resolve with_ack_acknowledged_consistent
  with_ack_pending_consistent : incident.

(** Case analysis on what an awaited API call produced. *)
Ltac case_awaited r :=
  let d := fresh "d" in
  let s := fresh "s" in
  let m := fresh "m" in
  destruct r as [[d|s m]|m]; simpl.

Lemma set_ack_consistent i a s l :
  (forall inc, Incident.consistent (Incident.with_ack inc a s)) ->
  Forall Incident.consistent l ->
  Forall Incident.consistent (SecurityDashboard.set_ack i a s l).
Proof.
  intros Hc H. unfold SecurityDashboard.set_ack.
  induction H as [|inc l Hinc _ IH]; simpl; constructor; [|exact IH].
  destruct (Incident.id inc =? i); [apply Hc | exact Hinc].
Qed.

Lemma mergeAcknowledged_consistent data :
  Forall Incident.consistent data ->
  forall ref,
    Forall Incident.consistent (SecurityDashboard.mergeAcknowledged ref data).1.
Proof.
  induction 1 as [|inc l Hinc _ IH]; intros ref; simpl; [constructor|].
  destruct (bool_decide (Incident.id inc ∈ ref)).
  - specialize (IH ref).
    destruct (SecurityDashboard.mergeAcknowledged ref l) as [out ref']; simpl in *.
    constructor; [apply with_ack_acknowledged_consistent | exact IH].
  - match goal with
    | |- context [SecurityDashboard.mergeAcknowledged ?r l] =>
        specialize (IH r);
        destruct (SecurityDashboard.mergeAcknowledged r l) as [out ref']
    end.
    simpl in *. constructor; assumption.
Qed.

Lemma processIncidents_consistent data :
  Forall Incident.consistent data ->
  forall ref,
    Forall Incident.consistent (SecurityDashboardNew.processIncidents ref data).1.
Proof.
  induction 1 as [|inc l Hinc _ IH]; intros ref; simpl; [constructor|].
  match goal with
  | |- context [SecurityDashboardNew.processIncidents ?r l] =>
      specialize (IH r);
      destruct (SecurityDashboardNew.processIncidents r l) as [out ref']
  end.
  simpl in *. constructor; [|exact IH].
  destruct (bool_decide (Incident.id inc ∈ ref));
    [apply with_ack_acknowledged_consistent | exact Hinc].
Qed.

Lemma step_consistent st e :
  Spec.backend_consistent e ->
  Forall Incident.consistent (SecurityDashboard.incidents st) ->
  Forall Incident.consistent
         (SecurityDashboard.incidents (SecurityDashboard.step st e)).
Proof.
  intros He Hst. destruct e as [|r|i|i r]; simpl.
  - exact Hst.
  - destruct r as [[data|s m]|m]; simpl in *; try exact Hst.
    pose proof (mergeAcknowledged_consistent data He
                  (SecurityDashboard.acknowledgedIncidentsRef st)) as H.
    destruct (SecurityDashboard.mergeAcknowledged _ data) as [out ref']. exact H.
  - apply set_ack_consistent; auto with incident.
  - case_awaited r; try exact Hst; apply set_ack_consistent; auto with incident.
Qed.

(** C8. Every local update of an incident keeps
    status === 'acknowledged' <-> acknowledged === true: the optimistic
    acknowledge and the rollback write a consistent pair whatever the
    incident held, the merge of a refresh writes a consistent pair into the
    incidents it overrides and passes the others on unchanged; hence the
    invariant holds of the displayed list along every run of the dashboard
    whose refreshes carry consistent backend data. *)
Theorem local_updates_keep_status_consistent :
  (forall inc u p,
      Incident.consistent (Incident.with_ack inc true "acknowledged")
      /\ Incident.consistent (Incident.with_ack inc false "pending")
      /\ Incident.consistent (Incident.with_ack_assigned inc true "acknowledged" u p)
      /\ Incident.consistent (Incident.with_ack_assigned inc false "pending" u p))
  /\ (forall ref data,
         Forall Incident.consistent data ->
         Forall Incident.consistent (SecurityDashboard.mergeAcknowledged ref data).1
         /\ Forall Incident.consistent
                   (SecurityDashboardNew.processIncidents ref data).1)
  /\ (forall trace st,
         Forall Spec.backend_consistent trace ->
         Forall Incident.consistent (SecurityDashboard.incidents st) ->
         Forall Incident.consistent
                (SecurityDashboard.incidents (SecurityDashboard.run trace st))).
Proof.
  split; [|split].
  - intros inc u p.
    pose proof (with_ack_assigned_consistent inc u p) as [H1 H2].
    auto with incident.
  - intros ref data H.
    split; [apply mergeAcknowledged_consistent | apply processIncidents_consistent];
      exact H.
  - unfold SecurityDashboard.run.
    induction trace as [|e trace IH]; intros st Htr Hst; simpl; [exact Hst|].
    inversion Htr as [|? ? He Htr']; subst.
    apply IH; [exact Htr' | apply step_consistent; assumption].
Qed.

(** C8 at work: a refresh with consistent data, an optimistic acknowledge
    and its rollback. *)
Lemma local_updates_keep_status_consistent_witness :
  Forall Incident.consistent Examples.dataB
  /\ Forall Spec.backend_consistent Examples.ackTrace
  /\ Forall Incident.consistent
            (SecurityDashboard.incidents
               (SecurityDashboard.run Examples.ackTrace SecurityDashboard.initial))
  /\ Forall Incident.consistent
            (SecurityDashboard.mergeAcknowledged {[42]} Examples.dataB).1.
Proof.
  assert (Hd : Forall Incident.consistent Examples.dataB).
  { repeat constructor; intros H; discriminate H. }
  assert (Ht : Forall Spec.backend_consistent Examples.ackTrace).
  { unfold Examples.ackTrace.
    constructor; [exact I|]. constructor; [exact Hd|].
    constructor; [exact I|]. constructor; [exact I | constructor]. }
  destruct local_updates_keep_status_consistent as (_ & Hmerge & Hrun).
  split; [exact Hd|]. split; [exact Ht|]. split.
  - apply Hrun; [exact Ht | constructor].
  - apply (Hmerge {[42]} Examples.dataB Hd).
Defined.

(** ** Role-based visibility *)

Lemma processIncidents_same_but_ack data :
  forall ref,
    Forall2 Spec.same_but_ack data (SecurityDashboardNew.processIncidents ref data).1.
Proof.
  induction data as [|inc l IH]; intros ref; simpl; [constructor|].
  match goal with
  | |- context [SecurityDashboardNew.processIncidents ?r l] =>
      specialize (IH r);
      destruct (SecurityDashboardNew.processIncidents r l) as [out ref']
  end.
  simpl in *. constructor; [|exact IH].
  unfold Spec.same_but_ack.
  destruct (bool_decide (Incident.id inc ∈ ref)); [right|left]; reflexivity.
Qed.

Lemma filter_Forall2_respects {A} (R : A -> A -> Prop) (p : A -> bool) l l' :
  (forall x y, R x y -> p x = p y) ->
  Forall2 R l l' -> Forall2 R (List.filter p l) (List.filter p l').
Proof.
  intros Hp. induction 1 as [|x y l l' Hxy _ IH]; simpl; [constructor|].
  rewrite <- (Hp x y Hxy). destruct (p x); [constructor|]; assumption.
Qed.

Lemma same_but_ack_ids l l' :
  Forall2 Spec.same_but_ack l l' -> map Incident.id l' = map Incident.id l.
Proof.
  induction 1 as [|x y l l' Hxy _ IH]; simpl; [reflexivity|].
  rewrite IH. destruct Hxy as [-> | ->]; reflexivity.
Qed.

Lemma same_but_ack_length l l' :
  Forall2 Spec.same_but_ack l l' -> length l' = length l.
Proof. induction 1; simpl; congruence. Qed.

Lemma same_but_ack_viewer x y :
  Spec.same_but_ack x y ->
  SecurityDashboardNew_v2.isViewerReport x = SecurityDashboardNew_v2.isViewerReport y.
Proof. intros [-> | ->]; reflexivity. Qed.

Lemma same_but_ack_assigned p x y :
  Spec.same_but_ack x y ->
  SecurityDashboardNew_v2.isAssignedToMe p x = SecurityDashboardNew_v2.isAssignedToMe p y.
Proof. intros [-> | ->]; reflexivity. Qed.

Lemma length_filter_sum {A} (p : A -> bool) l :
  length (List.filter p l) = list_sum (map (fun x => if p x then 1 else 0)%nat l).
Proof.
  induction l as [|x l IH]; simpl; [reflexivity|].
  destruct (p x); simpl; rewrite IH; reflexivity.
Qed.

Lemma list_sum_map_add {A} (f g : A -> nat) l :
  list_sum (map (fun x => f x + g x)%nat l)
  = (list_sum (map f l) + list_sum (map g l))%nat.
Proof. induction l as [|x l IH]; simpl; [reflexivity|]. rewrite IH. lia. Qed.

Lemma in_map_filter_id (p : Incident.t -> bool) l i :
  In i (map Incident.id (List.filter p l))
  <-> exists inc, In inc l /\ Incident.id inc = i /\ p inc = true.
Proof.
  rewrite in_map_iff. split.
  - intros [inc [Hid Hin]]. apply filter_In in Hin as [Hin Hp]. eauto.
  - intros [inc [Hin [Hid Hp]]]. exists inc. split; [exact Hid|].
    apply filter_In. auto.
Qed.

Lemma prefix_iff_append tag :
  forall d, String.prefix tag d = true <-> exists rest, d = tag +:+ rest.
Proof.
  induction tag as [|c tag IH]; intros d.
  - split; [intros _; exists d; reflexivity | intros _; destruct d; reflexivity].
  - destruct d as [|c' d].
    + split; [discriminate | intros [rest H]; discriminate H].
    + cbn [String.prefix]. destruct (Ascii.ascii_dec c c') as [<- | Hne].
      * rewrite IH. split.
        -- intros [rest ->]. exists rest. reflexivity.
        -- intros [rest H]. exists rest.
           change (String c tag +:+ rest) with (String c (tag +:+ rest)) in H.
           injection H as ->. reflexivity.
      * split; [discriminate|]. intros [rest H].
        change (String c tag +:+ rest) with (String c (tag +:+ rest)) in H.
        injection H as <- _. contradiction.
Qed.

Lemma has_tag_tagged tag inc :
  Spec.has_tag tag inc = true <-> Spec.tagged tag inc.
Proof.
  unfold Spec.has_tag, Spec.tagged.
  destruct (Incident.description inc) as [d|].
  - rewrite prefix_iff_append. split.
    + intros [rest ->]. exists rest. reflexivity.
    + intros [rest H]. injection H as ->. exists rest. reflexivity.
  - split; [discriminate | intros [rest H]; discriminate H].
Qed.

(** The tests of the two tabs are the tag tests of the specification. *)
Lemma isViewerReport_has_tag :
  SecurityDashboardNew_v2.isViewerReport = Spec.has_tag "[VIEWER REPORT]".
Proof. reflexivity. Qed.

Lemma is_sos_alert_has_tag : Api.is_sos_alert = Spec.has_tag "[SOS ALERT]".
Proof. reflexivity. Qed.

(** C2. After a fetch in which the incident endpoint returned [all] to both
    calls and the profile resolved to [u]: the viewer-report tab lists
    exactly the fetched incidents whose description starts with
    '[VIEWER REPORT]', the SOS tab exactly those whose description starts
    with '[SOS ALERT]', the assigned tab exactly those that pass the
    assigned test, each in order and with multiplicity; an id is in the
    union of the three tabs iff some fetched incident with that id matches
    at least one predicate; an incident is listed once per predicate it
    matches, so one that matches two is in both tabs; for a non-zero user
    id the third predicate is assigned_user_id = u.id; and 'starts with'
    is: the description is the tag followed by some text. *)
Theorem security_buckets_cover_matching_incidents :
  forall (BASE_URL : string) (all : list Incident.t) (u : User.t)
         (st : SecurityDashboardNew_v2.State),
    let st' :=
      SecurityDashboardNew_v2.fetchData_resume
        (Api.Ok all) (Api.getSOSAlerts_result BASE_URL (Api.ReplyOk all))
        (Api.Ok u) st in
    let viewer := SecurityDashboardNew_v2.viewerReports st' in
    let sos := SecurityDashboardNew_v2.sosTab st' in
    let assigned := SecurityDashboardNew_v2.assignedIncidents st' in
    let me := Some u in
    Forall2 Spec.same_but_ack
            (List.filter (Spec.has_tag "[VIEWER REPORT]") all) viewer
    /\ Forall2 Spec.same_but_ack
               (List.filter (Spec.has_tag "[SOS ALERT]") all) sos
    /\ Forall2 Spec.same_but_ack
               (List.filter (SecurityDashboardNew_v2.isAssignedToMe me) all) assigned
    /\ (forall i,
           In i (map Incident.id (viewer ++ sos ++ assigned))
           <-> exists inc,
               In inc all /\ Incident.id inc = i /\
               (Spec.tagged "[VIEWER REPORT]" inc
                \/ Spec.tagged "[SOS ALERT]" inc
                \/ SecurityDashboardNew_v2.isAssignedToMe me inc = true))
    /\ (forall inc,
           In inc all ->
           (Spec.tagged "[VIEWER REPORT]" inc ->
            In (Incident.id inc) (map Incident.id viewer))
           /\ (Spec.tagged "[SOS ALERT]" inc ->
               In (Incident.id inc) (map Incident.id sos))
           /\ (SecurityDashboardNew_v2.isAssignedToMe me inc = true ->
               In (Incident.id inc) (map Incident.id assigned)))
    /\ length (viewer ++ sos ++ assigned) = list_sum (map (Spec.matches me) all)
    /\ (User.id u <> 0 ->
        forall inc,
          SecurityDashboardNew_v2.isAssignedToMe me inc = true
          <-> Incident.assigned_user_id inc = Some (User.id u))
    /\ (forall tag inc,
           Spec.has_tag tag inc = true
           <-> exists rest, Incident.description inc = Some (tag +:+ rest)).
Proof.
  intros BASE_URL all u st st' viewer sos assigned me.
  assert (Hv : Forall2 Spec.same_but_ack
                 (List.filter (Spec.has_tag "[VIEWER REPORT]") all) viewer
               /\ Forall2 Spec.same_but_ack
                    (List.filter (Spec.has_tag "[SOS ALERT]") all) sos
               /\ Forall2 Spec.same_but_ack
                    (List.filter (SecurityDashboardNew_v2.isAssignedToMe me) all)
                    assigned).
  { rewrite <- isViewerReport_has_tag, <- is_sos_alert_has_tag.
    subst viewer sos assigned st'.
    unfold SecurityDashboardNew_v2.viewerReports, SecurityDashboardNew_v2.sosTab,
      SecurityDashboardNew_v2.assignedIncidents,
      SecurityDashboardNew_v2.fetchData_resume,
      SecurityDashboardNew_v2.processIncidents.
    simpl.
    pose proof (processIncidents_same_but_ack all
                  (SecurityDashboardNew_v2.acknowledgedIncidentsRef st)) as H1.
    destruct (SecurityDashboardNew.processIncidents _ all) as [incs ref1].
    pose proof (processIncidents_same_but_ack
                  (List.filter Api.is_sos_alert all) ref1) as H2.
    destruct (SecurityDashboardNew.processIncidents ref1 _) as [soss ref2].
    simpl in *. repeat split.
    - apply filter_Forall2_respects; [apply same_but_ack_viewer | exact H1].
    - exact H2.
    - apply filter_Forall2_respects; [apply same_but_ack_assigned | exact H1]. }
  destruct Hv as (Hv & Hs & Ha).
  split; [exact Hv|]. split; [exact Hs|]. split; [exact Ha|].
  split; [|split; [|split; [|split; [|exact has_tag_tagged]]]].
  - intros i. rewrite !map_app, !in_app_iff,
      (same_but_ack_ids _ _ Hv), (same_but_ack_ids _ _ Hs), (same_but_ack_ids _ _ Ha),
      !in_map_filter_id.
    split.
    + intros [H | [H | H]]; destruct H as [inc (Hin & Hid & Hp)];
        exists inc; (split; [exact Hin|]); (split; [exact Hid|]).
      * left. apply has_tag_tagged, Hp.
      * right; left. apply has_tag_tagged, Hp.
      * right; right. exact Hp.
    + intros [inc (Hin & Hid & [Hp | [Hp | Hp]])].
      * left. exists inc. rewrite has_tag_tagged. auto.
      * right; left. exists inc. rewrite has_tag_tagged. auto.
      * right; right. exists inc. auto.
  - intros inc Hin.
    rewrite (same_but_ack_ids _ _ Hv), (same_but_ack_ids _ _ Hs),
      (same_but_ack_ids _ _ Ha), !in_map_filter_id.
    repeat split; intros Hp; exists inc; rewrite ?has_tag_tagged; auto.
  - rewrite !length_app,
      (same_but_ack_length _ _ Hv), (same_but_ack_length _ _ Hs),
      (same_but_ack_length _ _ Ha), !length_filter_sum.
    unfold Spec.matches. rewrite !list_sum_map_add. lia.
  - intros Hid inc. unfold SecurityDashboardNew_v2.isAssignedToMe, me. simpl.
    destruct (User.id u =? 0) eqn:E; [apply Z.eqb_eq in E; contradiction|].
    simpl. split.
    + destruct (Incident.assigned_user_id inc) as [a|]; [|discriminate].
      intros Hq. apply Z.eqb_eq in Hq. congruence.
    + intros ->. apply Z.eqb_refl.
Qed.

(** C2 at work: the viewer report 8 is assigned to the guard; it is in the
    viewer-report tab and in the assigned tab, and not in the SOS tab,
    which lists the SOS alert 9 only. *)
Lemma security_buckets_cover_matching_incidents_witness :
  User.id Examples.guard <> 0
  /\ In Examples.assignedReport Examples.allIncidents
  /\ Spec.tagged "[VIEWER REPORT]" Examples.assignedReport
  /\ (SecurityDashboardNew_v2.isAssignedToMe (Some Examples.guard)
        Examples.assignedReport = true
      <-> Incident.assigned_user_id Examples.assignedReport
          = Some (User.id Examples.guard))
  /\ In 8 (map Incident.id
             (SecurityDashboardNew_v2.viewerReports
                (SecurityDashboardNew_v2.fetchData_resume
                   (Api.Ok Examples.allIncidents)
                   (Api.getSOSAlerts_result Examples.base
                      (Api.ReplyOk Examples.allIncidents))
                   (Api.Ok Examples.guard) SecurityDashboardNew_v2.initial)))
  /\ In 8 (map Incident.id
             (SecurityDashboardNew_v2.assignedIncidents
                (SecurityDashboardNew_v2.fetchData_resume
                   (Api.Ok Examples.allIncidents)
                   (Api.getSOSAlerts_result Examples.base
                      (Api.ReplyOk Examples.allIncidents))
                   (Api.Ok Examples.guard) SecurityDashboardNew_v2.initial))).
Proof.
  assert (Hid : User.id Examples.guard <> 0) by (simpl; lia).
  assert (Hin : In Examples.assignedReport Examples.allIncidents)
    by (simpl; auto).
  destruct (security_buckets_cover_matching_incidents Examples.base
              Examples.allIncidents Examples.guard SecurityDashboardNew_v2.initial)
    as (_ & _ & _ & _ & Hboth & _ & Heq & Htag).
  assert (Hvr : Spec.tagged "[VIEWER REPORT]" Examples.assignedReport).
  { unfold Spec.tagged. apply Htag. reflexivity. }
  destruct (Hboth Examples.assignedReport Hin) as (Hviewer & _ & Hassigned).
  split; [exact Hid|]. split; [exact Hin|]. split; [exact Hvr|].
  split; [exact (Heq Hid Examples.assignedReport)|].
  split; [exact (Hviewer Hvr)|].
  apply Hassigned. reflexivity.
Defined.

(** C3, as stated, fails on both viewer dashboards: the camera-based one
    lists a viewer report that came in on an AI-worker camera, the tabbed
    one lists an untagged incident of a camera that is neither owned nor an
    AI-worker camera. *)
Lemma viewer_filters_differ_from_claim :
  (ViewerDashboardClean.filteredIncidents Examples.alice Examples.cameras
     [Examples.report30] = [Examples.report30]
   /\ Spec.spec_visible Examples.alice Examples.cameras Examples.report30 = false)
  /\ (ViewerDashboardNew.filteredList (Some Examples.alice) [Examples.plain5]
      = [Examples.plain5]
      /\ Spec.spec_visible Examples.alice Examples.cameras Examples.plain5 = false).
Proof. vm_compute. repeat split. Qed.

Lemma sos_is_not_viewer_report d :
  Js.opt_startsWith "[SOS ALERT]" d = true ->
  Js.opt_startsWith "[VIEWER REPORT]" d = false.
Proof.
  destruct d as [s|]; [|discriminate].
  destruct s as [|a [|b s]];
    cbn [Js.opt_startsWith Js.startsWith String.prefix]; try discriminate.
  - destruct (Ascii.ascii_dec _ a); discriminate.
  - destruct (Ascii.ascii_dec _ a); [|discriminate].
    destruct (Ascii.ascii_dec _ b) as [<-|]; [|discriminate].
    intros _. destruct (Ascii.ascii_dec _ _); [discriminate | reflexivity].
Qed.

Lemma ViewerDashboardNew_visible_eq profile inc :
  ViewerDashboardNew.visible profile inc
  = negb (Js.opt_startsWith "[VIEWER REPORT]" (Incident.description inc)).
Proof.
  unfold ViewerDashboardNew.visible.
  destruct (Js.opt_startsWith "[SOS ALERT]" (Incident.description inc)) eqn:Hsos.
  - rewrite (sos_is_not_viewer_report _ Hsos). simpl.
    destruct (_ && _); reflexivity.
  - simpl. destruct (Js.opt_startsWith "[VIEWER REPORT]" _); reflexivity.
Qed.

Lemma owned_iff user cameras inc :
  ViewerDashboardClean.Number (Incident.camera_id inc)
    ∈ ViewerDashboardClean.ownedCameraIds user cameras
  <-> Spec.camera_owned user cameras inc.
Proof.
  unfold ViewerDashboardClean.ownedCameraIds, Spec.camera_owned.
  rewrite elem_of_list_to_set, list_elem_of_In, in_map_iff.
  split.
  - intros [c [Hid Hin]]. apply filter_In in Hin as [Hin Hown].
    apply Z.eqb_eq in Hown. eauto.
  - intros [c (Hin & Hid & Hown)]. exists c. split; [exact Hid|].
    apply filter_In. split; [exact Hin|]. apply Z.eqb_eq. exact Hown.
Qed.

(** C3 (amended). The camera-based viewer dashboard lists exactly the fetched
    incidents whose camera is owned by the viewer or has an id of at least
    29, whatever their description; the tabbed viewer dashboard lists
    exactly the fetched incidents whose description does not start with
    '[VIEWER REPORT]', which includes every '[SOS ALERT]' incident. *)
Theorem viewer_visible_sets :
  (forall (user : User.t) (cameras : list Camera.t) (all : list Incident.t)
          (inc : Incident.t),
      In inc (ViewerDashboardClean.filteredIncidents user cameras all)
      <-> In inc all
          /\ (Spec.camera_owned user cameras inc
              \/ 29 <= ViewerDashboardClean.Number (Incident.camera_id inc)))
  /\ (forall (profile : option User.t) (all : list Incident.t) (inc : Incident.t),
         (In inc (ViewerDashboardNew.filteredList profile all)
          <-> In inc all
              /\ Js.opt_startsWith "[VIEWER REPORT]" (Incident.description inc)
                 = false)
         /\ (In inc all ->
             Js.opt_startsWith "[SOS ALERT]" (Incident.description inc) = true ->
             In inc (ViewerDashboardNew.filteredList profile all))).
Proof.
  split.
  - intros user cameras all inc.
    unfold ViewerDashboardClean.filteredIncidents. rewrite filter_In.
    unfold ViewerDashboardClean.visible, ViewerDashboardClean.AI_CAMERA_MIN.
    rewrite orb_true_iff, bool_decide_eq_true, owned_iff, Z.leb_le. reflexivity.
  - intros profile all inc.
    unfold ViewerDashboardNew.filteredList. rewrite filter_In.
    rewrite ViewerDashboardNew_visible_eq, negb_true_iff.
    split; [reflexivity|].
    intros Hin Hsos. split; [exact Hin|]. apply sos_is_not_viewer_report. exact Hsos.
Qed.

(** C3 (amended) at work: alice's own SOS alert is in her list. *)
Lemma viewer_visible_sets_witness :
  In Examples.sosAlice Examples.allIncidents
  /\ Js.opt_startsWith "[SOS ALERT]" (Incident.description Examples.sosAlice) = true
  /\ In Examples.sosAlice
        (ViewerDashboardNew.filteredList (Some Examples.alice) Examples.allIncidents).
Proof.
  assert (Hin : In Examples.sosAlice Examples.allIncidents) by (simpl; auto 6).
  assert (Hsos : Js.opt_startsWith "[SOS ALERT]"
                   (Incident.description Examples.sosAlice) = true)
    by reflexivity.
  split; [exact Hin|]. split; [exact Hsos|].
  destruct viewer_visible_sets as [_ H].
  destruct (H (Some Examples.alice) Examples.allIncidents Examples.sosAlice)
    as [_ Hincl].
  exact (Hincl Hin Hsos).
Defined.

(** ** SOS *)

(** The handler of "Send SOS" writes the latch before it issues the call,
    and with the latch written the floating button is not rendered. *)
Lemma sendSOS_begin_latched base cameraId st :
  let st' := ViewerDashboardClean.sendSOS_begin base cameraId st in
  ViewerDashboardClean.sosSentRef st' = true
  /\ ViewerDashboardClean.sosDisabled st' = true
  /\ ViewerDashboardClean.sos_button_rendered st' = false.
Proof.
  unfold ViewerDashboardClean.sendSOS_begin.
  destruct (Js.truthy_num cameraId); repeat split.
Qed.

(** C4 on the code: the SOS trigger invoked twice before the first call
    resolves issues two submissions, on both dashboards.  On the dashboard
    with the floating button every press of the rendered button raises a
    confirmation, and the "Send SOS" handler of a confirmation writes the
    latch but never reads it: after two presses, the first "Send SOS"
    sets the latch and issues createIncident, and the second, with the
    latch set, issues it again.  On the tabbed dashboard handleSOS keeps
    no latch: two presses of "Send SOS Alert" with the modal open issue
    the same sendSOSAlert request twice. *)
Theorem sos_double_tap_fires_twice :
  forall (base : string),
    (forall (st : ViewerDashboardClean.State) (cam : Z),
        ViewerDashboardClean.sos_button_rendered st = true ->
        ViewerDashboardClean.first_camera_id st = Some cam ->
        cam <> 0 ->
        let rq := Api.createIncident_request base
                    (ViewerDashboardClean.sos_payload cam) in
        let one :=
          ViewerDashboardClean.run base
            [ViewerDashboardClean.PressSOS; ViewerDashboardClean.PressSOS;
             ViewerDashboardClean.DialogSendSOS] st in
        ViewerDashboardClean.sosSentRef one = true
        /\ ViewerDashboardClean.sosDisabled one = true
        /\ ViewerDashboardClean.sos_button_rendered one = false
        /\ ViewerDashboardClean.requests one
           = ViewerDashboardClean.requests st ++ [rq]
        /\ ViewerDashboardClean.requests
             (ViewerDashboardClean.step base one ViewerDashboardClean.DialogSendSOS)
           = ViewerDashboardClean.requests st ++ [rq; rq])
    /\ (forall (st : ViewerDashboardNew.State),
           ViewerDashboardNew.sosModal st = true ->
           let rq :=
             Api.sendSOSAlert_request base
               (Some (Js.or_str
                        (Some (ViewerDashboardNew.trim
                                 (ViewerDashboardNew.sosMessage st)))
                        "Emergency SOS Alert!"))
               (Some (ViewerDashboardNew.sos_userInfo st)) in
           ViewerDashboardNew.requests
             (ViewerDashboardNew.run base
                [ViewerDashboardNew.PressSendSOSAlert;
                 ViewerDashboardNew.PressSendSOSAlert] st)
           = ViewerDashboardNew.requests st ++ [rq; rq]).
Proof.
  intros base. split.
  - intros [incs ld dis ref ds bm bv rqs ft] cam Hrend Hcam Hnz rq one.
    unfold ViewerDashboardClean.sos_button_rendered in Hrend.
    cbn in Hrend.
    apply andb_true_iff in Hrend as [Hd Hr].
    apply negb_true_iff in Hd, Hr. subst dis ref.
    destruct incs as [|inc incs]; [discriminate Hcam|].
    cbn [ViewerDashboardClean.first_camera_id ViewerDashboardClean.incidents]
      in Hcam.
    assert (Hz : (cam =? 0) = false) by (apply Z.eqb_neq, Hnz).
    subst one rq.
    cbn -[Api.createIncident_request ViewerDashboardClean.sos_payload].
    rewrite Hcam.
    unfold ViewerDashboardClean.sendSOS_begin, Js.truthy_num.
    rewrite Hz.
    cbn -[Api.createIncident_request ViewerDashboardClean.sos_payload].
    rewrite Hz.
    cbn -[Api.createIncident_request ViewerDashboardClean.sos_payload].
    rewrite <- app_assoc. repeat split.
  - intros st Hopen rq.
    unfold ViewerDashboardNew.run. cbn [fold_left ViewerDashboardNew.step].
    rewrite Hopen.
    assert (Hopen' : ViewerDashboardNew.sosModal
                       (ViewerDashboardNew.handleSOS_begin base st) = true)
      by exact Hopen.
    rewrite Hopen'. unfold ViewerDashboardNew.handleSOS_begin.
    cbn [ViewerDashboardNew.requests ViewerDashboardNew.sosMessage
         ViewerDashboardNew.userProfile ViewerDashboardNew.editPhone
         ViewerDashboardNew.sos_userInfo].
    rewrite <- app_assoc. reflexivity.
Qed.

(** C4 at work.  Incident 42 of camera 3 is listed: two presses of the
    floating button and "Send SOS" on both confirmations issue two
    createIncident calls.  On the tabbed dashboard, with the modal open,
    two presses of "Send SOS Alert" issue two calls. *)
Lemma sos_double_tap_fires_twice_witness :
  length (ViewerDashboardClean.requests
            (ViewerDashboardClean.run Examples.base
               [ViewerDashboardClean.PressSOS; ViewerDashboardClean.PressSOS;
                ViewerDashboardClean.DialogSendSOS;
                ViewerDashboardClean.DialogSendSOS]
               Examples.viewerClean)) = 2%nat
  /\ length (ViewerDashboardNew.requests
               (ViewerDashboardNew.run Examples.base
                  [ViewerDashboardNew.OpenSOSModal;
                   ViewerDashboardNew.PressSendSOSAlert;
                   ViewerDashboardNew.PressSendSOSAlert]
                  Examples.viewerNew)) = 2%nat.
Proof.
  destruct (sos_double_tap_fires_twice Examples.base) as [Hclean Hnew].
  assert (Hr : ViewerDashboardClean.sos_button_rendered Examples.viewerClean = true)
    by reflexivity.
  assert (Hc : ViewerDashboardClean.first_camera_id Examples.viewerClean = Some 3)
    by reflexivity.
  assert (Hz : 3 <> 0) by lia.
  destruct (Hclean Examples.viewerClean 3 Hr Hc Hz) as (_ & _ & _ & _ & H2).
  split.
  - change (ViewerDashboardClean.run Examples.base
              [ViewerDashboardClean.PressSOS; ViewerDashboardClean.PressSOS;
               ViewerDashboardClean.DialogSendSOS;
               ViewerDashboardClean.DialogSendSOS] Examples.viewerClean)
      with (ViewerDashboardClean.step Examples.base
              (ViewerDashboardClean.run Examples.base
                 [ViewerDashboardClean.PressSOS; ViewerDashboardClean.PressSOS;
                  ViewerDashboardClean.DialogSendSOS] Examples.viewerClean)
              ViewerDashboardClean.DialogSendSOS).
    rewrite H2. reflexivity.
  - change (ViewerDashboardNew.run Examples.base
              [ViewerDashboardNew.OpenSOSModal;
               ViewerDashboardNew.PressSendSOSAlert;
               ViewerDashboardNew.PressSendSOSAlert] Examples.viewerNew)
      with (ViewerDashboardNew.run Examples.base
              [ViewerDashboardNew.PressSendSOSAlert;
               ViewerDashboardNew.PressSendSOSAlert]
              (ViewerDashboardNew.step Examples.base Examples.viewerNew
                 ViewerDashboardNew.OpenSOSModal)).
    rewrite (Hnew (ViewerDashboardNew.step Examples.base Examples.viewerNew
                     ViewerDashboardNew.OpenSOSModal) eq_refl).
    reflexivity.
Defined.

(** ** Bulk assignment *)

(** The example of the specification, on the code: incidents 1, 2, 3 are
    selected and the notify call of incident 2 fails. *)
Example submit_three_one_fails :
  GrantAccess.submit string Examples.base Examples.fails2
    Examples.selection (Some 9)
  = GrantAccess.Dispatched
      [Api.notifyIncident_request Examples.base 1 [9];
       Api.notifyIncident_request Examples.base 2 [9];
       Api.notifyIncident_request Examples.base 3 [9]]
      [Api.Ok "notified"; Api.Ok "notified"]
      [Api.Err None (Some "Incident already assigned")]
      (mkAlert "Success"
         "Assigned 2 incident(s) to security personnel. 1 failed.")
      true.
Proof. vm_compute. reflexivity. Qed.


Lemma filter_map_comm {A B} (f : A -> B) (p : B -> bool) l :
  List.filter p (map f l) = map f (List.filter (fun x => p (f x)) l).
Proof.
  induction l as [|x l IH]; simpl; [reflexivity|].
  destruct (p (f x)); simpl; rewrite IH; reflexivity.
Qed.

Lemma filter_partition_length {A} (p : A -> bool) l :
  (length (List.filter p l) + length (List.filter (fun x => negb (p x)) l))%nat
  = length l.
Proof.
  induction l as [|x l IH]; simpl; [reflexivity|].
  destruct (p x); simpl; lia.
Qed.



(** ** Evidence verification *)





(** C7 on the code: in EvidenceStoreSecure a verification that found
    TAMPERED is shown, and the next list response, still carrying PENDING,
    replaces it. *)
Lemma refresh_replaces_observed_verification :
  EvidenceStoreSecure.shown
    (EvidenceStoreSecure.run
       [EvidenceStoreSecure.VerifyResolve 1 (Js.Resolved (Api.Ok Examples.tampered))]
       Examples.evidenceLoaded)
  = [(1, "TAMPERED")]
  /\ EvidenceStoreSecure.shown
       (EvidenceStoreSecure.run
          [EvidenceStoreSecure.VerifyResolve 1 (Js.Resolved (Api.Ok Examples.tampered));
           EvidenceStoreSecure.FetchResolve
             (Js.Resolved (Api.Ok [Examples.pendingItem]))]
          Examples.evidenceLoaded)
     = [(1, "PENDING")].
Proof. vm_compute. split; reflexivity. Qed.

(** The list of EvidenceStoreSecure after a successful fetch is the fetched
    list, whatever was verified before. *)
Lemma fetchEvidence_replaces_list st data :
  EvidenceStoreSecure.evidence
    (EvidenceStoreSecure.fetchEvidence_resume (Js.Resolved (Api.Ok data)) st) = data.
Proof. reflexivity. Qed.

(** IncidentDetailScreen does keep the observed result: it is stored apart
    from the incident and read first, so a refresh of the incident does not
    touch what is shown. *)
Lemma detail_keeps_observed_verification st evidenceId data fresh item :
  Js.truthy_str (v_status data) = true ->
  Evidence.id item = evidenceId ->
  IncidentDetail.shown_status
    (IncidentDetail.handleRefresh_resume fresh
       (IncidentDetail.verify_resume evidenceId (Js.Resolved (Api.Ok data)) st))
    item
  = v_status data.
Proof.
  intros Ht <-. unfold IncidentDetail.shown_status. simpl.
  rewrite lookup_insert_eq, Ht. reflexivity.
Qed.

(** ** Overlapping refreshes *)

(** C9, as stated, fails: A starts, B starts, B resolves, A resolves; the
    list shown at the end is A's. *)
Lemma stale_response_is_applied :
  UseIncidents.incidents
    (UseIncidents.run
       [UseIncidents.FetchStart; UseIncidents.FetchStart;
        UseIncidents.FetchResolve (Js.Resolved (Api.Ok Examples.dataB));
        UseIncidents.FetchResolve (Js.Resolved (Api.Ok Examples.dataA))]
       UseIncidents.initial)
  = Examples.dataA
  /\ SecurityDashboard.incidents
       (SecurityDashboard.run
          [SecurityDashboard.FetchStart; SecurityDashboard.FetchStart;
           SecurityDashboard.FetchResolve (Js.Resolved (Api.Ok Examples.dataB));
           SecurityDashboard.FetchResolve (Js.Resolved (Api.Ok Examples.dataA))]
          SecurityDashboard.initial)
     = Examples.dataA
  /\ Examples.dataA <> Examples.dataB.
Proof. vm_compute. repeat split. discriminate. Qed.

Lemma run_snoc_hook trace e st :
  UseIncidents.run (trace ++ [e]) st = UseIncidents.step (UseIncidents.run trace st) e.
Proof. unfold UseIncidents.run. rewrite fold_left_app. reflexivity. Qed.

Lemma run_snoc_dashboard trace e st :
  SecurityDashboard.run (trace ++ [e]) st
  = SecurityDashboard.step (SecurityDashboard.run trace st) e.
Proof. unfold SecurityDashboard.run. rewrite fold_left_app. reflexivity. Qed.

(** C9 (amended). No fetch carries a sequence number and no response is
    discarded: whatever started or resolved before, the list shown after a
    successful response is the data of that response (on the security
    dashboard, merged with the locally acknowledged ids).  So when A
    resolves after B the list reflects A's data. *)
Theorem last_resolved_response_wins :
  (forall trace st data,
      UseIncidents.incidents
        (UseIncidents.run
           (trace ++ [UseIncidents.FetchResolve (Js.Resolved (Api.Ok data))]) st)
      = data)
  /\ (forall trace st data,
         let before := SecurityDashboard.run trace st in
         SecurityDashboard.incidents
           (SecurityDashboard.run
              (trace ++ [SecurityDashboard.FetchResolve (Js.Resolved (Api.Ok data))])
              st)
         = (SecurityDashboard.mergeAcknowledged
              (SecurityDashboard.acknowledgedIncidentsRef before) data).1)
  /\ (forall st dataA dataB,
         UseIncidents.incidents
           (UseIncidents.run
              [UseIncidents.FetchStart; UseIncidents.FetchStart;
               UseIncidents.FetchResolve (Js.Resolved (Api.Ok dataB));
               UseIncidents.FetchResolve (Js.Resolved (Api.Ok dataA))] st)
         = dataA).
Proof.
  split; [|split].
  - intros trace st data. rewrite run_snoc_hook. reflexivity.
  - intros trace st data before. rewrite run_snoc_dashboard. simpl.
    subst before.
    destruct (SecurityDashboard.mergeAcknowledged _ data) as [out ref']. reflexivity.
  - intros st dataA dataB. reflexivity.
Qed.

(** ** The action button of the admin dashboard *)

Lemma append_cons c (x y : string) : String c x +:+ y = String c (x +:+ y).
Proof. reflexivity. Qed.

Lemma append_length (x y : string) :
  String.length (x +:+ y) = (String.length x + String.length y)%nat.
Proof.
  induction x as [|c x IH]; [reflexivity|].
  rewrite append_cons. simpl. rewrite IH. reflexivity.
Qed.

Lemma append_same_length_inj (x y a b : string) :
  String.length x = String.length y -> x +:+ a = y +:+ b -> a = b.
Proof.
  revert y. induction x as [|c x IH]; intros [|d y] Hl H;
    try discriminate Hl; [exact H|].
  rewrite !append_cons in H. injection H as _ H. injection Hl as Hl.
  eapply IH; eassumption.
Qed.

Lemma append_suffix_inj (x y a b : string) :
  String.length a = String.length b -> x +:+ a = y +:+ b -> a = b.
Proof.
  intros Hl H. apply (append_same_length_inj x y); [|exact H].
  apply (f_equal String.length) in H. rewrite !append_length in H. lia.
Qed.

Lemma append_assoc (x y z : string) : (x +:+ y) +:+ z = x +:+ (y +:+ z).
Proof.
  induction x as [|c x IH]; [reflexivity|].
  rewrite !append_cons, IH. reflexivity.
Qed.

Lemma acknowledges_not_revokes base rq :
  Spec.acknowledges base rq -> ~ Spec.revokes base rq.
Proof.
  intros [i ->] [j H].
  unfold Api.acknowledgeIncidentWithStatus_request in H.
  injection H as H. simpl Api.js_bool in H.
  change ("/acknowledge?acknowledged=" +:+ "true")
    with ("/acknowledge?acknowledged" +:+ "=true") in H.
  rewrite <- !append_assoc in H.
  apply append_suffix_inj in H; [discriminate H | reflexivity].
Qed.

Lemma getIncidents_not_revokes base :
  ~ Spec.revokes base (AdminDashboardRevoke.getIncidents_request base).
Proof. intros [j H]. discriminate H. Qed.

Lemma step_requests_allowed base st e :
  Forall (Spec.allowed base) (AdminDashboardRevoke.requests st) ->
  Forall (Spec.allowed base)
         (AdminDashboardRevoke.requests (AdminDashboardRevoke.step base st e)).
Proof.
  intros H. destruct e as [item|i r|i r| |r]; simpl.
  - destruct (default false _); [exact H|]. simpl.
    apply Forall_app. split; [exact H|]. constructor; [|constructor].
    right. exists (Incident.id item). reflexivity.
  - case_awaited r; try exact H.
    apply Forall_app. split; [exact H|]. constructor; [|constructor]. left. reflexivity.
  - case_awaited r; exact H.
  - apply Forall_app. split; [exact H|]. constructor; [|constructor]. left. reflexivity.
  - case_awaited r; exact H.
Qed.

Lemma run_requests_allowed base trace :
  forall st,
    Forall (Spec.allowed base) (AdminDashboardRevoke.requests st) ->
    Forall (Spec.allowed base)
           (AdminDashboardRevoke.requests (AdminDashboardRevoke.run base trace st)).
Proof.
  unfold AdminDashboardRevoke.run.
  induction trace as [|e trace IH]; intros st H; simpl; [exact H|].
  apply IH, step_requests_allowed, H.
Qed.

(** C10. The action button of the admin dashboard reads 'Revoke' exactly
    when the incident is shown as acknowledged; pressing it, under either
    label, issues PUT .../acknowledge?acknowledged=true for the id of the
    incident and writes nothing to the local list; and along every run of
    the screen no request carries acknowledged=false. *)
Theorem revoke_button_acknowledges :
  forall (base : string),
    (forall item,
        (AdminDashboardRevoke.action_label item = "Revoke"
         <-> Incident.shown_acknowledged item = true)
        /\ (AdminDashboardRevoke.action_label item = "Acknowledge"
            <-> Incident.shown_acknowledged item = false))
    /\ (forall st item,
           default false (AdminDashboardRevoke.actionLoading st !! Incident.id item)
           = false ->
           let st' := AdminDashboardRevoke.step base st
                        (AdminDashboardRevoke.PressAction item) in
           AdminDashboardRevoke.requests st'
           = AdminDashboardRevoke.requests st ++
             [Api.mkRequest "PUT"
                (base +:+ "/api/v1/incidents/" +:+ Js.string_of_Z (Incident.id item)
                 +:+ "/acknowledge?acknowledged=true")
                Api.NoBody]
           /\ AdminDashboardRevoke.incidents st' = AdminDashboardRevoke.incidents st)
    /\ (forall trace rq,
           In rq (AdminDashboardRevoke.requests
                    (AdminDashboardRevoke.run base trace AdminDashboardRevoke.initial)) ->
           ~ Spec.revokes base rq).
Proof.
  intros base. split; [|split].
  - intros item. unfold AdminDashboardRevoke.action_label.
    destruct (Incident.shown_acknowledged item); split; split;
      intros H; first [reflexivity | discriminate H].
  - intros st item Hl st'. subst st'. simpl. rewrite Hl. split; reflexivity.
  - intros trace rq Hin.
    assert (H0 : Forall (Spec.allowed base)
                   (AdminDashboardRevoke.requests AdminDashboardRevoke.initial))
      by constructor.
    pose proof (run_requests_allowed base trace AdminDashboardRevoke.initial H0) as H.
    rewrite List.Forall_forall in H. destruct (H rq Hin) as [-> | Hack].
    + apply getIncidents_not_revokes.
    + apply acknowledges_not_revokes. exact Hack.
Qed.

(** C10 at work: incident 7 is acknowledged, its button reads 'Revoke', and
    pressing it sends acknowledged=true. *)
Lemma revoke_button_acknowledges_witness :
  AdminDashboardRevoke.action_label Examples.handled7 = "Revoke"
  /\ default false
       (AdminDashboardRevoke.actionLoading AdminDashboardRevoke.initial
          !! Incident.id Examples.handled7) = false
  /\ AdminDashboardRevoke.requests
       (AdminDashboardRevoke.step Examples.base AdminDashboardRevoke.initial
          (AdminDashboardRevoke.PressAction Examples.handled7))
     = [Api.mkRequest "PUT"
          "http://10.0.2.2:8000/api/v1/incidents/7/acknowledge?acknowledged=true"
          Api.NoBody]
  /\ In (Api.acknowledgeIncident_request Examples.base 7)
        (AdminDashboardRevoke.requests
           (AdminDashboardRevoke.run Examples.base
              [AdminDashboardRevoke.PressAction Examples.handled7]
              AdminDashboardRevoke.initial))
  /\ ~ Spec.revokes Examples.base (Api.acknowledgeIncident_request Examples.base 7).
Proof.
  assert (Hl : default false
                 (AdminDashboardRevoke.actionLoading AdminDashboardRevoke.initial
                    !! Incident.id Examples.handled7) = false) by reflexivity.
  assert (Hin : In (Api.acknowledgeIncident_request Examples.base 7)
                   (AdminDashboardRevoke.requests
                      (AdminDashboardRevoke.run Examples.base
                         [AdminDashboardRevoke.PressAction Examples.handled7]
                         AdminDashboardRevoke.initial)))
    by (left; reflexivity).
  destruct (revoke_button_acknowledges Examples.base) as (Hlabel & Hpress & Hnever).
  destruct (Hlabel Examples.handled7) as [[_ Hrev] _].
  destruct (Hpress AdminDashboardRevoke.initial Examples.handled7 Hl) as [Hreq _].
  split; [exact (Hrev eq_refl)|]. split; [exact Hl|].
  split; [exact Hreq|]. split; [exact Hin|].
  exact (Hnever _ _ Hin).
Defined.

(** * Further properties of the client *)

Import Credentials.

(** ** Stored credentials: AsyncStorage, authHeaders, login and logout *)

Lemma getItem_setItem k key value s :
  AsyncStorage.getItem k (AsyncStorage.setItem key value s)
  = if String.eqb key k then Some value else AsyncStorage.getItem k s.
Proof.
  unfold AsyncStorage.getItem, AsyncStorage.setItem. cbn [AsyncStorage.items].
  destruct (String.eqb_spec key k) as [->|Hne].
  - apply lookup_insert_eq.
  - apply lookup_insert_ne. exact Hne.
Qed.

Lemma getItem_removeItem k key s :
  String.eqb k "user" = false ->
  AsyncStorage.getItem k (AsyncStorage.removeItem key s)
  = if String.eqb key k then None else AsyncStorage.getItem k s.
Proof.
  intros Hk. unfold AsyncStorage.getItem, AsyncStorage.removeItem.
  destruct (String.eqb_spec key "user") as [->|Hu]; cbn [AsyncStorage.items].
  - rewrite String.eqb_sym, Hk. reflexivity.
  - destruct (String.eqb_spec key k) as [->|Hne].
    + apply lookup_delete_eq.
    + apply lookup_delete_ne. exact Hne.
Qed.

Lemma getItem_multiRemove k keys s :
  String.eqb k "user" = false ->
  AsyncStorage.getItem k (AsyncStorage.multiRemove keys s)
  = if existsb (fun key => String.eqb key k) keys then None
    else AsyncStorage.getItem k s.
Proof.
  intros Hk. unfold AsyncStorage.multiRemove. revert s.
  induction keys as [|key keys IH]; intros s; [reflexivity|].
  cbn [fold_left existsb]. rewrite IH, (getItem_removeItem _ _ _ Hk).
  destruct (String.eqb key k); cbn [orb]; [|reflexivity].
  destruct (existsb _ keys); reflexivity.
Qed.

Lemma user_removeItem key s :
  AsyncStorage.user (AsyncStorage.removeItem key s)
  = if String.eqb key "user" then None else AsyncStorage.user s.
Proof.
  unfold AsyncStorage.removeItem. destruct (String.eqb key "user"); reflexivity.
Qed.

Lemma user_multiRemove keys s :
  AsyncStorage.user (AsyncStorage.multiRemove keys s)
  = if existsb (fun key => String.eqb key "user") keys then None
    else AsyncStorage.user s.
Proof.
  unfold AsyncStorage.multiRemove. revert s.
  induction keys as [|key keys IH]; intros s; [reflexivity|].
  cbn [fold_left existsb]. rewrite IH, user_removeItem.
  destruct (String.eqb key "user"); cbn [orb]; [|reflexivity].
  destruct (existsb _ keys); reflexivity.
Qed.

Lemma tokenKey_cases role :
  ApiAuth.tokenKey role = "securityToken"
  \/ ApiAuth.tokenKey role = "viewerToken"
  \/ ApiAuth.tokenKey role = "adminToken"
  \/ ApiAuth.tokenKey role = "userToken".
Proof.
  unfold ApiAuth.tokenKey.
  destruct (String.eqb role "security"); [auto|].
  destruct (String.eqb role "viewer"); [auto|].
  destruct (String.eqb role "admin"); auto.
Qed.

(** Two stores that agree on the four token keys give the same header. *)
Lemma authHeaders_ext role s s' :
  (forall k, In k token_keys ->
             AsyncStorage.getItem k s = AsyncStorage.getItem k s') ->
  ApiAuth.authHeaders role s = ApiAuth.authHeaders role s'.
Proof.
  intros H. unfold ApiAuth.authHeaders.
  assert (Hrole : AsyncStorage.getItem (ApiAuth.tokenKey (default "" role)) s
                  = AsyncStorage.getItem (ApiAuth.tokenKey (default "" role)) s').
  { apply H. unfold token_keys.
    destruct (tokenKey_cases (default "" role)) as [-> | [-> | [-> | -> ]]];
      simpl; auto. }
  rewrite Hrole.
  rewrite (H "viewerToken"), (H "securityToken"), (H "adminToken"),
    (H "userToken") by (unfold token_keys; simpl; auto).
  reflexivity.
Qed.

(** getBaseUrl touches the override key only. *)
Lemma getBaseUrl_getItem OS BASE_URL s k :
  String.eqb k "user" = false ->
  String.eqb ApiAuth.OVERRIDE_KEY k = false ->
  AsyncStorage.getItem k (ApiAuth.getBaseUrl OS BASE_URL s).2
  = AsyncStorage.getItem k s.
Proof.
  intros Hu Hk. unfold ApiAuth.getBaseUrl.
  destruct (Js.truthy_str _); [|reflexivity].
  destruct (String.eqb OS "web"); [|reflexivity].
  destruct (_ || _); [reflexivity|].
  cbn [snd]. rewrite (getItem_removeItem _ _ _ Hu), Hk. reflexivity.
Qed.

Lemma getBaseUrl_user OS BASE_URL s :
  AsyncStorage.user (ApiAuth.getBaseUrl OS BASE_URL s).2 = AsyncStorage.user s.
Proof.
  unfold ApiAuth.getBaseUrl.
  destruct (Js.truthy_str _); [|reflexivity].
  destruct (String.eqb OS "web"); [|reflexivity].
  destruct (_ || _); reflexivity.
Qed.

Lemma getBaseUrl_token_keys OS BASE_URL s k :
  In k token_keys ->
  AsyncStorage.getItem k (ApiAuth.getBaseUrl OS BASE_URL s).2
  = AsyncStorage.getItem k s.
Proof.
  intros Hk. apply getBaseUrl_getItem;
    unfold token_keys in Hk; simpl in Hk;
    destruct Hk as [<- | [<- | [<- | [<- | []]]]]; reflexivity.
Qed.

Lemma getBaseUrl_authHeaders OS BASE_URL role s :
  ApiAuth.authHeaders role (ApiAuth.getBaseUrl OS BASE_URL s).2
  = ApiAuth.authHeaders role s.
Proof. apply authHeaders_ext. intros k Hk. apply getBaseUrl_token_keys, Hk. Qed.

Lemma no_token_authHeaders s role :
  no_token s -> ApiAuth.authHeaders role s = None.
Proof.
  intros H. unfold ApiAuth.authHeaders.
  assert (Hrole : Js.truthy_str
                    (AsyncStorage.getItem (ApiAuth.tokenKey (default "" role)) s)
                  = false).
  { apply H. unfold token_keys.
    destruct (tokenKey_cases (default "" role)) as [-> | [-> | [-> | -> ]]];
      simpl; auto. }
  assert (Hv := H "viewerToken"). assert (Hs := H "securityToken").
  assert (Ha := H "adminToken"). assert (Hu := H "userToken").
  unfold token_keys in *. simpl in Hv, Hs, Ha, Hu.
  destruct (Js.truthy_str role).
  - rewrite Hrole. cbn [negb]. rewrite Hv by auto. cbn [negb].
    rewrite Hs by auto. cbn [negb]. rewrite Ha by auto. cbn [negb].
    rewrite Hu by auto. reflexivity.
  - cbn [Js.truthy_str negb]. rewrite Hv by auto. cbn [negb].
    rewrite Hs by auto. cbn [negb]. rewrite Ha by auto. cbn [negb].
    rewrite Hu by auto. reflexivity.
Qed.

Lemma no_token_secure s : no_token s -> ApiSecure.authHeaders s = None.
Proof.
  intros H. unfold ApiSecure.authHeaders.
  rewrite (H "userToken") by (unfold token_keys; simpl; auto). reflexivity.
Qed.

Lemma no_token_session s : no_token s -> App.checkExistingSession s = "Registration".
Proof.
  intros H. unfold App.checkExistingSession.
  rewrite (H "userToken") by (unfold token_keys; simpl; auto). reflexivity.
Qed.

Lemma authHeaders_none_no_token role s :
  ApiAuth.authHeaders role s = None -> no_token s.
Proof.
  unfold ApiAuth.authHeaders, no_token, token_keys.
  intros H k Hk. simpl in Hk.
  destruct (Js.truthy_str (AsyncStorage.getItem "viewerToken" s)) eqn:Hv;
  destruct (Js.truthy_str (AsyncStorage.getItem "securityToken" s)) eqn:Hs;
  destruct (Js.truthy_str (AsyncStorage.getItem "adminToken" s)) eqn:Ha;
  destruct (Js.truthy_str (AsyncStorage.getItem "userToken" s)) eqn:Hu;
  try (destruct Hk as [<- | [<- | [<- | [<- | []]]]]; assumption);
  exfalso;
  destruct (Js.truthy_str
              (if Js.truthy_str role
               then AsyncStorage.getItem (ApiAuth.tokenKey (default "" role)) s
               else None)) eqn:Hr;
  cbn [negb] in H;
  rewrite ?Hr, ?Hv, ?Hs, ?Ha, ?Hu in H; cbn [negb] in H;
  rewrite ?Hr, ?Hv, ?Hs, ?Ha, ?Hu in H; cbn [negb] in H;
  rewrite ?Hr, ?Hv, ?Hs, ?Ha, ?Hu in H; cbn [negb] in H;
  discriminate.
Qed.

(** X1. authHeaders yields no Authorization header exactly when none of the
    four token keys (viewerToken, securityToken, adminToken, userToken)
    holds a non-empty token, whatever role is asked for. *)
Theorem authHeaders_none_iff_no_token :
  forall (role : option string) (s : AsyncStorage.t),
    ApiAuth.authHeaders role s = None <-> no_token s.
Proof.
  intros role s. split.
  - apply authHeaders_none_no_token.
  - apply no_token_authHeaders.
Qed.

Lemma persist_getItem role data s k :
  Js.truthy_str (ApiAuth.access_token data) = true ->
  In k token_keys ->
  AsyncStorage.getItem k (ApiAuth.persist role data s)
  = if String.eqb k "userToken" || String.eqb k (ApiAuth.tokenKey role)
    then Some (default "" (ApiAuth.access_token data)) else None.
Proof.
  intros Ht Hk. unfold ApiAuth.persist. rewrite Ht.
  set (s3 := AsyncStorage.setItem "userToken" _ _).
  assert (H3 : AsyncStorage.getItem k s3
               = if String.eqb k "userToken" || String.eqb k (ApiAuth.tokenKey role)
                 then Some (default "" (ApiAuth.access_token data)) else None).
  { subst s3. rewrite !getItem_setItem.
    unfold token_keys in Hk. simpl in Hk.
    destruct Hk as [<- | [<- | [<- | [<- | []]]]];
      rewrite getItem_multiRemove by reflexivity;
      destruct (tokenKey_cases role) as [-> | [-> | [-> | -> ]]];
      reflexivity. }
  destruct (ApiAuth.d_user data); [exact H3|].
  destruct (Js.truthy_str (ApiAuth.d_username data)
            || Js.truthy_str (ApiAuth.d_email data)); exact H3.
Qed.

Lemma persist_userToken role data s :
  Js.truthy_str (ApiAuth.access_token data) = true ->
  AsyncStorage.getItem "userToken" (ApiAuth.persist role data s)
  = Some (default "" (ApiAuth.access_token data)).
Proof.
  intros Ht. rewrite (persist_getItem _ _ _ _ Ht); [reflexivity|].
  unfold token_keys; simpl; auto.
Qed.

(** If each of the four keys holds the token [t] or nothing, and one of
    them holds [t], every header is [Bearer t]. *)
Lemma single_token_authHeaders s t role :
  t <> EmptyString ->
  (forall k, In k token_keys ->
             AsyncStorage.getItem k s = Some t \/ AsyncStorage.getItem k s = None) ->
  (exists k, In k token_keys /\ AsyncStorage.getItem k s = Some t) ->
  ApiAuth.authHeaders role s = Some ("Bearer " +:+ t).
Proof.
  intros Ht H Hex.
  assert (Htr : Js.truthy_str (Some t) = true)
    by (destruct t; [contradiction | reflexivity]).
  unfold ApiAuth.authHeaders.
  assert (Hrole : AsyncStorage.getItem (ApiAuth.tokenKey (default "" role)) s = Some t
                  \/ AsyncStorage.getItem (ApiAuth.tokenKey (default "" role)) s = None).
  { apply H. unfold token_keys.
    destruct (tokenKey_cases (default "" role)) as [-> | [-> | [-> | -> ]]];
      simpl; auto. }
  assert (Hv := H "viewerToken"). assert (Hs := H "securityToken").
  assert (Ha := H "adminToken"). assert (Hu := H "userToken").
  unfold token_keys in Hv, Hs, Ha, Hu, Hex. simpl in Hv, Hs, Ha, Hu, Hex.
  assert (Hn : Js.truthy_str (@None string) = false) by reflexivity.
  cbv zeta.
  destruct Hv as [Hv | Hv]; auto 6;
    destruct Hs as [Hs | Hs]; auto 6;
    destruct Ha as [Ha | Ha]; auto 6;
    destruct Hu as [Hu | Hu]; auto 6;
    try (exfalso; destruct Hex as [k [[<- | [<- | [<- | [<- | []]]]] Hk]];
         congruence);
    destruct Hrole as [Hr | Hr];
    destruct (Js.truthy_str role);
    repeat (rewrite ?Hr, ?Hv, ?Hs, ?Ha, ?Hu, ?Htr, ?Hn; cbn [negb default]);
    reflexivity.
Qed.

Lemma persist_single_token role data s :
  Js.truthy_str (ApiAuth.access_token data) = true ->
  forall k, In k token_keys ->
    AsyncStorage.getItem k (ApiAuth.persist role data s)
      = Some (default "" (ApiAuth.access_token data))
    \/ AsyncStorage.getItem k (ApiAuth.persist role data s) = None.
Proof.
  intros Ht k Hk. rewrite (persist_getItem _ _ _ _ Ht Hk).
  destruct (_ || _); auto.
Qed.

Lemma truthy_default_nonempty (o : option string) :
  Js.truthy_str o = true -> default "" o <> EmptyString.
Proof. destruct o as [[|c t]|]; discriminate. Qed.

Lemma loginUser_ok OS BASE_URL role data s :
  ApiAuth.loginUser OS BASE_URL role (Api.ReplyOk data) s
  = (true, ApiAuth.persist role data (ApiAuth.getBaseUrl OS BASE_URL s).2).
Proof.
  unfold ApiAuth.loginUser. destruct (ApiAuth.getBaseUrl OS BASE_URL s).
  reflexivity.
Qed.

(** X2. After a login whose reply carries an access token, every call of
    authHeaders, whatever role it is asked for, and the authHeaders of the
    secure evidence service send that token: no token of an earlier
    session survives under another role's key. *)
Theorem login_token_is_sent_for_every_role :
  forall (OS BASE_URL role : string) (data : ApiAuth.LoginData)
         (s : AsyncStorage.t) (asked : option string),
    Js.truthy_str (ApiAuth.access_token data) = true ->
    let s' := (ApiAuth.loginUser OS BASE_URL role (Api.ReplyOk data) s).2 in
    ApiAuth.authHeaders asked s'
      = Some ("Bearer " +:+ default "" (ApiAuth.access_token data))
    /\ ApiSecure.authHeaders s'
       = Some ("Bearer " +:+ default "" (ApiAuth.access_token data)).
Proof.
  intros OS BASE_URL role data s asked Ht. rewrite loginUser_ok. cbn [snd].
  split.
  - apply single_token_authHeaders.
    + apply truthy_default_nonempty, Ht.
    + apply persist_single_token, Ht.
    + exists "userToken". split; [unfold token_keys; simpl; auto|].
      apply persist_userToken, Ht.
  - unfold ApiSecure.authHeaders. rewrite (persist_userToken _ _ _ Ht).
    destruct (ApiAuth.access_token data) as [[|c t]|]; try discriminate.
    reflexivity.
Qed.

Lemma login_token_is_sent_for_every_role_witness :
  let s := AsyncStorage.setItem "adminToken" "old-admin" AsyncStorage.empty in
  let data := ApiAuth.mkLoginData (Some "fresh") None None None None None None in
  let s' := (ApiAuth.loginUser "android" "http://10.0.2.2:8000" "security"
               (Api.ReplyOk data) s).2 in
  ApiAuth.authHeaders (Some "admin") s' = Some "Bearer fresh"
  /\ ApiSecure.authHeaders s' = Some "Bearer fresh".
Proof.
  exact (login_token_is_sent_for_every_role "android" "http://10.0.2.2:8000"
           "security"
           (ApiAuth.mkLoginData (Some "fresh") None None None None None None)
           (AsyncStorage.setItem "adminToken" "old-admin" AsyncStorage.empty)
           (Some "admin") eq_refl).
Defined.

Lemma getIncidents_no_token OS BASE_URL reply s :
  no_token s ->
  ApiAuth.getIncidents OS BASE_URL reply s
  = (Api.Err (Some 401) (Some "Not authenticated. Please login first."),
     (ApiAuth.getBaseUrl OS BASE_URL s).2, []).
Proof.
  intros H. unfold ApiAuth.getIncidents.
  pose proof (getBaseUrl_authHeaders OS BASE_URL None s) as Hb.
  destruct (ApiAuth.getBaseUrl OS BASE_URL s) as [base s0]. cbn [snd] in *.
  rewrite Hb, (no_token_authHeaders _ _ H). reflexivity.
Qed.

Lemma getBaseUrl_no_token OS BASE_URL s :
  no_token s -> no_token (ApiAuth.getBaseUrl OS BASE_URL s).2.
Proof.
  intros H k Hk. rewrite (getBaseUrl_token_keys _ _ _ _ Hk). apply H, Hk.
Qed.

(** X3. Without a stored token getIncidents sends no request at all: it
    answers 401 'Not authenticated. Please login first.' whatever the
    backend would have replied, and the store still holds no token. *)
Theorem getIncidents_without_token_sends_nothing :
  forall (OS BASE_URL : string) (reply : Api.HttpReply (list Incident.t))
         (s : AsyncStorage.t),
    no_token s ->
    let '(result, s', sent) := ApiAuth.getIncidents OS BASE_URL reply s in
    result = Api.Err (Some 401) (Some "Not authenticated. Please login first.")
    /\ sent = []
    /\ no_token s'.
Proof.
  intros OS BASE_URL reply s H. rewrite (getIncidents_no_token _ _ _ _ H).
  split; [reflexivity|]. split; [reflexivity|].
  apply getBaseUrl_no_token, H.
Qed.

Lemma empty_no_token : no_token AsyncStorage.empty.
Proof. intros k _. reflexivity. Qed.

Lemma getIncidents_without_token_sends_nothing_witness :
  let '(result, s', sent) :=
    ApiAuth.getIncidents "ios" "http://192.168.1.5:8000" (Api.ReplyOk [])
      AsyncStorage.empty in
  result = Api.Err (Some 401) (Some "Not authenticated. Please login first.")
  /\ sent = []
  /\ no_token s'.
Proof.
  exact (getIncidents_without_token_sends_nothing "ios" "http://192.168.1.5:8000"
           (Api.ReplyOk []) AsyncStorage.empty empty_no_token).
Defined.

Lemma cleared_no_token s :
  no_token (AsyncStorage.multiRemove
              ["userToken"; "viewerToken"; "securityToken"; "adminToken"] s).
Proof.
  intros k Hk. unfold token_keys in Hk. simpl in Hk.
  destruct Hk as [<- | [<- | [<- | [<- | []]]]];
    rewrite getItem_multiRemove by reflexivity; reflexivity.
Qed.

(** The store a call of getIncidents leaves. *)
Lemma getIncidents_401_store OS BASE_URL reply s :
  (exists m, reply = Api.BadJson 401 m)
  \/ (exists detail, reply = Api.ReplyError 401 detail) ->
  no_token (ApiAuth.getIncidents OS BASE_URL reply s).1.2
  /\ AsyncStorage.user (ApiAuth.getIncidents OS BASE_URL reply s).1.2
     = AsyncStorage.user s.
Proof.
  intros Hreply. unfold ApiAuth.getIncidents.
  pose proof (getBaseUrl_user OS BASE_URL s) as Hu.
  pose proof (getBaseUrl_authHeaders OS BASE_URL None s) as Hb.
  destruct (ApiAuth.getBaseUrl OS BASE_URL s) as [base s0]. cbn [snd] in *.
  destruct (ApiAuth.authHeaders None s0) as [a|] eqn:Ha.
  - destruct Hreply as [[m ->] | [d ->]]; cbn [fst snd Z.eqb Pos.eqb];
      (split; [apply cleared_no_token|]);
      rewrite user_multiRemove; exact Hu.
  - cbn [fst snd]. split; [|exact Hu].
    exact (authHeaders_none_no_token _ _ Ha).
Qed.

(** X4. A 401 reply to getIncidents ends the session on the device: the
    four token keys are cleared, so no later call of authHeaders or of the
    secure service finds a token, the next getIncidents sends no request,
    and the next start of the app opens 'Registration'; the stored user
    object is left in place. *)
Theorem getIncidents_401_ends_session :
  forall (OS BASE_URL : string) (reply : Api.HttpReply (list Incident.t))
         (s : AsyncStorage.t),
    (exists m, reply = Api.BadJson 401 m)
    \/ (exists detail, reply = Api.ReplyError 401 detail) ->
    let s' := (ApiAuth.getIncidents OS BASE_URL reply s).1.2 in
    (forall asked, ApiAuth.authHeaders asked s' = None)
    /\ ApiSecure.authHeaders s' = None
    /\ (forall next, (ApiAuth.getIncidents OS BASE_URL next s').2 = [])
    /\ App.checkExistingSession s' = "Registration"
    /\ AsyncStorage.user s' = AsyncStorage.user s.
Proof.
  intros OS BASE_URL reply s Hreply s'.
  destruct (getIncidents_401_store OS BASE_URL reply s Hreply) as [Hno Hu].
  fold s' in Hno, Hu.
  split; [intros asked; apply no_token_authHeaders, Hno|].
  split; [apply no_token_secure, Hno|].
  split; [intros next; rewrite (getIncidents_no_token _ _ _ _ Hno); reflexivity|].
  split; [apply no_token_session, Hno | exact Hu].
Qed.

Lemma getIncidents_401_ends_session_witness :
  let s :=
    AsyncStorage.setUser
      (AsyncStorage.mkStoredUser (Some 4) (Some "vera") None (Some "viewer"))
      (AsyncStorage.setItem "userToken" "expired"
         (AsyncStorage.setItem "viewerToken" "expired" AsyncStorage.empty)) in
  let s' := (ApiAuth.getIncidents "android" "http://10.0.2.2:8000"
               (Api.ReplyError 401 (Some "Could not validate credentials")) s).1.2 in
  (forall asked, ApiAuth.authHeaders asked s' = None)
  /\ ApiSecure.authHeaders s' = None
  /\ (forall next,
         (ApiAuth.getIncidents "android" "http://10.0.2.2:8000" next s').2 = [])
  /\ App.checkExistingSession s' = "Registration"
  /\ AsyncStorage.user s' = AsyncStorage.user s.
Proof.
  apply (getIncidents_401_ends_session "android" "http://10.0.2.2:8000"
           (Api.ReplyError 401 (Some "Could not validate credentials"))).
  right. exists (Some "Could not validate credentials"). reflexivity.
Defined.

Lemma persist_user_given role data u s :
  Js.truthy_str (ApiAuth.access_token data) = true ->
  ApiAuth.d_user data = Some u ->
  AsyncStorage.user (ApiAuth.persist role data s) = Some u.
Proof.
  intros Ht Hu. unfold ApiAuth.persist. rewrite Ht, Hu. reflexivity.
Qed.

Lemma session_route s t u :
  AsyncStorage.getItem "userToken" s = Some t -> t <> EmptyString ->
  AsyncStorage.user s = Some u ->
  App.checkExistingSession s
  = match AsyncStorage.su_role u with
    | Some r => Credentials.dashboard_of r
    | None => "Registration"
    end.
Proof.
  intros Ht Hne Hu. unfold App.checkExistingSession. rewrite Ht, Hu.
  destruct t; [contradiction|]. cbn [Js.truthy_str].
  destruct (AsyncStorage.su_role u) as [r|]; reflexivity.
Qed.

(** X5. After a login whose reply carries an access token and a user
    object, the route the app opens at its next start is the dashboard of
    the role in that user object, whatever role the login screen asked
    for; when the reply has no user object but a username or an email, it
    is the dashboard of the reply's role, or of the role asked for when the
    reply names none. *)
Theorem login_reply_role_decides_initial_route :
  forall (OS BASE_URL role : string) (data : ApiAuth.LoginData)
         (s : AsyncStorage.t),
    Js.truthy_str (ApiAuth.access_token data) = true ->
    let s' := (ApiAuth.loginUser OS BASE_URL role (Api.ReplyOk data) s).2 in
    (forall u r,
        ApiAuth.d_user data = Some u -> AsyncStorage.su_role u = Some r ->
        App.checkExistingSession s' = Credentials.dashboard_of r)
    /\ (ApiAuth.d_user data = None ->
        Js.truthy_str (ApiAuth.d_username data)
        || Js.truthy_str (ApiAuth.d_email data) = true ->
        App.checkExistingSession s'
        = Credentials.dashboard_of (Js.or_str (ApiAuth.d_role data) role)).
Proof.
  intros OS BASE_URL role data s Ht s'. subst s'. rewrite loginUser_ok.
  cbn [snd]. set (s0 := (ApiAuth.getBaseUrl OS BASE_URL s).2).
  pose proof (persist_userToken role data s0 Ht) as Htok.
  pose proof (truthy_default_nonempty _ Ht) as Hne.
  split.
  - intros u r Hu Hr.
    rewrite (session_route _ _ u Htok Hne (persist_user_given _ _ _ _ Ht Hu)).
    rewrite Hr. reflexivity.
  - intros Hu Hname.
    erewrite (session_route _ _ _ Htok Hne).
    2: { unfold ApiAuth.persist. rewrite Ht, Hu, Hname. reflexivity. }
    reflexivity.
Qed.

Lemma login_reply_role_decides_initial_route_witness :
  let data :=
    ApiAuth.mkLoginData (Some "tok")
      (Some (AsyncStorage.mkStoredUser (Some 9) (Some "sam") None (Some "security")))
      None None None None None in
  App.checkExistingSession
    (ApiAuth.loginUser "ios" "http://192.168.1.5:8000" "admin"
       (Api.ReplyOk data) AsyncStorage.empty).2
  = "SecurityDashboard".
Proof.
  exact (proj1 (login_reply_role_decides_initial_route
                  "ios" "http://192.168.1.5:8000" "admin"
                  (ApiAuth.mkLoginData (Some "tok")
                     (Some (AsyncStorage.mkStoredUser (Some 9) (Some "sam") None
                              (Some "security")))
                     None None None None None)
                  AsyncStorage.empty eq_refl)
               _ "security" eq_refl eq_refl).
Defined.

Lemma logout_no_token role data s :
  Js.truthy_str (ApiAuth.access_token data) = true ->
  role = "admin" \/ role = "security" \/ role = "viewer" ->
  no_token (Credentials.logout_of role (ApiAuth.persist role data s)).
Proof.
  intros Ht Hrole k Hk.
  assert (Hp := persist_getItem role data s).
  unfold token_keys in Hk. simpl in Hk.
  destruct Hrole as [-> | [-> | ->]];
    cbn [Credentials.logout_of String.eqb Ascii.eqb Bool.eqb andb];
    unfold Logout.admin, Logout.security, Logout.viewer;
    destruct Hk as [<- | [<- | [<- | [<- | []]]]];
    rewrite getItem_multiRemove by reflexivity;
    cbn [existsb String.eqb Ascii.eqb Bool.eqb andb orb];
    try reflexivity;
    (rewrite Hp by (try exact Ht; unfold token_keys; simpl; auto));
    reflexivity.
Qed.

(** X6. Logging in with a token-carrying reply as admin, security or viewer
    and then pressing the logout button of that role's dashboard leaves no
    credential on the device: no authHeaders call finds a token, and the
    next start of the app opens 'Registration'. *)
Theorem logout_after_login_leaves_no_token :
  forall (OS BASE_URL role : string) (data : ApiAuth.LoginData)
         (s : AsyncStorage.t),
    Js.truthy_str (ApiAuth.access_token data) = true ->
    role = "admin" \/ role = "security" \/ role = "viewer" ->
    let s' :=
      Credentials.logout_of role
        (ApiAuth.loginUser OS BASE_URL role (Api.ReplyOk data) s).2 in
    (forall asked, ApiAuth.authHeaders asked s' = None)
    /\ ApiSecure.authHeaders s' = None
    /\ App.checkExistingSession s' = "Registration".
Proof.
  intros OS BASE_URL role data s Ht Hrole s'. subst s'. rewrite loginUser_ok.
  cbn [snd].
  pose proof (logout_no_token role data (ApiAuth.getBaseUrl OS BASE_URL s).2
                Ht Hrole) as Hno.
  split; [intros asked; apply no_token_authHeaders, Hno|].
  split; [apply no_token_secure, Hno | apply no_token_session, Hno].
Qed.

Lemma logout_after_login_leaves_no_token_witness :
  let s := AsyncStorage.setItem "adminToken" "old-admin" AsyncStorage.empty in
  let data := ApiAuth.mkLoginData (Some "fresh") None None None None None None in
  let s' :=
    Credentials.logout_of "viewer"
      (ApiAuth.loginUser "android" "http://10.0.2.2:8000" "viewer"
         (Api.ReplyOk data) s).2 in
  (forall asked, ApiAuth.authHeaders asked s' = None)
  /\ ApiSecure.authHeaders s' = None
  /\ App.checkExistingSession s' = "Registration".
Proof.
  apply (logout_after_login_leaves_no_token "android" "http://10.0.2.2:8000"
           "viewer"
           (ApiAuth.mkLoginData (Some "fresh") None None None None None None)
           (AsyncStorage.setItem "adminToken" "old-admin" AsyncStorage.empty)
           eq_refl).
  right. right. reflexivity.
Defined.

Lemma handleLogin_denied OS BASE_URL role dashboard data me s :
  Js.str_is role (AsyncStorage.su_role me) = false ->
  RoleLogin.handleLogin OS BASE_URL role dashboard (Api.ReplyOk data)
    (Api.ReplyOk me) s
  = (RoleLogin.AccessDenied,
     (ApiAuth.getBaseUrl OS BASE_URL
        (ApiAuth.persist role data
           (ApiAuth.getBaseUrl OS BASE_URL
              (AsyncStorage.multiRemove
                 ["viewerToken"; "securityToken"; "adminToken"; "userToken";
                  "viewerUser"; "securityUser"; "user"] s)).2)).2).
Proof.
  intros Hrole. unfold RoleLogin.handleLogin. rewrite loginUser_ok.
  destruct (ApiAuth.getBaseUrl OS BASE_URL (ApiAuth.persist _ _ _)) as [b s2].
  cbn [snd ApiAuth.getMe_result Api.result_of]. rewrite Hrole. reflexivity.
Qed.

(** X7. On the viewer and the security login screens, a login that
    succeeds for an account of another role shows 'Access Denied' and does
    not navigate.  Its 'OK' button removes userToken and the stored user,
    so the next start of the app opens 'Registration' and the secure
    evidence service finds no token; the token written under the role key
    of the screen stays, and authHeaders of services/api.js keeps sending
    it for every role asked. *)
Theorem access_denied_keeps_role_token :
  forall (OS BASE_URL role dashboard : string) (data : ApiAuth.LoginData)
         (me : AsyncStorage.StoredUser) (s : AsyncStorage.t),
    (role = "viewer" /\ dashboard = "ViewerDashboard")
    \/ (role = "security" /\ dashboard = "SecurityDashboard") ->
    Js.truthy_str (ApiAuth.access_token data) = true ->
    Js.str_is role (AsyncStorage.su_role me) = false ->
    let done :=
      RoleLogin.handleLogin OS BASE_URL role dashboard (Api.ReplyOk data)
        (Api.ReplyOk me) s in
    let s' := RoleLogin.accessDenied_OK done.2 in
    done.1 = RoleLogin.AccessDenied
    /\ App.checkExistingSession s' = "Registration"
    /\ ApiSecure.authHeaders s' = None
    /\ (forall asked,
           ApiAuth.authHeaders asked s'
           = Some ("Bearer " +:+ default "" (ApiAuth.access_token data))).
Proof.
  intros OS BASE_URL role dashboard data me s Hscreen Ht Hme done s'.
  subst s' done. rewrite (handleLogin_denied _ _ _ _ _ _ _ Hme). cbn [fst snd].
  set (s0 := (ApiAuth.getBaseUrl OS BASE_URL (AsyncStorage.multiRemove _ s)).2).
  set (s2 := (ApiAuth.getBaseUrl OS BASE_URL (ApiAuth.persist role data s0)).2).
  assert (Hget : forall k, In k token_keys ->
            AsyncStorage.getItem k (RoleLogin.accessDenied_OK s2)
            = if String.eqb k "userToken" then None
              else if String.eqb k (ApiAuth.tokenKey role)
                   then Some (default "" (ApiAuth.access_token data))
                   else None).
  { intros k Hk. unfold RoleLogin.accessDenied_OK.
    assert (Hku : String.eqb k "user" = false).
    { unfold token_keys in Hk. simpl in Hk.
      destruct Hk as [<- | [<- | [<- | [<- | []]]]]; reflexivity. }
    rewrite (getItem_multiRemove _ _ _ Hku). subst s2.
    rewrite (getBaseUrl_token_keys _ _ _ _ Hk).
    rewrite (persist_getItem _ _ _ _ Ht Hk).
    unfold token_keys in Hk. simpl in Hk.
    destruct Hk as [<- | [<- | [<- | [<- | []]]]]; reflexivity. }
  split; [reflexivity|].
  split.
  { unfold App.checkExistingSession.
    rewrite Hget by (unfold token_keys; simpl; auto). reflexivity. }
  split.
  { unfold ApiSecure.authHeaders.
    rewrite Hget by (unfold token_keys; simpl; auto). reflexivity. }
  intros asked. apply single_token_authHeaders.
  - apply truthy_default_nonempty, Ht.
  - intros k Hk. rewrite (Hget k Hk).
    destruct (String.eqb k "userToken"); [auto|].
    destruct (String.eqb k (ApiAuth.tokenKey role)); auto.
  - exists (ApiAuth.tokenKey role).
    destruct Hscreen as [[-> _] | [-> _]];
      (split; [unfold token_keys; simpl; auto|]);
      rewrite Hget by (unfold token_keys; simpl; auto); reflexivity.
Qed.

Lemma access_denied_keeps_role_token_witness :
  let data := ApiAuth.mkLoginData (Some "tok") None None None None None None in
  let me := AsyncStorage.mkStoredUser (Some 9) (Some "sam") None (Some "security") in
  let done :=
    RoleLogin.viewerLogin "android" "http://10.0.2.2:8000" (Api.ReplyOk data)
      (Api.ReplyOk me) AsyncStorage.empty in
  let s' := RoleLogin.accessDenied_OK done.2 in
  done.1 = RoleLogin.AccessDenied
  /\ App.checkExistingSession s' = "Registration"
  /\ ApiSecure.authHeaders s' = None
  /\ (forall asked, ApiAuth.authHeaders asked s' = Some "Bearer tok").
Proof.
  apply (access_denied_keeps_role_token "android" "http://10.0.2.2:8000"
           "viewer" "ViewerDashboard"
           (ApiAuth.mkLoginData (Some "tok") None None None None None None)
           (AsyncStorage.mkStoredUser (Some 9) (Some "sam") None (Some "security"))
           AsyncStorage.empty).
  - left. split; reflexivity.
  - reflexivity.
  - reflexivity.
Defined.

(** ** The base URL override *)

Lemma override_removed s :
  AsyncStorage.getItem ApiAuth.OVERRIDE_KEY
    (AsyncStorage.removeItem ApiAuth.OVERRIDE_KEY s) = None.
Proof. rewrite getItem_removeItem by reflexivity. reflexivity. Qed.

(** X8. getBaseUrl is stable: a second call returns the same URL and
    leaves the store as the first call left it.  On the web platform the
    URL it returns is the built-in BASE_URL unless the stored override
    mentions localhost or 127.0.0.1; an override that does not is removed
    from the store. *)
Theorem getBaseUrl_stable_and_local_on_web :
  forall (OS BASE_URL : string) (s : AsyncStorage.t),
    ApiAuth.getBaseUrl OS BASE_URL (ApiAuth.getBaseUrl OS BASE_URL s).2
    = ApiAuth.getBaseUrl OS BASE_URL s
    /\ (OS = "web" ->
        let '(url, s') := ApiAuth.getBaseUrl OS BASE_URL s in
        (Js.includes "localhost" url || Js.includes "127.0.0.1" url = true
         /\ s' = s)
        \/ (url = BASE_URL
            /\ Js.truthy_str (AsyncStorage.getItem ApiAuth.OVERRIDE_KEY s')
               = false)).
Proof.
  intros OS BASE_URL s. split.
  - unfold ApiAuth.getBaseUrl at 2.
    destruct (Js.truthy_str (AsyncStorage.getItem ApiAuth.OVERRIDE_KEY s)) eqn:Ho;
      [destruct (String.eqb OS "web") eqn:Hweb;
       [destruct (Js.includes "localhost" _ || Js.includes "127.0.0.1" _) eqn:Hv|]|];
      cbn [snd]; unfold ApiAuth.getBaseUrl;
      rewrite ?override_removed, ?Ho, ?Hweb, ?Hv; reflexivity.
  - intros ->. unfold ApiAuth.getBaseUrl. rewrite String.eqb_refl.
    destruct (Js.truthy_str (AsyncStorage.getItem ApiAuth.OVERRIDE_KEY s)) eqn:Ho;
      [destruct (Js.includes "localhost" _ || Js.includes "127.0.0.1" _) eqn:Hv|];
      cbv beta iota zeta.
    + left. split; [exact Hv | reflexivity].
    + right. split; [reflexivity|]. rewrite override_removed. reflexivity.
    + right. split; [reflexivity | exact Ho].
Qed.

Lemma getBaseUrl_stable_and_local_on_web_witness :
  let s :=
    AsyncStorage.setItem ApiAuth.OVERRIDE_KEY "http://192.168.1.5:8000"
      AsyncStorage.empty in
  let '(url, s') := ApiAuth.getBaseUrl "web" "http://localhost:8000" s in
  (Js.includes "localhost" url || Js.includes "127.0.0.1" url = true /\ s' = s)
  \/ (url = "http://localhost:8000"
      /\ Js.truthy_str (AsyncStorage.getItem ApiAuth.OVERRIDE_KEY s') = false).
Proof.
  exact (proj2 (getBaseUrl_stable_and_local_on_web "web" "http://localhost:8000"
                  (AsyncStorage.setItem ApiAuth.OVERRIDE_KEY
                     "http://192.168.1.5:8000" AsyncStorage.empty))
               eq_refl).
Defined.

(** X9. setOverrideBaseUrl followed by getBaseUrl: a non-empty URL that is
    acceptable on the platform (any URL off the web, one that mentions
    localhost or 127.0.0.1 on the web) is the URL returned; an empty or
    missing URL clears the override, and BASE_URL is returned. *)
Theorem override_round_trip :
  forall (OS BASE_URL : string) (s : AsyncStorage.t),
    (forall url,
        url <> EmptyString ->
        (OS = "web" ->
         Js.includes "localhost" url || Js.includes "127.0.0.1" url = true) ->
        (ApiAuth.getBaseUrl OS BASE_URL
           (ApiAuth.setOverrideBaseUrl (Some url) s).2).1 = url)
    /\ (forall url,
           Js.truthy_str url = false ->
           (ApiAuth.getBaseUrl OS BASE_URL
              (ApiAuth.setOverrideBaseUrl url s).2).1 = BASE_URL).
Proof.
  intros OS BASE_URL s. split.
  - intros url Hne Hweb. destruct url as [|c u]; [contradiction|].
    unfold ApiAuth.setOverrideBaseUrl.
    cbn [Js.truthy_str negb snd default from_option id].
    unfold ApiAuth.getBaseUrl.
    rewrite getItem_setItem, String.eqb_refl.
    cbn [Js.truthy_str default from_option id].
    destruct (String.eqb_spec OS "web") as [Hw|_]; [|reflexivity].
    rewrite (Hweb Hw). reflexivity.
  - intros url Hf. unfold ApiAuth.setOverrideBaseUrl. rewrite Hf.
    cbn [negb snd]. unfold ApiAuth.getBaseUrl. rewrite override_removed.
    reflexivity.
Qed.

Lemma override_round_trip_witness :
  (ApiAuth.getBaseUrl "android" "http://10.0.2.2:8000"
     (ApiAuth.setOverrideBaseUrl (Some "http://192.168.1.5:8000")
        AsyncStorage.empty).2).1
  = "http://192.168.1.5:8000"
  /\ (ApiAuth.getBaseUrl "android" "http://10.0.2.2:8000"
        (ApiAuth.setOverrideBaseUrl (Some "")
           (AsyncStorage.setItem ApiAuth.OVERRIDE_KEY "http://192.168.1.5:8000"
              AsyncStorage.empty)).2).1
     = "http://10.0.2.2:8000".
Proof.
  split.
  - apply (proj1 (override_round_trip "android" "http://10.0.2.2:8000"
                    AsyncStorage.empty)).
    + discriminate.
    + discriminate.
  - apply (proj2 (override_round_trip "android" "http://10.0.2.2:8000"
                    (AsyncStorage.setItem ApiAuth.OVERRIDE_KEY
                       "http://192.168.1.5:8000" AsyncStorage.empty))).
    reflexivity.
Defined.

(** ** Evidence screens and the stored credentials *)

(** X10. The secure evidence service reads userToken only.  When that key
    holds no token, getSecureEvidence sends no request, whatever the other
    token keys hold, and the evidence screen that called it keeps its list
    and shows the 'Authentication Required' alert. *)
Theorem secure_evidence_needs_userToken :
  forall (OS BASE_URL : string) (reply : Api.HttpReply (list Evidence.t))
         (s : AsyncStorage.t) (st : EvidenceStoreSecure.State),
    Js.truthy_str (AsyncStorage.getItem "userToken" s) = false ->
    let '(result, _, sent) := ApiSecure.getSecureEvidence OS BASE_URL reply s in
    sent = []
    /\ EvidenceStoreSecure.fetchEvidence_resume (Js.Resolved result) st
       = EvidenceStoreSecure.mkState (EvidenceStoreSecure.evidence st) false
           (EvidenceStoreSecure.alerts st ++
            [mkAlert "Authentication Required"
               "Your session has expired. Please log in again."]).
Proof.
  intros OS BASE_URL reply s st Hu. unfold ApiSecure.getSecureEvidence.
  pose proof (getBaseUrl_getItem OS BASE_URL s "userToken" eq_refl eq_refl) as Hb.
  destruct (ApiAuth.getBaseUrl OS BASE_URL s) as [baseUrl s0]. cbn [snd] in Hb.
  unfold ApiSecure.authHeaders. rewrite Hb, Hu. cbn [negb].
  split; reflexivity.
Qed.

Lemma secure_evidence_needs_userToken_witness :
  let s := AsyncStorage.setItem "viewerToken" "tok" AsyncStorage.empty in
  ApiAuth.authHeaders None s = Some "Bearer tok"
  /\ let '(result, _, sent) :=
       ApiSecure.getSecureEvidence "ios" "http://192.168.1.5:8000"
         (Api.ReplyOk [Examples.pendingItem]) s in
     sent = []
     /\ EvidenceStoreSecure.fetchEvidence_resume (Js.Resolved result)
          Examples.evidenceLoaded
        = EvidenceStoreSecure.mkState
            (EvidenceStoreSecure.evidence Examples.evidenceLoaded) false
            (EvidenceStoreSecure.alerts Examples.evidenceLoaded ++
             [mkAlert "Authentication Required"
                "Your session has expired. Please log in again."]).
Proof.
  split; [reflexivity|].
  exact (secure_evidence_needs_userToken "ios" "http://192.168.1.5:8000"
           (Api.ReplyOk [Examples.pendingItem])
           (AsyncStorage.setItem "viewerToken" "tok" AsyncStorage.empty)
           Examples.evidenceLoaded eq_refl).
Defined.

Lemma persist_other_key role data s k :
  String.eqb k "user" = false ->
  ~ In k token_keys ->
  String.eqb "viewerUser" k = false ->
  String.eqb "securityUser" k = false ->
  AsyncStorage.getItem k (ApiAuth.persist role data s) = AsyncStorage.getItem k s.
Proof.
  intros Hu Hk Hvu Hsu. unfold ApiAuth.persist.
  destruct (Js.truthy_str (ApiAuth.access_token data)); [|reflexivity].
  set (s3 := AsyncStorage.setItem "userToken" _ _).
  assert (H3 : AsyncStorage.getItem k s3 = AsyncStorage.getItem k s).
  { subst s3. unfold token_keys in Hk. simpl in Hk.
    rewrite !getItem_setItem, (getItem_multiRemove _ _ _ Hu).
    cbn [existsb]. rewrite Hvu, Hsu.
    destruct (String.eqb_spec "userToken" k) as [<-|_]; [tauto|].
    destruct (String.eqb_spec "viewerToken" k) as [<-|_]; [tauto|].
    destruct (String.eqb_spec "securityToken" k) as [<-|_]; [tauto|].
    destruct (String.eqb_spec "adminToken" k) as [<-|_]; [tauto|].
    destruct (String.eqb_spec (ApiAuth.tokenKey role) k) as [<-|_];
      [|reflexivity].
    destruct (tokenKey_cases role) as [H | [H | [H | H]]]; rewrite H in Hk;
      tauto. }
  destruct (ApiAuth.d_user data); [exact H3|].
  destruct (Js.truthy_str (ApiAuth.d_username data)
            || Js.truthy_str (ApiAuth.d_email data)); exact H3.
Qed.

(** X11. The role the evidence store works with follows the login: after
    a login with a token-carrying reply as admin, security or viewer, and
    with no 'userRole' item in the store (no code writes one), loadUserRole
    yields the role of the login; so verification is offered after an
    admin or viewer login and refused after a security login. *)
Theorem evidence_role_follows_login :
  forall (OS BASE_URL role : string) (data : ApiAuth.LoginData)
         (s : AsyncStorage.t),
    Js.truthy_str (ApiAuth.access_token data) = true ->
    role = "admin" \/ role = "security" \/ role = "viewer" ->
    Js.truthy_str (AsyncStorage.getItem "userRole" s) = false ->
    let userRole :=
      EvidenceStoreInit.loadUserRole
        (ApiAuth.loginUser OS BASE_URL role (Api.ReplyOk data) s).2 in
    userRole = Some role
    /\ EvidenceStore.canVerify userRole = negb (String.eqb role "security")
    /\ (role = "security" ->
        forall evidenceId,
          EvidenceStore.handleVerifyEvidence userRole evidenceId
          = EvidenceStore.Denied
              (mkAlert "Permission Denied"
                       "Security role cannot verify evidence")).
Proof.
  intros OS BASE_URL role data s Ht Hrole Hur userRole.
  assert (H : userRole = Some role).
  { subst userRole. rewrite loginUser_ok. cbn [snd].
    set (s0 := (ApiAuth.getBaseUrl OS BASE_URL s).2).
    unfold EvidenceStoreInit.loadUserRole.
    rewrite persist_other_key;
      [|reflexivity | unfold token_keys; simpl; intuition discriminate
       | reflexivity | reflexivity].
    subst s0. rewrite getBaseUrl_getItem by reflexivity. rewrite Hur.
    cbn [negb].
    rewrite !(persist_getItem _ _ _ _ Ht) by (unfold token_keys; simpl; auto).
    pose proof (truthy_default_nonempty _ Ht) as Hne.
    destruct (default "" (ApiAuth.access_token data)) as [|c t];
      [contradiction|].
    destruct Hrole as [-> | [-> | ->]]; reflexivity. }
  rewrite H. split; [reflexivity|].
  split.
  - destruct Hrole as [-> | [-> | ->]]; reflexivity.
  - intros -> evidenceId. reflexivity.
Qed.

Lemma evidence_role_follows_login_witness :
  let data := ApiAuth.mkLoginData (Some "tok") None None None None None None in
  let userRole :=
    EvidenceStoreInit.loadUserRole
      (ApiAuth.loginUser "android" "http://10.0.2.2:8000" "security"
         (Api.ReplyOk data)
         (AsyncStorage.setItem "viewerToken" "old" AsyncStorage.empty)).2 in
  userRole = Some "security"
  /\ EvidenceStore.canVerify userRole = false
  /\ ("security" = "security" ->
      forall evidenceId,
        EvidenceStore.handleVerifyEvidence userRole evidenceId
        = EvidenceStore.Denied
            (mkAlert "Permission Denied" "Security role cannot verify evidence")).
Proof.
  apply (evidence_role_follows_login "android" "http://10.0.2.2:8000" "security"
           (ApiAuth.mkLoginData (Some "tok") None None None None None None)
           (AsyncStorage.setItem "viewerToken" "old" AsyncStorage.empty)).
  - reflexivity.
  - right. left. reflexivity.
  - reflexivity.
Defined.

(** ** How the incidents the client creates are classified *)

Lemma prefix_append_l (p d y : string) :
  String.prefix p d = true -> String.prefix p (d +:+ y) = true.
Proof.
  revert d. induction p as [|a p IH]; intros d H.
  { destruct d as [|b d]; [destruct y|]; reflexivity. }
  destruct d as [|b d]; [discriminate|].
  rewrite append_cons. cbn [String.prefix] in H |- *.
  destruct (Ascii.ascii_dec a b); [|discriminate]. apply IH, H.
Qed.

Lemma viewer_report_not_sos d :
  Js.opt_startsWith "[VIEWER REPORT]" d = true ->
  Js.opt_startsWith "[SOS ALERT]" d = false.
Proof.
  intros H. destruct (Js.opt_startsWith "[SOS ALERT]" d) eqn:Hs; [|reflexivity].
  rewrite (sos_is_not_viewer_report _ Hs) in H. discriminate.
Qed.

Lemma fullDescription_tagged reportData :
  Js.startsWith "[VIEWER REPORT]" (ApiReport.fullDescription reportData) = true.
Proof.
  unfold Js.startsWith, ApiReport.fullDescription.
  destruct (Js.truthy_str (ApiReport.r_location reportData) && _);
    destruct (Js.truthy_str (ApiReport.r_phone reportData));
    destruct (Js.truthy_str (ApiReport.r_notes reportData));
    repeat apply prefix_append_l; reflexivity.
Qed.

(** X12. Every incident created by reportIncident carries the
    '[VIEWER REPORT]' tag at the start of its description, whatever the
    form held: both security dashboards count it as a viewer report,
    getSOSAlerts does not return it, the tabbed viewer dashboard hides it
    from every profile, and it enters the viewer's notifications exactly
    when it is acknowledged. *)
Theorem viewer_report_is_classified_as_report :
  forall (cameras : ApiReport.CamerasReply) (reportData : ApiReport.ReportData)
         (profile : option User.t) (inc : Incident.t),
    Incident.description inc
    = Some (Api.p_description (ApiReport.payload cameras reportData)) ->
    SecurityDashboardNew.isViewerReport inc = true
    /\ SecurityDashboardNew_v2.isViewerReport inc = true
    /\ Api.is_sos_alert inc = false
    /\ ViewerDashboardNew.visible profile inc = false
    /\ ViewerDashboardNewTabs.handled_report inc
       = Js.is_true (Incident.acknowledged inc).
Proof.
  intros cameras reportData profile inc Hd.
  assert (Hv : Js.opt_startsWith "[VIEWER REPORT]" (Incident.description inc)
               = true).
  { rewrite Hd. cbn [ApiReport.payload Api.p_description Js.opt_startsWith].
    apply fullDescription_tagged. }
  split; [exact Hv|]. split; [exact Hv|].
  split; [apply viewer_report_not_sos, Hv|].
  split.
  - rewrite ViewerDashboardNew_visible_eq, Hv. reflexivity.
  - unfold ViewerDashboardNewTabs.handled_report. rewrite Hv. reflexivity.
Qed.

Lemma viewer_report_is_classified_as_report_witness :
  let reportData :=
    ApiReport.mkReportData (Some "theft") (Some ApiReport.high)
      "bag stolen at dock 2" (Some "Dock 2") (Some "555-0100") None in
  let inc :=
    Incident.mk 61 (Some 3) (Some "theft") (Some "high")
      (Some (Api.p_description
               (ApiReport.payload (ApiReport.CamerasOk Examples.cameras)
                                  reportData)))
      (Some "pending") (Some false) None None in
  SecurityDashboardNew.isViewerReport inc = true
  /\ SecurityDashboardNew_v2.isViewerReport inc = true
  /\ Api.is_sos_alert inc = false
  /\ ViewerDashboardNew.visible (Some Examples.alice) inc = false
  /\ ViewerDashboardNewTabs.handled_report inc = false.
Proof.
  exact (viewer_report_is_classified_as_report
           (ApiReport.CamerasOk Examples.cameras)
           (ApiReport.mkReportData (Some "theft") (Some ApiReport.high)
              "bag stolen at dock 2" (Some "Dock 2") (Some "555-0100") None)
           (Some Examples.alice)
           (Incident.mk 61 (Some 3) (Some "theft") (Some "high")
              (Some (Api.p_description
                       (ApiReport.payload (ApiReport.CamerasOk Examples.cameras)
                          (ApiReport.mkReportData (Some "theft")
                             (Some ApiReport.high) "bag stolen at dock 2"
                             (Some "Dock 2") (Some "555-0100") None))))
              (Some "pending") (Some false) None None)
           eq_refl).
Defined.

Lemma sos_description_tagged message userInfo :
  Js.startsWith "[SOS ALERT]" (Api.sos_description message userInfo) = true.
Proof.
  unfold Js.startsWith, Api.sos_description.
  destruct userInfo as [ui|]; [|reflexivity].
  destruct (Js.truthy_str (Api.ui_email ui));
    destruct (Js.truthy_str (Api.ui_phone ui));
    destruct (Js.truthy_str (Api.ui_username ui));
    repeat apply prefix_append_l; reflexivity.
Qed.

(** The requests the SOS modal has issued are sendSOSAlert requests. *)
Lemma sos_requests_step base st e rq :
  In rq (ViewerDashboardNew.requests (ViewerDashboardNew.step base st e)) ->
  In rq (ViewerDashboardNew.requests st)
  \/ exists message userInfo, rq = Api.sendSOSAlert_request base message userInfo.
Proof.
  destruct e as [| | | r]; cbn [ViewerDashboardNew.step].
  - auto.
  - auto.
  - destruct (ViewerDashboardNew.sosModal st); [|auto].
    unfold ViewerDashboardNew.handleSOS_begin.
    cbn [ViewerDashboardNew.requests]. rewrite in_app_iff.
    intros [H | [<- | []]]; eauto.
  - destruct r as [[d | status m] | m]; auto.
Qed.

Lemma sos_requests_run base trace st rq :
  In rq (ViewerDashboardNew.requests (ViewerDashboardNew.run base trace st)) ->
  In rq (ViewerDashboardNew.requests st)
  \/ exists message userInfo, rq = Api.sendSOSAlert_request base message userInfo.
Proof.
  unfold ViewerDashboardNew.run. revert st.
  induction trace as [|e trace IH]; intros st H; [auto|].
  cbn [fold_left] in H. apply IH in H as [H | H]; [|auto].
  exact (sos_requests_step _ _ _ _ H).
Qed.

(** X13. On the tabbed viewer dashboard every request the SOS modal issues,
    along any sequence of presses and resolutions, creates an incident
    whose description starts with '[SOS ALERT]' (from a state with no
    request issued yet): getSOSAlerts keeps it, no
    security dashboard takes it for a viewer report, and the viewer
    dashboard shows it to every profile. *)
Theorem sos_requests_are_classified_as_sos :
  forall (base : string) (st : ViewerDashboardNew.State)
         (trace : list ViewerDashboardNew.Event) (rq : Api.Request),
    ViewerDashboardNew.requests st = [] ->
    In rq (ViewerDashboardNew.requests (ViewerDashboardNew.run base trace st)) ->
    exists p,
      Api.body rq = Api.IncidentBody p
      /\ forall (inc : Incident.t) (profile : option User.t),
           Incident.description inc = Some (Api.p_description p) ->
           Api.is_sos_alert inc = true
           /\ SecurityDashboardNew_v2.isViewerReport inc = false
           /\ ViewerDashboardNew.visible profile inc = true.
Proof.
  intros base st trace rq Hst H.
  apply sos_requests_run in H as [H | [message [userInfo ->]]];
    [rewrite Hst in H; destruct H|].
  eexists. split; [reflexivity|].
  intros inc profile Hd. cbn [Api.p_description] in Hd.
  assert (Hs : Js.opt_startsWith "[SOS ALERT]" (Incident.description inc) = true).
  { rewrite Hd. apply sos_description_tagged. }
  split; [exact Hs|].
  pose proof (sos_is_not_viewer_report _ Hs) as Hv.
  split; [exact Hv|].
  rewrite ViewerDashboardNew_visible_eq, Hv. reflexivity.
Qed.

Lemma sos_requests_are_classified_as_sos_witness :
  exists p,
    Api.body (Api.sendSOSAlert_request Examples.base (Some "Emergency SOS Alert!")
                (Some (ViewerDashboardNew.sos_userInfo Examples.viewerNew)))
    = Api.IncidentBody p
    /\ forall (inc : Incident.t) (profile : option User.t),
         Incident.description inc = Some (Api.p_description p) ->
         Api.is_sos_alert inc = true
         /\ SecurityDashboardNew_v2.isViewerReport inc = false
         /\ ViewerDashboardNew.visible profile inc = true.
Proof.
  apply (sos_requests_are_classified_as_sos Examples.base Examples.viewerNew
           [ViewerDashboardNew.OpenSOSModal; ViewerDashboardNew.PressSendSOSAlert]).
  - reflexivity.
  - simpl. left. reflexivity.
Defined.

(** X14. The emergency incident that 'I have NOT seen' creates carries
    neither tag: getSOSAlerts never returns it, no security dashboard takes
    it for a viewer report, and the tabbed security dashboard keeps it only
    when it is assigned to the current user. *)
Theorem unseen_report_reaches_no_sos_list :
  forall (incident inc : Incident.t),
    Incident.description inc
    = Some (Api.p_description (AcknowledgementScreen.markUnseen_payload incident)) ->
    Api.is_sos_alert inc = false
    /\ SecurityDashboardNew.isViewerReport inc = false
    /\ (forall (BASE_URL : string) (data : list Incident.t),
           exists kept,
             Api.getSOSAlerts_result BASE_URL (Api.ReplyOk data) = Api.Ok kept
             /\ ~ In inc kept)
    /\ (forall currentUserId,
           SecurityDashboardNew.isViewerReport inc
           || SecurityDashboardNew.isAssignedToMe currentUserId inc
           = SecurityDashboardNew.isAssignedToMe currentUserId inc).
Proof.
  intros incident inc Hd.
  assert (Hs : Api.is_sos_alert inc = false).
  { unfold Api.is_sos_alert. rewrite Hd. reflexivity. }
  assert (Hv : SecurityDashboardNew.isViewerReport inc = false).
  { unfold SecurityDashboardNew.isViewerReport. rewrite Hd. reflexivity. }
  split; [exact Hs|]. split; [exact Hv|]. split.
  - intros BASE_URL data. eexists. split; [reflexivity|].
    rewrite filter_In. intros [_ H]. congruence.
  - intros currentUserId. rewrite Hv. reflexivity.
Qed.

Lemma unseen_report_reaches_no_sos_list_witness :
  let inc :=
    Incident.mk 70 (Some 3) (Some "fall_health") (Some "critical")
      (Some (Api.p_description
               (AcknowledgementScreen.markUnseen_payload Examples.report42)))
      (Some "pending") (Some false) None None in
  Api.is_sos_alert inc = false
  /\ SecurityDashboardNew.isViewerReport inc = false
  /\ (forall (BASE_URL : string) (data : list Incident.t),
         exists kept,
           Api.getSOSAlerts_result BASE_URL (Api.ReplyOk data) = Api.Ok kept
           /\ ~ In inc kept)
  /\ (forall currentUserId,
         SecurityDashboardNew.isViewerReport inc
         || SecurityDashboardNew.isAssignedToMe currentUserId inc
         = SecurityDashboardNew.isAssignedToMe currentUserId inc).
Proof.
  exact (unseen_report_reaches_no_sos_list Examples.report42
           (Incident.mk 70 (Some 3) (Some "fall_health") (Some "critical")
              (Some (Api.p_description
                       (AcknowledgementScreen.markUnseen_payload Examples.report42)))
              (Some "pending") (Some false) None None)
           eq_refl).
Defined.

(** ** The report form *)

(** X15. handleSubmitReport sends nothing for a description that is empty
    or white space only, where white space is what String.prototype.trim
    takes for it (U+00A0, U+3000 and the like included): it alerts
    'Required Field' and leaves the form as it is.  Otherwise it issues
    exactly one POST whose description carries the '[VIEWER REPORT]' tag,
    and a location field left empty adds no 'Location:' section to it. *)
Theorem blank_report_is_not_sent :
  forall (base : string) (cameras : ApiReport.CamerasReply)
         (f : ViewerDashboardNewTabs.ReportForm),
    let f' := ViewerDashboardNewTabs.handleSubmitReport_begin base cameras f in
    (ViewerDashboardNew.trim (ViewerDashboardNewTabs.reportDescription f)
     = EmptyString ->
     ViewerDashboardNewTabs.form_requests f'
     = ViewerDashboardNewTabs.form_requests f
     /\ ViewerDashboardNewTabs.form_alerts f'
        = ViewerDashboardNewTabs.form_alerts f ++
          [mkAlert "Required Field"
                   "Please provide a description of the incident"]
     /\ ViewerDashboardNewTabs.submittingReport f'
        = ViewerDashboardNewTabs.submittingReport f)
    /\ (ViewerDashboardNew.trim (ViewerDashboardNewTabs.reportDescription f)
        <> EmptyString ->
        exists p,
          ViewerDashboardNewTabs.form_requests f'
          = ViewerDashboardNewTabs.form_requests f ++
            [Api.mkRequest "POST" (base +:+ "/api/v1/incidents/")
                           (Api.IncidentBody p)]
          /\ Js.startsWith "[VIEWER REPORT]" (Api.p_description p) = true
          /\ ViewerDashboardNewTabs.submittingReport f' = true
          /\ (ViewerDashboardNewTabs.reportLocation f = EmptyString ->
              Api.p_description p
              = ApiReport.fullDescription
                  (ApiReport.mkReportData
                     (Some (ViewerDashboardNewTabs.reportType f))
                     (Some (ViewerDashboardNewTabs.reportSeverity f))
                     (ViewerDashboardNewTabs.reportDescription f)
                     None
                     (Some (ViewerDashboardNewTabs.reportPhone f))
                     (Some (ViewerDashboardNewTabs.reportNotes f))))).
Proof.
  intros base cameras f f'. subst f'.
  unfold ViewerDashboardNewTabs.handleSubmitReport_begin.
  split.
  - intros ->. cbn. auto.
  - intros Hne.
    destruct (ViewerDashboardNew.trim (ViewerDashboardNewTabs.reportDescription f))
      as [|c t] eqn:Ht; [contradiction|].
    cbn [Js.truthy_str negb ViewerDashboardNewTabs.form_requests
         ViewerDashboardNewTabs.submittingReport].
    eexists. split; [reflexivity|].
    cbn [ApiReport.payload Api.p_description].
    split; [apply fullDescription_tagged|]. split; [reflexivity|].
    intros Hloc. unfold ApiReport.fullDescription, ViewerDashboardNewTabs.reportData_of.
    cbn [ApiReport.r_location ApiReport.r_phone ApiReport.r_notes
         ApiReport.r_description].
    rewrite Hloc. reflexivity.
Qed.

(** X15 at work: a description of a space, a no-break space and an
    ideographic space is not sent. *)
Lemma blank_report_is_not_sent_witness :
  let f :=
    ViewerDashboardNewTabs.mkReportForm "theft" ApiReport.medium
      (" " +:+ Examples.nbsp +:+ Examples.ideographic_space) "" "" ""
      false false [] [] in
  let f' :=
    ViewerDashboardNewTabs.handleSubmitReport_begin Examples.base
      ApiReport.CamerasFailed f in
  ViewerDashboardNewTabs.form_requests f' = []
  /\ ViewerDashboardNewTabs.form_alerts f'
     = [mkAlert "Required Field" "Please provide a description of the incident"]
  /\ ViewerDashboardNewTabs.submittingReport f' = false.
Proof.
  exact (proj1 (blank_report_is_not_sent Examples.base ApiReport.CamerasFailed
                  (ViewerDashboardNewTabs.mkReportForm "theft" ApiReport.medium
                     (" " +:+ Examples.nbsp +:+ Examples.ideographic_space)
                     "" "" "" false false [] []))
               eq_refl).
Defined.

(** ** Notifications of handled reports *)

Lemma notification_ids l :
  map ViewerDashboardNewTabs.n_id (map ViewerDashboardNewTabs.notification_of l)
  = map Incident.id l.
Proof. rewrite map_map. reflexivity. Qed.

(** The ids alerted by one resolution: the acknowledged viewer reports of
    the response that the ref does not hold yet. *)
Lemma new_handled_ids (ref : gset Z) data :
  map ViewerDashboardNewTabs.n_id
    (List.filter
       (fun n => negb (bool_decide (ViewerDashboardNewTabs.n_id n ∈ ref)))
       (map ViewerDashboardNewTabs.notification_of
          (List.filter ViewerDashboardNewTabs.handled_report data)))
  = List.filter (fun i => negb (bool_decide (i ∈ ref)))
      (map Incident.id (List.filter ViewerDashboardNewTabs.handled_report data)).
Proof.
  rewrite (filter_map_comm ViewerDashboardNewTabs.notification_of).
  rewrite (filter_map_comm Incident.id), !map_map. reflexivity.
Qed.

Lemma NoDup_map_filter_id (p : Incident.t -> bool) data :
  List.NoDup (map Incident.id data) ->
  List.NoDup (map Incident.id (List.filter p data)).
Proof.
  induction data as [|x data IH]; intros H; [constructor|].
  cbn [map] in H. apply List.NoDup_cons_iff in H as [Hx Hd].
  cbn [List.filter]. destruct (p x); [|auto].
  cbn [map]. apply List.NoDup_cons_iff. split; [|auto].
  intros Hin. apply Hx. apply in_map_iff in Hin as [y [Hy Hin]].
  apply filter_In in Hin as [Hin _]. apply in_map_iff. eauto.
Qed.

Lemma fetchNotifications_step r st :
  TraceSpec.distinct_ids r ->
  exists ids,
    List.NoDup ids
    /\ (forall i, In i ids -> i ∉ ViewerDashboardNewTabs.handledReportsRef st)
    /\ ViewerDashboardNewTabs.alerts
         (ViewerDashboardNewTabs.fetchNotifications_resume r st)
       = ViewerDashboardNewTabs.alerts st
         ++ map ViewerDashboardNewTabs.handled_alert ids
    /\ ViewerDashboardNewTabs.handledReportsRef
         (ViewerDashboardNewTabs.fetchNotifications_resume r st)
       = ViewerDashboardNewTabs.handledReportsRef st ∪ list_to_set ids.
Proof.
  intros Hr.
  assert (Hnone :
    exists ids,
      List.NoDup ids
      /\ (forall i, In i ids -> i ∉ ViewerDashboardNewTabs.handledReportsRef st)
      /\ ViewerDashboardNewTabs.alerts st
         = ViewerDashboardNewTabs.alerts st
           ++ map ViewerDashboardNewTabs.handled_alert ids
      /\ ViewerDashboardNewTabs.handledReportsRef st
         = ViewerDashboardNewTabs.handledReportsRef st ∪ list_to_set ids).
  { exists []. split; [constructor|]. split; [intros i []|].
    split; [symmetry; apply app_nil_r|].
    cbn [list_to_set foldr]. symmetry. apply (right_id_L ∅ (∪)). }
  destruct r as [[data | status m] | m];
    cbn [ViewerDashboardNewTabs.fetchNotifications_resume
         ViewerDashboardNewTabs.alerts ViewerDashboardNewTabs.handledReportsRef];
    [|exact Hnone|exact Hnone].
  cbn [TraceSpec.distinct_ids] in Hr.
  set (ref := ViewerDashboardNewTabs.handledReportsRef st).
  rewrite notification_ids.
  rewrite <- (map_map ViewerDashboardNewTabs.n_id
                ViewerDashboardNewTabs.handled_alert).
  rewrite new_handled_ids.
  set (acked := map Incident.id
                  (List.filter ViewerDashboardNewTabs.handled_report data)).
  exists (List.filter (fun i => negb (bool_decide (i ∈ ref))) acked).
  split.
  { apply List.NoDup_filter. subst acked. apply NoDup_map_filter_id, Hr. }
  split.
  { intros i Hi. apply filter_In in Hi as [_ Hi].
    apply negb_true_iff, bool_decide_eq_false in Hi. exact Hi. }
  split; [reflexivity|].
  apply set_eq. intros x.
  rewrite !elem_of_union, !elem_of_list_to_set, !list_elem_of_In, filter_In.
  rewrite negb_true_iff, bool_decide_eq_false.
  destruct (decide (x ∈ ref)); tauto.
Qed.

Lemma run_cons_notifications r trace st :
  ViewerDashboardNewTabs.run (r :: trace) st
  = ViewerDashboardNewTabs.run trace
      (ViewerDashboardNewTabs.fetchNotifications_resume r st).
Proof. reflexivity. Qed.

(** X16. Along any sequence of resolutions of fetchNotifications in which
    each response lists an incident id at most once, the 'Report Handled'
    popups raised are one per report, for pairwise different reports none
    of which was in handledReportsRef before, and handledReportsRef has
    grown by exactly these reports: no handled report is announced
    twice. *)
Theorem handled_report_is_announced_once :
  forall (trace : list (Js.Awaited (Api.Response (list Incident.t))))
         (st : ViewerDashboardNewTabs.State),
    Forall TraceSpec.distinct_ids trace ->
    exists ids,
      List.NoDup ids
      /\ (forall i, In i ids -> i ∉ ViewerDashboardNewTabs.handledReportsRef st)
      /\ ViewerDashboardNewTabs.alerts (ViewerDashboardNewTabs.run trace st)
         = ViewerDashboardNewTabs.alerts st
           ++ map ViewerDashboardNewTabs.handled_alert ids
      /\ ViewerDashboardNewTabs.handledReportsRef
           (ViewerDashboardNewTabs.run trace st)
         = ViewerDashboardNewTabs.handledReportsRef st ∪ list_to_set ids.
Proof.
  induction trace as [|r trace IH]; intros st Htrace.
  - exists []. split; [constructor|]. split; [intros i []|].
    split; [symmetry; apply app_nil_r|].
    cbn [list_to_set foldr]. symmetry. apply (right_id_L ∅ (∪)).
  - apply List.Forall_cons_iff in Htrace as [Hr Htrace].
    rewrite run_cons_notifications.
    destruct (fetchNotifications_step r st Hr) as (ids1 & Hnd1 & Hnew1 & Ha1 & Href1).
    destruct (IH (ViewerDashboardNewTabs.fetchNotifications_resume r st) Htrace)
      as (ids2 & Hnd2 & Hnew2 & Ha2 & Href2).
    exists (ids1 ++ ids2).
    assert (Hdisj : forall i, In i ids2 ->
                      (i ∉ ViewerDashboardNewTabs.handledReportsRef st)
                      /\ ~ In i ids1).
    { intros i Hi. specialize (Hnew2 i Hi). rewrite Href1 in Hnew2.
      rewrite elem_of_union, elem_of_list_to_set, list_elem_of_In in Hnew2.
      tauto. }
    split.
    { apply List.NoDup_app; [exact Hnd1 | exact Hnd2 |].
      intros i Hi1 Hi2. exact (proj2 (Hdisj i Hi2) Hi1). }
    split.
    { intros i Hi. apply in_app_iff in Hi as [Hi | Hi];
        [apply Hnew1, Hi | apply Hdisj, Hi]. }
    split.
    { rewrite Ha2, Ha1, map_app, app_assoc. reflexivity. }
    rewrite Href2, Href1. apply set_eq. intros x.
    rewrite !elem_of_union, !elem_of_list_to_set, !list_elem_of_In, in_app_iff.
    tauto.
Qed.

Lemma handled_report_is_announced_once_witness :
  let handled42 := Incident.with_ack Examples.report42 true "acknowledged" in
  let trace :=
    [Js.Resolved (Api.Ok [handled42; Examples.handled7]);
     Js.Rejected None;
     Js.Resolved (Api.Ok [Examples.plain5; handled42])] in
  exists ids,
    List.NoDup ids
    /\ (forall i, In i ids ->
          i ∉ ViewerDashboardNewTabs.handledReportsRef
                ViewerDashboardNewTabs.initial)
    /\ ViewerDashboardNewTabs.alerts
         (ViewerDashboardNewTabs.run trace ViewerDashboardNewTabs.initial)
       = ViewerDashboardNewTabs.alerts ViewerDashboardNewTabs.initial
         ++ map ViewerDashboardNewTabs.handled_alert ids
    /\ ViewerDashboardNewTabs.handledReportsRef
         (ViewerDashboardNewTabs.run trace ViewerDashboardNewTabs.initial)
       = ViewerDashboardNewTabs.handledReportsRef ViewerDashboardNewTabs.initial
         ∪ list_to_set ids.
Proof.
  apply handled_report_is_announced_once.
  repeat constructor; simpl; intuition discriminate.
Defined.

Lemma filter_none {A} (p : A -> bool) l :
  (forall x, In x l -> p x = false) -> List.filter p l = [].
Proof.
  induction l as [|x l IH]; intros H; [reflexivity|].
  cbn [List.filter]. rewrite (H x) by (left; reflexivity).
  apply IH. intros y Hy. apply H. right. exact Hy.
Qed.

(** X17. Fetching the notifications again with the same response changes
    nothing: the second resolution leaves the whole state, alerts
    included, as the first one left it. *)
Theorem refetch_of_notifications_is_silent :
  forall (r : Js.Awaited (Api.Response (list Incident.t)))
         (st : ViewerDashboardNewTabs.State),
    ViewerDashboardNewTabs.fetchNotifications_resume r
      (ViewerDashboardNewTabs.fetchNotifications_resume r st)
    = ViewerDashboardNewTabs.fetchNotifications_resume r st.
Proof.
  intros [[data | status m] | m] st; [|reflexivity|reflexivity].
  cbn [ViewerDashboardNewTabs.fetchNotifications_resume
       ViewerDashboardNewTabs.alerts ViewerDashboardNewTabs.handledReportsRef].
  set (acks := map ViewerDashboardNewTabs.notification_of
                 (List.filter ViewerDashboardNewTabs.handled_report data)).
  set (ref := ViewerDashboardNewTabs.handledReportsRef st).
  set (new := List.filter
                (fun n => negb (bool_decide (ViewerDashboardNewTabs.n_id n ∈ ref)))
                acks).
  set (ref' := ref ∪ list_to_set (map ViewerDashboardNewTabs.n_id new)
               ∪ list_to_set (map ViewerDashboardNewTabs.n_id acks)).
  assert (Hnone :
    List.filter
      (fun n => negb (bool_decide (ViewerDashboardNewTabs.n_id n ∈ ref'))) acks
    = []).
  { apply filter_none. intros n Hn. apply negb_false_iff, bool_decide_eq_true.
    subst ref'. rewrite !elem_of_union, !elem_of_list_to_set, !list_elem_of_In.
    right. apply in_map, Hn. }
  rewrite Hnone. cbn [map list_to_set foldr]. rewrite app_nil_r.
  f_equal. apply set_eq. intros x. subst ref'.
  rewrite !elem_of_union, !elem_of_list_to_set, !list_elem_of_In.
  pose proof (not_elem_of_empty (C:=gset Z) x). tauto.
Qed.

(** ** The selection of the bulk assignment screen *)

Import GrantAccessSelection.

Lemma has_key_In key obj : has_key key obj = true <-> In key (map fst obj).
Proof.
  unfold has_key. rewrite existsb_exists, in_map_iff. split.
  - intros [p [Hin Hp]]. exists p. split; [apply Z.eqb_eq, Hp | exact Hin].
  - intros [p [Hp Hin]]. exists p. split; [exact Hin | apply Z.eqb_eq, Hp].
Qed.

Lemma has_key_false key obj : has_key key obj = false <-> ~ In key (map fst obj).
Proof. rewrite <- has_key_In. destruct (has_key key obj); split; congruence. Qed.

Lemma replace_keys key v obj :
  map fst (map (fun p : Z * bool => if p.1 =? key then (p.1, v) else p) obj)
  = map fst obj.
Proof.
  rewrite map_map. apply map_ext. intros p. destruct (p.1 =? key); reflexivity.
Qed.

Lemma add_property_In key v obj k :
  In k (map fst (add_property key v obj)) <-> k = key \/ In k (map fst obj).
Proof.
  induction obj as [|[k0 w] obj IH]; cbn [add_property].
  - cbn. intuition.
  - destruct (is_index key && _); cbn [map fst In] in *; [intuition|].
    rewrite IH. intuition.
Qed.

Lemma add_property_NoDup key v obj :
  ~ In key (map fst obj) -> List.NoDup (map fst obj) ->
  List.NoDup (map fst (add_property key v obj)).
Proof.
  induction obj as [|[k0 w] obj IH]; cbn [add_property]; intros Hnew Hnd.
  - cbn. constructor; [intros [] | constructor].
  - destruct (is_index key && _).
    + cbn [map fst]. constructor; assumption.
    + cbn [map fst] in *. apply List.NoDup_cons_iff in Hnd as [Hk0 Hnd].
      apply List.NoDup_cons_iff. split.
      * rewrite add_property_In. intros [-> | H]; [apply Hnew; left; reflexivity|].
        contradiction.
      * apply IH; [intros H; apply Hnew; right; exact H | exact Hnd].
Qed.

Lemma set_property_NoDup key v obj :
  List.NoDup (map fst obj) -> List.NoDup (map fst (set_property key v obj)).
Proof.
  intros Hnd. unfold set_property. destruct (has_key key obj) eqn:E.
  - rewrite replace_keys. exact Hnd.
  - apply add_property_NoDup; [apply has_key_false, E | exact Hnd].
Qed.

Lemma set_property_In key v obj k :
  In k (map fst (set_property key v obj)) <-> k = key \/ In k (map fst obj).
Proof.
  unfold set_property. destruct (has_key key obj) eqn:E.
  - rewrite replace_keys. apply has_key_In in E. split; [auto|].
    intros [-> | H]; assumption.
  - apply add_property_In.
Qed.

Lemma get_absent key obj : ~ In key (map fst obj) -> get key obj = false.
Proof.
  induction obj as [|[k w] obj IH]; [reflexivity|]. cbn [map fst In get].
  intros H. destruct (Z.eqb_spec k key) as [-> | _]; [tauto|]. apply IH. tauto.
Qed.

Lemma get_add_same key v obj :
  ~ In key (map fst obj) -> get key (add_property key v obj) = v.
Proof.
  induction obj as [|[k w] obj IH]; cbn [add_property map fst In]; intros H.
  - cbn [get]. rewrite Z.eqb_refl. reflexivity.
  - destruct (is_index key && _); cbn [get].
    + rewrite Z.eqb_refl. reflexivity.
    + destruct (Z.eqb_spec k key) as [-> | _]; [tauto|]. apply IH. tauto.
Qed.

Lemma get_add_other key other v obj :
  other <> key -> get other (add_property key v obj) = get other obj.
Proof.
  intros Hne. induction obj as [|[k w] obj IH]; cbn [add_property].
  - cbn [get]. destruct (Z.eqb_spec key other); [congruence | reflexivity].
  - destruct (is_index key && _); cbn [get].
    + destruct (Z.eqb_spec key other); [congruence | reflexivity].
    + rewrite IH. reflexivity.
Qed.

Lemma get_replace_same key v obj :
  In key (map fst obj) ->
  get key (map (fun p : Z * bool => if p.1 =? key then (p.1, v) else p) obj) = v.
Proof.
  induction obj as [|[k w] obj IH]; [intros []|]. cbn [map fst In get].
  intros H. destruct (Z.eqb_spec k key) as [-> | Hne].
  - cbn [get]. rewrite Z.eqb_refl. reflexivity.
  - cbn [get]. rewrite (proj2 (Z.eqb_neq _ _) Hne). apply IH.
    destruct H as [H | H]; [contradiction | exact H].
Qed.

Lemma get_replace_other key other v obj :
  other <> key ->
  get other (map (fun p : Z * bool => if p.1 =? key then (p.1, v) else p) obj)
  = get other obj.
Proof.
  intros Hne. induction obj as [|[k w] obj IH]; [reflexivity|].
  cbn [map fst get]. destruct (Z.eqb_spec k key) as [-> | Hk]; cbn [get].
  - rewrite (proj2 (Z.eqb_neq key other)) by congruence. exact IH.
  - rewrite IH. reflexivity.
Qed.

Lemma get_toggleIncident_same incidentId prev :
  get incidentId (toggleIncident incidentId prev) = negb (get incidentId prev).
Proof.
  unfold toggleIncident, set_property.
  destruct (has_key incidentId prev) eqn:E.
  - apply get_replace_same, has_key_In, E.
  - apply get_add_same, has_key_false, E.
Qed.

Lemma get_toggleIncident_other incidentId other prev :
  other <> incidentId ->
  get other (toggleIncident incidentId prev) = get other prev.
Proof.
  intros Hne. unfold toggleIncident, set_property.
  destruct (has_key incidentId prev).
  - apply get_replace_other, Hne.
  - apply get_add_other, Hne.
Qed.

Lemma toggles_snoc presses incidentId :
  toggles (presses ++ [incidentId]) = toggleIncident incidentId (toggles presses).
Proof. unfold toggles. apply fold_left_app. Qed.

Lemma toggles_NoDup presses : List.NoDup (map fst (toggles presses)).
Proof.
  induction presses as [|incidentId presses IH] using rev_ind; [constructor|].
  rewrite toggles_snoc. apply set_property_NoDup, IH.
Qed.

Lemma toggles_keys presses k : In k (map fst (toggles presses)) <-> In k presses.
Proof.
  induction presses as [|p presses IH] using rev_ind; [reflexivity|].
  rewrite toggles_snoc. unfold toggleIncident.
  rewrite set_property_In, IH, in_app_iff. cbn [In]. intuition.
Qed.

Lemma count_occ_snoc (l : list Z) x y :
  count_occ Z.eq_dec (l ++ [x]) y
  = (count_occ Z.eq_dec l y + if Z.eq_dec x y then 1 else 0)%nat.
Proof.
  rewrite count_occ_app. cbn [count_occ]. destruct (Z.eq_dec x y); reflexivity.
Qed.

Lemma toggles_get presses incidentId :
  get incidentId (toggles presses)
  = Nat.odd (count_occ Z.eq_dec presses incidentId).
Proof.
  induction presses as [|p presses IH] using rev_ind; [reflexivity|].
  rewrite toggles_snoc, count_occ_snoc.
  destruct (Z.eq_dec p incidentId) as [-> | Hne].
  - rewrite get_toggleIncident_same.
    rewrite IH, Nat.add_1_r, Nat.odd_succ, <- Nat.negb_odd. reflexivity.
  - rewrite get_toggleIncident_other by congruence.
    rewrite IH, Nat.add_0_r. reflexivity.
Qed.

(** With one property per key, the selected ids are the keys whose value
    is true, in the order of the keys. *)
Lemma selectedIds_get obj :
  List.NoDup (map fst obj) ->
  GrantAccess.selectedIds obj = List.filter (fun k => get k obj) (map fst obj).
Proof.
  unfold GrantAccess.selectedIds.
  induction obj as [|[k v] obj IH]; [reflexivity|].
  cbn [map fst]. intros Hnd. apply List.NoDup_cons_iff in Hnd as [Hk Hnd].
  cbn [List.filter snd get]. rewrite Z.eqb_refl.
  assert (Hrest : List.filter (fun k0 => if k =? k0 then v else get k0 obj)
                              (map fst obj)
                  = List.filter (fun k0 => get k0 obj) (map fst obj)).
  { apply filter_ext_in. intros k0 Hin.
    destruct (Z.eqb_spec k k0) as [-> | _]; [contradiction | reflexivity]. }
  rewrite Hrest, <- (IH Hnd). destruct v; reflexivity.
Qed.

Lemma NoDup_filter_keys (p : Z -> bool) keys :
  List.NoDup keys -> List.NoDup (List.filter p keys).
Proof. apply List.NoDup_filter. Qed.

Lemma selectedIds_In presses incidentId :
  In incidentId (GrantAccess.selectedIds (toggles presses))
  <-> Nat.odd (count_occ Z.eq_dec presses incidentId) = true.
Proof.
  rewrite (selectedIds_get _ (toggles_NoDup presses)), filter_In, toggles_get.
  split; [intros [_ H]; exact H|]. intros H. split; [|exact H].
  apply toggles_keys. apply (count_occ_In Z.eq_dec).
  destruct (count_occ Z.eq_dec presses incidentId); [discriminate H | lia].
Qed.

Lemma selectedIds_NoDup presses :
  List.NoDup (GrantAccess.selectedIds (toggles presses)).
Proof.
  rewrite (selectedIds_get _ (toggles_NoDup presses)).
  apply NoDup_filter_keys, toggles_NoDup.
Qed.

(** *** The order of the keys *)

Lemma key_order_filter (p : Z -> bool) keys :
  TraceSpec.key_order keys -> TraceSpec.key_order (List.filter p keys).
Proof.
  induction keys as [|k keys IH]; [intros _; exact I|].
  intros [Hk Hrest]. cbn [List.filter].
  destruct (p k); [|apply IH, Hrest].
  split; [|apply IH, Hrest].
  intros q Hq. apply filter_In in Hq as [Hq _]. apply Hk, Hq.
Qed.

Lemma add_property_key_order key v obj :
  ~ In key (map fst obj) ->
  TraceSpec.key_order (map fst obj) ->
  TraceSpec.key_order (map fst (add_property key v obj)).
Proof.
  induction obj as [|[k w] obj IH]; cbn [add_property]; intros Hnew Hord.
  - cbn. split; [intros q []|exact I].
  - cbn [map fst] in Hnew, Hord. destruct Hord as [Hk Hrest].
    destruct (is_index key) eqn:Ekey; cbn [andb].
    + destruct (negb (is_index k) || (key <? k)) eqn:Ehere.
      * cbn [map fst]. split; [|split; assumption].
        intros q [<- | Hq] Hidx.
        -- split; [exact Ekey|].
           rewrite Hidx in Ehere. cbn in Ehere. apply Z.ltb_lt, Ehere.
        -- destruct (Hk q Hq Hidx) as [Hkidx Hlt]. split; [exact Ekey|].
           rewrite Hkidx in Ehere. cbn in Ehere. apply Z.ltb_lt in Ehere. lia.
      * apply orb_false_iff in Ehere as [Hkidx Hge].
        apply negb_false_iff in Hkidx. apply Z.ltb_ge in Hge.
        cbn [map fst]. split.
        -- intros q Hq Hidx. apply add_property_In in Hq as [-> | Hq].
           ++ split; [exact Hkidx|].
              assert (k <> key) by (intros ->; apply Hnew; left; reflexivity).
              lia.
           ++ apply Hk; assumption.
        -- apply IH; [intros H; apply Hnew; right; exact H | exact Hrest].
    + cbn [map fst]. split.
      * intros q Hq Hidx. apply add_property_In in Hq as [-> | Hq];
          [congruence|]. apply Hk; assumption.
      * apply IH; [intros H; apply Hnew; right; exact H | exact Hrest].
Qed.

Lemma toggles_key_order presses : TraceSpec.key_order (map fst (toggles presses)).
Proof.
  induction presses as [|p presses IH] using rev_ind; [exact I|].
  rewrite toggles_snoc. unfold toggleIncident, set_property.
  destruct (has_key p (toggles presses)) eqn:E.
  - rewrite replace_keys. exact IH.
  - apply add_property_key_order; [apply has_key_false, E | exact IH].
Qed.

Lemma key_order_ascending keys :
  (forall k, In k keys -> is_index k = true) ->
  TraceSpec.key_order keys -> TraceSpec.ascending keys.
Proof.
  induction keys as [|k keys IH]; [intros _ _; exact I|].
  intros Hidx [Hk Hrest]. split.
  - intros j Hj. apply Hk; [exact Hj | apply Hidx; right; exact Hj].
  - apply IH; [intros q Hq; apply Hidx; right; exact Hq | exact Hrest].
Qed.

Lemma add_property_last key v obj :
  is_index key = false -> add_property key v obj = obj ++ [(key, v)].
Proof.
  intros H. induction obj as [|[k w] obj IH]; [reflexivity|].
  cbn [add_property]. rewrite H. cbn [andb app]. rewrite IH. reflexivity.
Qed.

Lemma add_property_others key v obj :
  is_index key = true ->
  List.filter (fun k => negb (is_index k)) (map fst (add_property key v obj))
  = List.filter (fun k => negb (is_index k)) (map fst obj).
Proof.
  intros H. induction obj as [|[k w] obj IH]; cbn [add_property].
  - cbn. rewrite H. reflexivity.
  - destruct (is_index key && _); cbn [map fst List.filter].
    + rewrite H. reflexivity.
    + rewrite IH. reflexivity.
Qed.

Lemma first_pressed_snoc presses p :
  TraceSpec.first_pressed (presses ++ [p])
  = if existsb (Z.eqb p) (TraceSpec.first_pressed presses)
    then TraceSpec.first_pressed presses
    else TraceSpec.first_pressed presses ++ [p].
Proof. unfold TraceSpec.first_pressed. rewrite fold_left_app. reflexivity. Qed.

Lemma existsb_eqb_In p (l : list Z) : existsb (Z.eqb p) l = true <-> In p l.
Proof.
  rewrite existsb_exists. split.
  - intros [x [Hin Hx]]. apply Z.eqb_eq in Hx. subst x. exact Hin.
  - intros Hin. exists p. split; [exact Hin | apply Z.eqb_refl].
Qed.

Lemma first_pressed_In presses :
  forall k, In k (TraceSpec.first_pressed presses) <-> In k presses.
Proof.
  induction presses as [|p presses IH] using rev_ind; [reflexivity|].
  intros k. rewrite first_pressed_snoc, in_app_iff. cbn [In].
  destruct (existsb (Z.eqb p) (TraceSpec.first_pressed presses)) eqn:E.
  - apply existsb_eqb_In in E. rewrite IH in E |- *.
    split; [auto|]. intros [H | [<- | []]]; assumption.
  - rewrite in_app_iff, IH. cbn [In]. reflexivity.
Qed.

Lemma toggles_others presses :
  List.filter (fun k => negb (is_index k)) (map fst (toggles presses))
  = List.filter (fun k => negb (is_index k)) (TraceSpec.first_pressed presses).
Proof.
  induction presses as [|p presses IH] using rev_ind; [reflexivity|].
  rewrite toggles_snoc, first_pressed_snoc. unfold toggleIncident, set_property.
  assert (Hsame : has_key p (toggles presses)
                  = existsb (Z.eqb p) (TraceSpec.first_pressed presses)).
  { apply eq_true_iff_eq.
    rewrite has_key_In, existsb_eqb_In, toggles_keys, first_pressed_In.
    reflexivity. }
  rewrite Hsame.
  destruct (existsb (Z.eqb p) (TraceSpec.first_pressed presses)).
  - rewrite replace_keys. exact IH.
  - destruct (is_index p) eqn:Ep.
    + rewrite (add_property_others _ _ _ Ep), List.filter_app, IH.
      cbn [List.filter]. rewrite Ep. cbn [negb]. rewrite app_nil_r. reflexivity.
    + rewrite (add_property_last _ _ _ Ep), map_app, !List.filter_app, IH.
      reflexivity.
Qed.

Lemma filter_filter_comm {A} (p q : A -> bool) l :
  List.filter p (List.filter q l) = List.filter (fun x => p x && q x) l.
Proof.
  induction l as [|x l IH]; [reflexivity|]. cbn [List.filter].
  destruct (q x); cbn [List.filter]; rewrite ?andb_true_r, ?andb_false_r;
    destruct (p x); rewrite IH; reflexivity.
Qed.

Lemma selectedIds_others presses :
  List.filter (fun k => negb (is_index k))
              (GrantAccess.selectedIds (toggles presses))
  = List.filter
      (fun k => negb (is_index k) && Nat.odd (count_occ Z.eq_dec presses k))
      (TraceSpec.first_pressed presses).
Proof.
  rewrite (selectedIds_get _ (toggles_NoDup presses)).
  rewrite filter_filter_comm.
  rewrite (filter_ext _ (fun k => get k (toggles presses) && negb (is_index k)))
    by (intros k; apply andb_comm).
  rewrite <- filter_filter_comm, toggles_others, filter_filter_comm.
  apply filter_ext. intros k. rewrite toggles_get. apply andb_comm.
Qed.

(** X18. Starting from the empty selection, an incident is selected after
    a sequence of presses on incident rows exactly when its row was pressed
    an odd number of times; the selected ids are pairwise different. *)
Theorem selection_is_parity_of_presses :
  forall (presses : list Z) (incidentId : Z),
    (In incidentId
        (GrantAccess.selectedIds (GrantAccessSelection.toggles presses))
     <-> Nat.odd (count_occ Z.eq_dec presses incidentId) = true)
    /\ List.NoDup
         (GrantAccess.selectedIds (GrantAccessSelection.toggles presses)).
Proof.
  intros presses incidentId. split.
  - apply selectedIds_In.
  - apply selectedIds_NoDup.
Qed.

(** X19. A bulk assignment built by presses on incident rows notifies no
    incident twice: for a selected security user, submit issues exactly one
    notify call per incident whose row was pressed an odd number of
    times, and it is refused when no row is left selected.  The calls come
    in the order in which Object.keys lists the selection: the ids that
    are array indices (0 to 2^32 - 2) first, ascending, then the other
    ids, in the order in which their rows were first pressed.  When every
    pressed id is an array index the calls are in ascending id order. *)
Theorem submit_notifies_each_selected_incident_once :
  forall (D : Type) (base : string) (backend : Z -> Api.HttpReply D)
         (presses : list Z) (user : Z),
    user <> 0 ->
    let ids := GrantAccess.selectedIds (GrantAccessSelection.toggles presses) in
    List.NoDup ids
    /\ (forall i, In i ids <-> Nat.odd (count_occ Z.eq_dec presses i) = true)
    /\ match GrantAccess.submit D base backend
               (GrantAccessSelection.toggles presses) (Some user) with
       | GrantAccess.Refused _ => ids = []
       | GrantAccess.Dispatched calls _ _ _ _ =>
           calls = map (fun i => Api.notifyIncident_request base i [user]) ids
       end
    /\ TraceSpec.key_order ids
    /\ List.filter (fun k => negb (GrantAccessSelection.is_index k)) ids
       = List.filter
           (fun k => negb (GrantAccessSelection.is_index k)
                     && Nat.odd (count_occ Z.eq_dec presses k))
           (TraceSpec.first_pressed presses)
    /\ ((forall p, In p presses -> 0 <= p <= 4294967294) ->
        TraceSpec.ascending ids).
Proof.
  intros D base backend presses user Huser ids.
  assert (Hord : TraceSpec.key_order ids).
  { subst ids. rewrite (selectedIds_get _ (toggles_NoDup presses)).
    apply key_order_filter, toggles_key_order. }
  split; [apply selectedIds_NoDup|].
  split; [intros i; apply selectedIds_In|].
  split; [|split; [exact Hord|split; [apply selectedIds_others|]]].
  - unfold GrantAccess.submit. fold ids.
    destruct ids as [|i ids']; [reflexivity|].
    cbn [length Nat.eqb]. rewrite (proj2 (Z.eqb_neq _ _) Huser).
    destruct (0 <? _)%nat; reflexivity.
  - intros Hidx. apply key_order_ascending; [|exact Hord].
    intros k Hk. apply selectedIds_In in Hk.
    assert (Hin : In k presses).
    { apply (count_occ_In Z.eq_dec).
      destruct (count_occ Z.eq_dec presses k); [discriminate Hk | lia]. }
    specialize (Hidx k Hin). unfold is_index.
    apply andb_true_iff. split; apply Z.leb_le; lia.
Qed.

Lemma submit_notifies_each_selected_incident_once_witness :
  let presses := [3; -1; 1; 3; 2; -1; -7; 3] in
  GrantAccess.selectedIds (GrantAccessSelection.toggles presses) = [1; 2; 3; -7]
  /\ GrantAccess.selectedIds (GrantAccessSelection.toggles [3; 1; 3; 2; 3])
     = [1; 2; 3]
  /\ TraceSpec.ascending
       (GrantAccess.selectedIds (GrantAccessSelection.toggles [3; 1; 3; 2; 3]))
  /\ match GrantAccess.submit string Examples.base Examples.fails2
             (GrantAccessSelection.toggles presses) (Some 9) with
     | GrantAccess.Refused _ => False
     | GrantAccess.Dispatched calls _ _ _ _ =>
         calls = map (fun i => Api.notifyIncident_request Examples.base i [9])
                     [1; 2; 3; -7]
     end.
Proof.
  assert (H9 : 9 <> 0) by lia.
  pose proof (submit_notifies_each_selected_incident_once string Examples.base
                Examples.fails2 [3; -1; 1; 3; 2; -1; -7; 3] 9 H9)
    as (_ & _ & Hcalls & _ & _ & _).
  pose proof (submit_notifies_each_selected_incident_once string Examples.base
                Examples.fails2 [3; 1; 3; 2; 3] 9 H9)
    as (_ & _ & _ & _ & _ & Hasc).
  split; [reflexivity|]. split; [reflexivity|]. split.
  - apply Hasc. intros p Hp. cbn [In] in Hp.
    destruct Hp as [<- | [<- | [<- | [<- | [<- | []]]]]]; lia.
  - exact Hcalls.
Defined.

Lemma selectUser_repeat userId k :
  fold_left (fun acc u => GrantAccessSelection.selectUser u acc)
            (repeat userId k) (Some userId)
  = (if Nat.even k then Some userId else None)
  /\ fold_left (fun acc u => GrantAccessSelection.selectUser u acc)
               (repeat userId k) None
     = (if Nat.even k then None else Some userId).
Proof.
  induction k as [|k [IHs IHn]]; [split; reflexivity|].
  cbn [repeat fold_left GrantAccessSelection.selectUser].
  rewrite Z.eqb_refl, IHs, IHn, Nat.even_succ, <- Nat.negb_even.
  destruct (Nat.even k); split; reflexivity.
Qed.

Lemma selections_snoc presses userId :
  GrantAccessSelection.selections (presses ++ [userId])
  = GrantAccessSelection.selectUser userId
      (GrantAccessSelection.selections presses).
Proof. unfold GrantAccessSelection.selections. apply fold_left_app. Qed.

(** X25. On the GrantAccess screen the security user selected after a
    sequence of presses on user rows depends only on the last run of
    presses on one row: an odd run selects that user, an even run leaves
    nobody selected.  So, with incidents selected, submit is refused with
    'Select Security' after an even run and notifies that user after an
    odd one. *)
Theorem selected_user_is_parity_of_last_run :
  forall (D : Type) (base : string) (backend : Z -> Api.HttpReply D)
         (before : list Z) (userId : Z) (k : nat)
         (selectedIncidents : list (Z * bool)),
    (0 < k)%nat ->
    (forall earlier c, before = earlier ++ [c] -> c <> userId) ->
    GrantAccessSelection.selections (before ++ repeat userId k)
    = (if Nat.odd k then Some userId else None)
    /\ (userId <> 0 ->
        GrantAccess.selectedIds selectedIncidents <> [] ->
        match GrantAccess.submit D base backend selectedIncidents
                (GrantAccessSelection.selections (before ++ repeat userId k)) with
        | GrantAccess.Refused alert =>
            Nat.even k = true
            /\ alert = mkAlert "Select Security"
                               "Please select one security personnel"
        | GrantAccess.Dispatched calls _ _ _ _ =>
            Nat.odd k = true
            /\ calls = map (fun i => Api.notifyIncident_request base i [userId])
                           (GrantAccess.selectedIds selectedIncidents)
        end).
Proof.
  intros D base backend before userId k selectedIncidents Hk Hlast.
  assert (Hsel : GrantAccessSelection.selections (before ++ repeat userId k)
                 = if Nat.odd k then Some userId else None).
  { unfold GrantAccessSelection.selections. rewrite fold_left_app.
    fold (GrantAccessSelection.selections before).
    assert (Hbefore : GrantAccessSelection.selections before <> Some userId).
    { clear Hk. induction before as [|b before' _] using rev_ind;
        [discriminate|].
      rewrite selections_snoc. specialize (Hlast before' b eq_refl).
      unfold GrantAccessSelection.selectUser.
      destruct (GrantAccessSelection.selections before') as [p|];
        [destruct (p =? b)|]; congruence. }
    destruct k as [|k]; [lia|].
    cbn [repeat fold_left].
    assert (Hfirst : GrantAccessSelection.selectUser userId
                       (GrantAccessSelection.selections before) = Some userId).
    { unfold GrantAccessSelection.selectUser.
      destruct (GrantAccessSelection.selections before) as [p|]; [|reflexivity].
      destruct (Z.eqb_spec p userId) as [-> | _]; [contradiction | reflexivity]. }
    rewrite Hfirst, (proj1 (selectUser_repeat userId k)), Nat.odd_succ.
    reflexivity. }
  split; [exact Hsel|].
  intros Huser Hids. rewrite Hsel. unfold GrantAccess.submit.
  destruct (GrantAccess.selectedIds selectedIncidents) as [|i ids];
    [contradiction|].
  cbn [length Nat.eqb]. rewrite <- Nat.negb_odd.
  destruct (Nat.odd k).
  - rewrite (proj2 (Z.eqb_neq _ _) Huser).
    destruct (0 <? _)%nat; split; reflexivity.
  - split; reflexivity.
Qed.

Lemma selected_user_is_parity_of_last_run_witness :
  GrantAccessSelection.selections ([4; 9] ++ repeat 5 2) = None
  /\ match GrantAccess.submit string Examples.base Examples.fails2
             Examples.selection
             (GrantAccessSelection.selections ([4; 9] ++ repeat 5 2)) with
     | GrantAccess.Refused alert =>
         Nat.even 2 = true
         /\ alert = mkAlert "Select Security"
                            "Please select one security personnel"
     | GrantAccess.Dispatched calls _ _ _ _ =>
         Nat.odd 2 = true
         /\ calls = map (fun i => Api.notifyIncident_request Examples.base i [5])
                        (GrantAccess.selectedIds Examples.selection)
     end.
Proof.
  destruct (selected_user_is_parity_of_last_run string Examples.base
              Examples.fails2 [4; 9] 5 2 Examples.selection)
    as [Hsel Hsubmit].
  - lia.
  - intros earlier c H.
    assert (Hc : List.last [4; 9] 0 = List.last (earlier ++ [c]) 0)
      by (rewrite H; reflexivity).
    rewrite List.last_last in Hc. simpl in Hc. lia.
  - split; [exact Hsel|]. apply Hsubmit; [lia | discriminate].
Defined.

(** ** Acknowledged incidents on the dashboards *)

Lemma filter_ext_length {A} (p q : A -> bool) l :
  (forall x, p x = q x) ->
  length (List.filter p l) = length (List.filter q l).
Proof.
  intros H. induction l as [|x l IH]; [reflexivity|].
  cbn [List.filter]. rewrite H. destruct (q x); cbn [length]; rewrite IH;
    reflexivity.
Qed.

Lemma filter_length_mono {A B} (p : A -> bool) (q : B -> bool) (f : A -> B) l :
  (forall x, p x = true -> q (f x) = true) ->
  (length (List.filter p l) <= length (List.filter q (map f l)))%nat.
Proof.
  intros H. induction l as [|x l IH]; [reflexivity|].
  cbn [List.filter map]. destruct (p x) eqn:Hp.
  - rewrite (H x Hp). cbn [length]. lia.
  - destruct (q (f x)); cbn [length]; lia.
Qed.

(** X20. The statistics header of the admin dashboard: total is the sum of
    pending and acknowledged, for every list; an optimistic acknowledge
    keeps the total and never lowers the acknowledged count, and the
    rollback of a failed acknowledge keeps the total and never lowers the
    pending count. *)
Theorem admin_stats_partition :
  forall (incidents : list Incident.t) (incidentId : Z),
    let before := AdminDashboardStats.stats incidents in
    let optimistic :=
      AdminDashboardStats.stats
        (AdminDashboard.set_ack incidentId true "acknowledged" incidents) in
    let rolled_back :=
      AdminDashboardStats.stats
        (AdminDashboard.set_ack incidentId false "pending" incidents) in
    (AdminDashboardStats.total before
     = AdminDashboardStats.pending before
       + AdminDashboardStats.acknowledged before)%nat
    /\ AdminDashboardStats.total optimistic = AdminDashboardStats.total before
    /\ (AdminDashboardStats.acknowledged before
        <= AdminDashboardStats.acknowledged optimistic)%nat
    /\ AdminDashboardStats.total rolled_back = AdminDashboardStats.total before
    /\ (AdminDashboardStats.pending before
        <= AdminDashboardStats.pending rolled_back)%nat.
Proof.
  intros incidents incidentId before optimistic rolled_back.
  subst before optimistic rolled_back.
  unfold AdminDashboardStats.stats, AdminDashboard.set_ack.
  cbn [AdminDashboardStats.total AdminDashboardStats.pending
       AdminDashboardStats.acknowledged].
  split.
  { rewrite <- (filter_partition_length
                  (fun i => Js.str_is "acknowledged" (Incident.status i)
                            || Js.is_true (Incident.acknowledged i))
                  incidents) at 1.
    rewrite Nat.add_comm. f_equal. apply filter_ext_length. intros x.
    apply negb_orb. }
  split; [apply (length_map _ incidents)|].
  split.
  { apply filter_length_mono. intros x Hx.
    destruct (Incident.id x =? incidentId); [reflexivity | exact Hx]. }
  split; [apply (length_map _ incidents)|].
  apply filter_length_mono. intros x Hx.
  destruct (Incident.id x =? incidentId); [reflexivity | exact Hx].
Qed.

(** The merge of a refresh: what the ref held is still there, and every
    incident whose id it held comes out acknowledged. *)
Lemma mergeAcknowledged_sticky data :
  forall (ref : gset Z) out ref',
    SecurityDashboard.mergeAcknowledged ref data = (out, ref') ->
    ref ⊆ ref'
    /\ forall inc, In inc out -> Incident.id inc ∈ ref ->
         Incident.acknowledged inc = Some true
         /\ Incident.status inc = Some "acknowledged".
Proof.
  induction data as [|incident rest IH]; intros ref out ref' H.
  - injection H as <- <-. split; [reflexivity | intros inc []].
  - cbn [SecurityDashboard.mergeAcknowledged] in H.
    destruct (bool_decide (Incident.id incident ∈ ref)) eqn:Hin.
    + destruct (SecurityDashboard.mergeAcknowledged ref rest) as [o r] eqn:E.
      injection H as <- <-. destruct (IH _ _ _ E) as [Hsub Hall].
      split; [exact Hsub|].
      intros inc [<- | Hi] Hid; [split; reflexivity | apply Hall; assumption].
    + set (ref1 := if Js.is_true (Incident.acknowledged incident)
                        || Js.str_is "acknowledged" (Incident.status incident)
                     then {[Incident.id incident]} ∪ ref else ref) in H.
      assert (Href1 : ref ⊆ ref1).
      { subst ref1.
        destruct (Js.is_true (Incident.acknowledged incident)
                  || Js.str_is "acknowledged" (Incident.status incident));
          [apply union_subseteq_r | reflexivity]. }
      destruct (SecurityDashboard.mergeAcknowledged ref1 rest) as [o r] eqn:E.
      injection H as <- <-. destruct (IH _ _ _ E) as [Hsub Hall].
      split; [etransitivity; eassumption|].
      intros inc [<- | Hi] Hid.
      * apply bool_decide_eq_false in Hin. contradiction.
      * apply Hall; [exact Hi | apply Href1, Hid].
Qed.

(** One step keeps the invariant: the id is in the ref, and every incident
    of the list with this id is acknowledged in both encodings. *)
Lemma sticky_step incidentId st e :
  TraceSpec.no_failed_ack incidentId e ->
  (incidentId ∈ SecurityDashboard.acknowledgedIncidentsRef st)
  /\ (forall inc, In inc (SecurityDashboard.incidents st) ->
        Incident.id inc = incidentId ->
        Incident.acknowledged inc = Some true
        /\ Incident.status inc = Some "acknowledged") ->
  (incidentId ∈ SecurityDashboard.acknowledgedIncidentsRef
                  (SecurityDashboard.step st e))
  /\ (forall inc, In inc (SecurityDashboard.incidents (SecurityDashboard.step st e)) ->
        Incident.id inc = incidentId ->
        Incident.acknowledged inc = Some true
        /\ Incident.status inc = Some "acknowledged").
Proof.
  intros He [Href Hall].
  destruct e as [| r | j | j r]; cbn [SecurityDashboard.step].
  - split; assumption.
  - destruct r as [[data | status m] | m];
      cbn [SecurityDashboard.fetchIncidents_resume];
      [|split; assumption|split; assumption].
    destruct (SecurityDashboard.mergeAcknowledged _ data) as [out ref'] eqn:E.
    destruct (mergeAcknowledged_sticky _ _ _ _ E) as [Hsub Hmerge].
    cbn [SecurityDashboard.acknowledgedIncidentsRef SecurityDashboard.incidents].
    split; [apply Hsub, Href|].
    intros inc Hin Hid. apply Hmerge; [exact Hin | rewrite Hid; exact Href].
  - unfold SecurityDashboard.acknowledge_begin.
    cbn [SecurityDashboard.acknowledgedIncidentsRef SecurityDashboard.incidents].
    split; [apply elem_of_union_r, Href|].
    unfold SecurityDashboard.set_ack. intros inc Hin Hid.
    apply in_map_iff in Hin as [x [<- Hx]].
    destruct (Incident.id x =? j); [split; reflexivity | apply Hall; assumption].
  - cbn [TraceSpec.no_failed_ack] in He.
    assert (Hrevert : forall text, j <> incidentId ->
      (incidentId ∈ SecurityDashboard.acknowledgedIncidentsRef
                      (SecurityDashboard.revert j text st))
      /\ (forall inc,
            In inc (SecurityDashboard.incidents (SecurityDashboard.revert j text st)) ->
            Incident.id inc = incidentId ->
            Incident.acknowledged inc = Some true
            /\ Incident.status inc = Some "acknowledged")).
    { intros text Hj. unfold SecurityDashboard.revert.
      cbn [SecurityDashboard.acknowledgedIncidentsRef SecurityDashboard.incidents].
      split.
      - apply elem_of_difference. split; [exact Href|].
        rewrite elem_of_singleton. congruence.
      - unfold SecurityDashboard.set_ack. intros inc Hin Hid.
        apply in_map_iff in Hin as [x [Hx Hin]].
        destruct (Z.eqb_spec (Incident.id x) j) as [Hxj | Hxj].
        + subst inc. cbn [Incident.with_ack Incident.id] in Hid. congruence.
        + subst inc. apply Hall; assumption. }
    destruct r as [[d | status m] | m];
      cbn [SecurityDashboard.acknowledge_resume].
    + split; assumption.
    + apply Hrevert, He.
    + apply Hrevert, He.
Qed.

(** X21. On the security dashboard, once 'Mark as Handled' was pressed on
    an incident, it stays acknowledged on the screen through every later
    refresh, whatever the backend returns for it, and through every other
    acknowledgement and its rollback, as long as its own acknowledge call
    is not reported as failed. *)
Theorem local_acknowledgement_survives_refreshes :
  forall (incidentId : Z) (trace : list SecurityDashboard.Event)
         (st : SecurityDashboard.State),
    Forall (TraceSpec.no_failed_ack incidentId) trace ->
    let st' :=
      SecurityDashboard.run (SecurityDashboard.AckStart incidentId :: trace) st in
    (incidentId ∈ SecurityDashboard.acknowledgedIncidentsRef st')
    /\ (forall inc,
           In inc (SecurityDashboard.incidents st') ->
           Incident.id inc = incidentId ->
           Incident.shown_acknowledged inc = true
           /\ Incident.acknowledged inc = Some true
           /\ Incident.status inc = Some "acknowledged").
Proof.
  intros incidentId trace st Htrace st'. subst st'.
  unfold SecurityDashboard.run. cbn [fold_left].
  set (st1 := SecurityDashboard.step st (SecurityDashboard.AckStart incidentId)).
  assert (Hinv :
    (incidentId ∈ SecurityDashboard.acknowledgedIncidentsRef st1)
    /\ (forall inc, In inc (SecurityDashboard.incidents st1) ->
          Incident.id inc = incidentId ->
          Incident.acknowledged inc = Some true
          /\ Incident.status inc = Some "acknowledged")).
  { subst st1. cbn [SecurityDashboard.step]. unfold SecurityDashboard.acknowledge_begin.
    cbn [SecurityDashboard.acknowledgedIncidentsRef SecurityDashboard.incidents].
    split; [apply elem_of_union_l, elem_of_singleton; reflexivity|].
    unfold SecurityDashboard.set_ack. intros inc Hin Hid.
    apply in_map_iff in Hin as [x [<- Hx]].
    destruct (Z.eqb_spec (Incident.id x) incidentId) as [_ | Hne];
      [split; reflexivity | contradiction]. }
  clearbody st1. revert st1 Hinv.
  induction trace as [|e trace IH]; intros st1 Hinv.
  - cbn [fold_left]. destruct Hinv as [Href Hall]. split; [exact Href|].
    intros inc Hin Hid. destruct (Hall inc Hin Hid) as [Ha Hs].
    split; [|split; assumption].
    unfold Incident.shown_acknowledged. rewrite Hs. reflexivity.
  - apply List.Forall_cons_iff in Htrace as [He Htrace]. cbn [fold_left].
    apply (IH Htrace). apply sticky_step; assumption.
Qed.

Lemma local_acknowledgement_survives_refreshes_witness :
  let trace :=
    [SecurityDashboard.FetchResolve (Js.Resolved (Api.Ok Examples.dataB));
     SecurityDashboard.AckStart 50;
     SecurityDashboard.AckResolve 50
       (Js.Resolved (Api.Err None (Some "refused")));
     SecurityDashboard.AckResolve 42 (Js.Resolved (Api.Ok Examples.report42));
     SecurityDashboard.FetchResolve (Js.Resolved (Api.Ok Examples.dataA))] in
  let st' :=
    SecurityDashboard.run (SecurityDashboard.AckStart 42 :: trace)
      Examples.dashboard in
  (42 ∈ SecurityDashboard.acknowledgedIncidentsRef st')
  /\ (forall inc,
         In inc (SecurityDashboard.incidents st') ->
         Incident.id inc = 42 ->
         Incident.shown_acknowledged inc = true
         /\ Incident.acknowledged inc = Some true
         /\ Incident.status inc = Some "acknowledged").
Proof.
  apply (local_acknowledgement_survives_refreshes 42).
  repeat constructor; simpl; lia.
Defined.

(** X22. On the tabbed security dashboard, 'Mark as Handled' on an incident
    of the incident list stamps it with the current user: for a loaded
    profile with a non-zero id the incident is at once in the 'Assigned to
    me' tab, acknowledged.  If the call then fails, no incident with this
    id is left in that tab, also when it had been assigned to the user
    before the attempt. *)
Theorem optimistic_handle_enters_assigned_tab :
  forall (D : Type) (BASE_URL : string) (st : SecurityDashboardNew.State)
         (incidentId : Z) (u : User.t) (reply : Api.HttpReply D),
    SecurityDashboardNew.userProfile st = Some u ->
    User.id u <> 0 ->
    (forall inc,
        In inc (SecurityDashboardNew.incidents st) ->
        Incident.id inc = incidentId ->
        In (Incident.with_ack_assigned inc true "acknowledged"
              (Some (User.id u)) (Some u))
           (SecurityDashboardNewTabs.assignedIncidents
              (SecurityDashboardNew.handleAcknowledge_begin incidentId false st)))
    /\ (Api.failed reply ->
        forall inc,
          In inc (SecurityDashboardNewTabs.assignedIncidents
                    (SecurityDashboardNew.handleAcknowledge BASE_URL incidentId
                       false reply st)) ->
          Incident.id inc <> incidentId).
Proof.
  intros D BASE_URL st incidentId u reply Hu Hid. split.
  - intros inc Hin Hinc.
    unfold SecurityDashboardNewTabs.assignedIncidents,
      SecurityDashboardNew.handleAcknowledge_begin,
      SecurityDashboardNew.apply_to.
    cbn [SecurityDashboardNew.incidents SecurityDashboardNew.userProfile].
    rewrite Hu. apply filter_In. split.
    + unfold SecurityDashboardNew.updateFunc. apply in_map_iff.
      exists inc. split; [|exact Hin].
      rewrite (proj2 (Z.eqb_eq _ _) Hinc). reflexivity.
    + cbn [Incident.with_ack_assigned Incident.assigned_user_id Js.truthy_num].
      rewrite Z.eqb_refl, (proj2 (Z.eqb_neq _ _) Hid). reflexivity.
  - intros Hfail inc Hin.
    unfold SecurityDashboardNew.handleAcknowledge in Hin.
    destruct (failed_result_is_err BASE_URL reply Hfail) as [m Hm].
    rewrite Hm in Hin.
    unfold SecurityDashboardNewTabs.assignedIncidents,
      SecurityDashboardNew.handleAcknowledge_resume,
      SecurityDashboardNew.handleAcknowledge_begin,
      SecurityDashboardNew.apply_to in Hin.
    cbn [SecurityDashboardNew.incidents SecurityDashboardNew.userProfile
         SecurityDashboardNew.sosAlerts] in Hin.
    rewrite Hu in Hin. apply filter_In in Hin as [Hin Hassigned].
    unfold SecurityDashboardNew.revertFunc in Hin.
    apply in_map_iff in Hin as [x [Hx Hin]].
    destruct (Z.eqb_spec (Incident.id x) incidentId) as [Hxi | Hxi].
    + subst inc. cbn [Incident.with_ack_assigned Incident.assigned_user_id]
        in Hassigned.
      rewrite andb_false_r in Hassigned. discriminate.
    + subst inc.
      unfold SecurityDashboardNew.updateFunc in Hin.
      apply in_map_iff in Hin as [y [Hy Hin]].
      destruct (Z.eqb_spec (Incident.id y) incidentId) as [Hyi | Hyi];
        subst x; [|exact Hyi].
      cbn [Incident.with_ack_assigned Incident.id] in Hxi. contradiction.
Qed.

Lemma optimistic_handle_enters_assigned_tab_witness :
  In (Incident.with_ack_assigned Examples.report42 true "acknowledged"
        (Some 9) (Some Examples.guard))
     (SecurityDashboardNewTabs.assignedIncidents
        (SecurityDashboardNew.handleAcknowledge_begin 42 false
           Examples.dashboardNew))
  /\ forall inc,
       In inc (SecurityDashboardNewTabs.assignedIncidents
                 (SecurityDashboardNew.handleAcknowledge Examples.base 42 false
                    Examples.serverError Examples.dashboardNew)) ->
       Incident.id inc <> 42.
Proof.
  destruct (optimistic_handle_enters_assigned_tab Incident.t Examples.base
              Examples.dashboardNew 42 Examples.guard Examples.serverError
              eq_refl)
    as [Hin Hout].
  - discriminate.
  - split.
    + apply (Hin Examples.report42); [left; reflexivity | reflexivity].
    + apply Hout. exact I.
Defined.

(** ** The image URL of an evidence item *)

Lemma includes_char_cons a c s :
  Js.includes (String a EmptyString) (String c s)
  = Ascii.eqb a c || Js.includes (String a EmptyString) s.
Proof.
  cbn [Js.includes String.prefix].
  destruct (Ascii.ascii_dec a c) as [->|Hne].
  - rewrite Ascii.eqb_refl. destruct s; reflexivity.
  - rewrite (proj2 (Ascii.eqb_neq a c) Hne). reflexivity.
Qed.

Lemma replace_backslashes_clean s :
  Js.includes (String EvidenceStoreInit.backslash EmptyString)
    (EvidenceStoreInit.replace_backslashes s) = false.
Proof.
  induction s as [|c s IH]; [reflexivity|].
  cbn [EvidenceStoreInit.replace_backslashes].
  rewrite includes_char_cons, IH, orb_false_r.
  destruct (Ascii.eqb c EvidenceStoreInit.backslash) eqn:E.
  - reflexivity.
  - rewrite Ascii.eqb_sym. exact E.
Qed.

Lemma replace_backslashes_id s :
  Js.includes (String EvidenceStoreInit.backslash EmptyString) s = false ->
  EvidenceStoreInit.replace_backslashes s = s.
Proof.
  induction s as [|c s IH]; [reflexivity|].
  rewrite includes_char_cons. intros H. apply orb_false_iff in H as [Hc Hs].
  cbn [EvidenceStoreInit.replace_backslashes].
  rewrite Ascii.eqb_sym, Hc, (IH Hs). reflexivity.
Qed.

(** getImageUrl on a non-empty path and base URL. *)
Lemma getImageUrl_Some b baseUrl c p :
  EvidenceStoreInit.getImageUrl (String b baseUrl) (Some (String c p))
  = Some (String b baseUrl +:+ "/evidence/" +:+
          (let q := EvidenceStoreInit.replace_backslashes (String c p) in
           if Js.startsWith (String EvidenceStoreInit.slash EmptyString) q
           then match q with
                | String _ rest => rest
                | EmptyString => EmptyString
                end
           else q)).
Proof.
  unfold EvidenceStoreInit.getImageUrl.
  change (Js.truthy_str (Some (String c p))) with true.
  change (Js.truthy_str (Some (String b baseUrl))) with true.
  change (default "" (Some (String c p))) with (String c p).
  cbv beta iota zeta delta [negb].
  destruct (Js.includes (String EvidenceStoreInit.backslash "") (String c p))
    eqn:E; [reflexivity|].
  rewrite (replace_backslashes_id _ E). reflexivity.
Qed.

Lemma replace_backslashes_idem s :
  EvidenceStoreInit.replace_backslashes (EvidenceStoreInit.replace_backslashes s)
  = EvidenceStoreInit.replace_backslashes s.
Proof. apply replace_backslashes_id, replace_backslashes_clean. Qed.

Lemma includes_char_tail a c s :
  Js.includes (String a EmptyString) (String c s) = false ->
  Js.includes (String a EmptyString) s = false.
Proof. rewrite includes_char_cons. intros H. apply orb_false_iff in H. tauto. Qed.

(** X23. getImageUrl yields no URL exactly when the file path or the base
    URL is missing or empty; otherwise the URL is the base URL, '/evidence/'
    and a path without backslashes, and a path spelled with backslashes
    gives the same URL as the path spelled with slashes. *)
Theorem image_url_ignores_separator_style :
  forall (baseUrl : string) (filePath : option string),
    (EvidenceStoreInit.getImageUrl baseUrl filePath = None
     <-> Js.truthy_str filePath = false \/ baseUrl = EmptyString)
    /\ (forall url,
           EvidenceStoreInit.getImageUrl baseUrl filePath = Some url ->
           exists rest,
             url = baseUrl +:+ "/evidence/" +:+ rest
             /\ Js.includes (String EvidenceStoreInit.backslash EmptyString) rest
                = false)
    /\ (forall p,
           EvidenceStoreInit.getImageUrl baseUrl
             (Some (EvidenceStoreInit.replace_backslashes p))
           = EvidenceStoreInit.getImageUrl baseUrl (Some p)).
Proof.
  intros baseUrl filePath. split; [|split].
  - unfold EvidenceStoreInit.getImageUrl.
    destruct (Js.truthy_str filePath) eqn:Hf; cbn [negb].
    + destruct baseUrl as [|b baseUrl]; cbn [Js.truthy_str negb].
      * split; [auto | reflexivity].
      * split; [discriminate | intros [H | H]; discriminate].
    + split; [auto | reflexivity].
  - intros url H.
    destruct filePath as [[|c p]|]; [discriminate | | discriminate].
    destruct baseUrl as [|b baseUrl]; [discriminate|].
    rewrite getImageUrl_Some in H.
    pose proof (replace_backslashes_clean (String c p)) as Hclean.
    set (q := EvidenceStoreInit.replace_backslashes (String c p)) in H, Hclean.
    clearbody q. cbv zeta in H.
    destruct q as [|d q].
    + injection H as <-. exists EmptyString. split; reflexivity.
    + destruct (Js.startsWith (String EvidenceStoreInit.slash EmptyString)
                  (String d q)); injection H as <-.
      * exists q. split; [reflexivity|]. exact (includes_char_tail _ _ _ Hclean).
      * exists (String d q). split; [reflexivity | exact Hclean].
  - intros [|c p]; [reflexivity|].
    destruct baseUrl as [|b baseUrl]; [reflexivity|].
    change (EvidenceStoreInit.replace_backslashes (String c p))
      with (String (if Ascii.eqb c EvidenceStoreInit.backslash
                    then EvidenceStoreInit.slash else c)
                   (EvidenceStoreInit.replace_backslashes p)).
    rewrite !getImageUrl_Some.
    change (String (if Ascii.eqb c EvidenceStoreInit.backslash
                    then EvidenceStoreInit.slash else c)
                   (EvidenceStoreInit.replace_backslashes p))
      with (EvidenceStoreInit.replace_backslashes (String c p)).
    rewrite replace_backslashes_idem. reflexivity.
Qed.

Lemma image_url_ignores_separator_style_witness :
  EvidenceStoreInit.getImageUrl "http://10.0.2.2:8000"
    (Some (String EvidenceStoreInit.backslash
             ("captures" +:+ String EvidenceStoreInit.backslash "cam3.jpg")))
  = Some "http://10.0.2.2:8000/evidence/captures/cam3.jpg"
  /\ exists rest,
       "http://10.0.2.2:8000/evidence/captures/cam3.jpg"
       = "http://10.0.2.2:8000" +:+ "/evidence/" +:+ rest
       /\ Js.includes (String EvidenceStoreInit.backslash EmptyString) rest
          = false.
Proof.
  split; [reflexivity|].
  apply (proj1 (proj2 (image_url_ignores_separator_style "http://10.0.2.2:8000"
                         (Some (String EvidenceStoreInit.backslash
                                  ("captures" +:+
                                   String EvidenceStoreInit.backslash
                                     "cam3.jpg")))))).
  reflexivity.
Defined.

(** ** Navigation *)

(** X24. For every role, the bottom navigation starts with 'Home' and
    lists 'IncidentList'; for admin, security and viewer its 'Home' leads
    to the dashboard that the app opens at start for a stored user of that
    role, and any other role gets the viewer's navigation. *)
Theorem home_tab_is_dashboard_of_role :
  forall (role : string),
    exists home rest,
      BottomNavigation.getNavItems role = home :: rest
      /\ BottomNavigation.name home = "Home"
      /\ In "IncidentList" (map BottomNavigation.route rest)
      /\ (Credentials.dashboard_of role <> "Registration" ->
          BottomNavigation.route home = Credentials.dashboard_of role)
      /\ (Credentials.dashboard_of role = "Registration" ->
          BottomNavigation.getNavItems role = BottomNavigation.getNavItems "viewer").
Proof.
  intros role. unfold BottomNavigation.getNavItems, Credentials.dashboard_of.
  destruct (String.eqb role "admin");
    [|destruct (String.eqb role "security");
      [|destruct (String.eqb role "viewer")]];
    do 2 eexists; (split; [reflexivity|]); (split; [reflexivity|]);
    (split; [simpl; auto|]); split; intros H;
    try reflexivity; try discriminate H; contradiction.
Qed.

Lemma home_tab_is_dashboard_of_role_witness :
  exists home rest,
    BottomNavigation.getNavItems "security" = home :: rest
    /\ BottomNavigation.name home = "Home"
    /\ In "IncidentList" (map BottomNavigation.route rest)
    /\ BottomNavigation.route home = "SecurityDashboard".
Proof.
  destruct (home_tab_is_dashboard_of_role "security")
    as (home & rest & Hitems & Hname & Hlist & Hroute & _).
  exists home, rest. split; [exact Hitems|]. split; [exact Hname|].
  split; [exact Hlist|]. apply Hroute. discriminate.
Defined.

(** ** Text fields: trimming and defaults *)

Lemma trimStart_after_space s :
  ViewerDashboardNew.trimStart s
  = match ViewerDashboardNew.after_space s with
    | Some r => ViewerDashboardNew.trimStart r
    | None => s
    end.
Proof.
  destruct s as [|c1 [|c2 [|c3 s3]]];
    cbn [ViewerDashboardNew.trimStart ViewerDashboardNew.after_space];
    try reflexivity.
  - destruct (ViewerDashboardNew.is_space c1); reflexivity.
  - destruct (ViewerDashboardNew.is_space c1); [reflexivity|].
    destruct (ViewerDashboardNew.is_space2 c1 c2); reflexivity.
  - destruct (ViewerDashboardNew.is_space c1); [reflexivity|].
    destruct (ViewerDashboardNew.is_space2 c1 c2); [reflexivity|].
    destruct (ViewerDashboardNew.is_space3 c1 c2 c3); reflexivity.
Qed.

Lemma after_space_length s r :
  ViewerDashboardNew.after_space s = Some r ->
  (String.length r < String.length s)%nat.
Proof.
  destruct s as [|c1 [|c2 [|c3 s3]]]; cbn [ViewerDashboardNew.after_space];
    try discriminate.
  - destruct (ViewerDashboardNew.is_space c1); [|discriminate].
    intros H. injection H as <-. cbn. lia.
  - destruct (ViewerDashboardNew.is_space c1);
      [intros H; injection H as <-; cbn; lia|].
    destruct (ViewerDashboardNew.is_space2 c1 c2); [|discriminate].
    intros H. injection H as <-. cbn. lia.
  - destruct (ViewerDashboardNew.is_space c1);
      [intros H; injection H as <-; cbn; lia|].
    destruct (ViewerDashboardNew.is_space2 c1 c2);
      [intros H; injection H as <-; cbn; lia|].
    destruct (ViewerDashboardNew.is_space3 c1 c2 c3); [|discriminate].
    intros H. injection H as <-. cbn. lia.
Qed.

Lemma after_space_append s r t :
  ViewerDashboardNew.after_space s = Some r ->
  ViewerDashboardNew.after_space (s +:+ t) = Some (r +:+ t).
Proof.
  destruct s as [|c1 [|c2 [|c3 s3]]]; cbn [ViewerDashboardNew.after_space];
    try discriminate.
  - change (String c1 "" +:+ t) with (String c1 t).
    destruct (ViewerDashboardNew.is_space c1) eqn:E1; [|discriminate].
    intros H. injection H as <-.
    destruct t; cbn [ViewerDashboardNew.after_space]; rewrite E1; reflexivity.
  - change (String c1 (String c2 "") +:+ t) with (String c1 (String c2 t)).
    cbn [ViewerDashboardNew.after_space].
    destruct (ViewerDashboardNew.is_space c1);
      [intros H; injection H as <-; reflexivity|].
    destruct (ViewerDashboardNew.is_space2 c1 c2) eqn:E2; [|discriminate].
    intros H. injection H as <-. reflexivity.
  - change (String c1 (String c2 (String c3 s3)) +:+ t)
      with (String c1 (String c2 (String c3 (s3 +:+ t)))).
    cbn [ViewerDashboardNew.after_space].
    destruct (ViewerDashboardNew.is_space c1);
      [intros H; injection H as <-; reflexivity|].
    destruct (ViewerDashboardNew.is_space2 c1 c2);
      [intros H; injection H as <-; reflexivity|].
    destruct (ViewerDashboardNew.is_space3 c1 c2 c3); [|discriminate].
    intros H. injection H as <-. reflexivity.
Qed.

(** What trimStart leaves starts with no white space. *)
Lemma trimStart_no_space s :
  ViewerDashboardNew.after_space (ViewerDashboardNew.trimStart s) = None.
Proof.
  remember (String.length s) as n eqn:Hn.
  revert s Hn. induction n as [n IH] using lt_wf_ind. intros s ->.
  rewrite trimStart_after_space.
  destruct (ViewerDashboardNew.after_space s) as [r|] eqn:E; [|exact E].
  apply (IH (String.length r)); [apply after_space_length, E | reflexivity].
Qed.

Lemma trimStart_fixed s :
  ViewerDashboardNew.after_space s = None -> ViewerDashboardNew.trimStart s = s.
Proof. intros H. rewrite trimStart_after_space, H. reflexivity. Qed.

Lemma is_blank_trimStart s :
  ViewerDashboardNew.is_blank s = true <-> ViewerDashboardNew.trimStart s = "".
Proof.
  unfold ViewerDashboardNew.is_blank.
  destruct (ViewerDashboardNew.trimStart s); split; congruence.
Qed.

(** White space in front of a string goes with the trimming of its start. *)
Lemma trimStart_blank_append s t :
  ViewerDashboardNew.trimStart s = "" ->
  ViewerDashboardNew.trimStart (s +:+ t) = ViewerDashboardNew.trimStart t.
Proof.
  remember (String.length s) as n eqn:Hn.
  revert s Hn. induction n as [n IH] using lt_wf_ind. intros s -> Hblank.
  destruct s as [|c s]; [reflexivity|].
  rewrite trimStart_after_space in Hblank.
  destruct (ViewerDashboardNew.after_space (String c s)) as [r|] eqn:E;
    [|discriminate Hblank].
  rewrite trimStart_after_space, (after_space_append _ _ t E).
  apply (IH (String.length r)); [apply after_space_length, E | reflexivity |].
  exact Hblank.
Qed.

(** trimEnd cuts a stretch of white space off the end. *)
Lemma trimEnd_split s :
  exists b, s = ViewerDashboardNew.trimEnd s +:+ b
            /\ ViewerDashboardNew.trimStart b = "".
Proof.
  induction s as [|c s [b [Hs Hb]]]; [exists ""; split; reflexivity|].
  cbn [ViewerDashboardNew.trimEnd].
  destruct (ViewerDashboardNew.is_blank (String c s)) eqn:E.
  - exists (String c s). split; [reflexivity | apply is_blank_trimStart, E].
  - exists b. split; [|exact Hb].
    change (String c (ViewerDashboardNew.trimEnd s) +:+ b)
      with (String c (ViewerDashboardNew.trimEnd s +:+ b)).
    rewrite <- Hs. reflexivity.
Qed.

Lemma trimEnd_idem s :
  ViewerDashboardNew.trimEnd (ViewerDashboardNew.trimEnd s)
  = ViewerDashboardNew.trimEnd s.
Proof.
  induction s as [|c s IH]; [reflexivity|].
  cbn [ViewerDashboardNew.trimEnd].
  destruct (ViewerDashboardNew.is_blank (String c s)) eqn:E; [reflexivity|].
  cbn [ViewerDashboardNew.trimEnd]. rewrite IH.
  destruct (ViewerDashboardNew.is_blank (String c (ViewerDashboardNew.trimEnd s)))
    eqn:E'; [|reflexivity].
  destruct (trimEnd_split s) as [b [Hs Hb]].
  apply is_blank_trimStart in E'.
  pose proof (trimStart_blank_append _ b E') as H.
  change (String c (ViewerDashboardNew.trimEnd s) +:+ b)
    with (String c (ViewerDashboardNew.trimEnd s +:+ b)) in H.
  rewrite <- Hs, Hb in H. apply is_blank_trimStart in H. congruence.
Qed.

Lemma trimEnd_no_space s :
  ViewerDashboardNew.after_space s = None -> s <> "" ->
  ViewerDashboardNew.after_space (ViewerDashboardNew.trimEnd s) = None
  /\ ViewerDashboardNew.trimEnd s <> "".
Proof.
  intros Hs Hne. split.
  - destruct (ViewerDashboardNew.after_space (ViewerDashboardNew.trimEnd s))
      as [r|] eqn:E; [|reflexivity].
    destruct (trimEnd_split s) as [b [Hsplit _]].
    pose proof (after_space_append _ _ b E) as H.
    rewrite <- Hsplit, Hs in H. discriminate H.
  - destruct s as [|c s]; [contradiction|].
    cbn [ViewerDashboardNew.trimEnd].
    destruct (ViewerDashboardNew.is_blank (String c s)) eqn:E; [|discriminate].
    apply is_blank_trimStart in E. rewrite (trimStart_fixed _ Hs) in E.
    discriminate E.
Qed.

(** What trim returns is empty, or starts and ends with no white space. *)
Lemma trim_shape s :
  ViewerDashboardNew.trim s <> "" ->
  ViewerDashboardNew.after_space (ViewerDashboardNew.trim s) = None
  /\ ViewerDashboardNew.trimStart (ViewerDashboardNew.trim s)
     = ViewerDashboardNew.trim s
  /\ ViewerDashboardNew.trimEnd (ViewerDashboardNew.trim s)
     = ViewerDashboardNew.trim s
  /\ ViewerDashboardNew.trim (ViewerDashboardNew.trim s)
     = ViewerDashboardNew.trim s.
Proof.
  unfold ViewerDashboardNew.trim. intros Hne.
  assert (Hstart : ViewerDashboardNew.trimStart s <> "").
  { intros H. rewrite H in Hne. apply Hne. reflexivity. }
  destruct (trimEnd_no_space _ (trimStart_no_space s) Hstart) as [Hno _].
  split; [exact Hno|].
  rewrite (trimStart_fixed _ Hno).
  split; [reflexivity|]. split; apply trimEnd_idem.
Qed.

Lemma trim_idem s :
  ViewerDashboardNew.trim (ViewerDashboardNew.trim s) = ViewerDashboardNew.trim s.
Proof.
  destruct (ViewerDashboardNew.trim s) as [|c t] eqn:E; [reflexivity|].
  rewrite <- E. apply trim_shape. rewrite E. discriminate.
Qed.

(** X26. The profile screen never sends a blank username: save() alerts
    'Validation Error' and makes no updateUser call when the username is
    empty or white space only, where white space is what
    String.prototype.trim takes for it (U+00A0, U+3000 and the like
    included).  What it sends is trimmed: the username and, when present,
    the phone are non-empty, start with no white-space character, and
    trimming their start, their end or both changes nothing; a blank
    phone field is left out of the update. *)
Theorem profile_save_sends_trimmed_fields :
  forall (userId : option Z) (username phone : string),
    match ProfileScreen.save_begin userId username phone with
    | ProfileScreen.Invalid alert =>
        ViewerDashboardNew.trim username = EmptyString
        /\ alert = mkAlert "Validation Error" "Username is required"
    | ProfileScreen.Update _ d =>
        ProfileScreen.u_username d = ViewerDashboardNew.trim username
        /\ ProfileScreen.u_username d <> EmptyString
        /\ ViewerDashboardNew.after_space (ProfileScreen.u_username d) = None
        /\ ViewerDashboardNew.trimStart (ProfileScreen.u_username d)
           = ProfileScreen.u_username d
        /\ ViewerDashboardNew.trimEnd (ProfileScreen.u_username d)
           = ProfileScreen.u_username d
        /\ ViewerDashboardNew.trim (ProfileScreen.u_username d)
           = ProfileScreen.u_username d
        /\ (ViewerDashboardNew.trim phone = EmptyString ->
            ProfileScreen.u_phone d = None)
        /\ (forall p,
               ProfileScreen.u_phone d = Some p ->
               p = ViewerDashboardNew.trim phone
               /\ p <> EmptyString
               /\ ViewerDashboardNew.after_space p = None
               /\ ViewerDashboardNew.trimStart p = p
               /\ ViewerDashboardNew.trimEnd p = p
               /\ ViewerDashboardNew.trim p = p)
    end.
Proof.
  intros userId username phone. unfold ProfileScreen.save_begin.
  destruct (ViewerDashboardNew.trim username) as [|c t] eqn:Eu;
    cbn [Js.truthy_str negb].
  - split; reflexivity.
  - cbn [ProfileScreen.u_username ProfileScreen.u_phone].
    assert (Hne : ViewerDashboardNew.trim username <> "")
      by (rewrite Eu; discriminate).
    destruct (trim_shape username Hne) as (H1 & H2 & H3 & H4).
    rewrite Eu in H1, H2, H3, H4.
    split; [reflexivity|]. split; [discriminate|].
    split; [exact H1|]. split; [exact H2|]. split; [exact H3|].
    split; [exact H4|]. split.
    + intros Hb. rewrite Hb. destruct phone; reflexivity.
    + intros p Hp. destruct phone as [|a ph]; [discriminate Hp|].
      destruct (ViewerDashboardNew.trim (String a ph)) as [|d u] eqn:Ep;
        [discriminate Hp|].
      cbn in Hp. injection Hp as <-.
      assert (Hnp : ViewerDashboardNew.trim (String a ph) <> "")
        by (rewrite Ep; discriminate).
      destruct (trim_shape (String a ph) Hnp) as (P1 & P2 & P3 & P4).
      rewrite Ep in P1, P2, P3, P4.
      split; [reflexivity|]. split; [discriminate|].
      split; [exact P1|]. split; [exact P2|]. split; [exact P3 | exact P4].
Qed.

(** X26 at work: a name between an ideographic space and a no-break
    space, a phone number between spaces; and a name of no-break spaces
    only. *)
Lemma profile_save_sends_trimmed_fields_witness :
  ProfileScreen.save_begin (Some 7)
    (Examples.ideographic_space +:+ "alice" +:+ Examples.nbsp) " 555 "
  = ProfileScreen.Update (Some 7) (ProfileScreen.mkUpdateData "alice" (Some "555"))
  /\ ViewerDashboardNew.trim "alice" = "alice"
  /\ ViewerDashboardNew.trim "555" = "555"
  /\ ViewerDashboardNew.trim (Examples.nbsp +:+ Examples.nbsp) = EmptyString
  /\ ProfileScreen.save_begin (Some 7) (Examples.nbsp +:+ Examples.nbsp) ""
     = ProfileScreen.Invalid (mkAlert "Validation Error" "Username is required").
Proof.
  pose proof (profile_save_sends_trimmed_fields (Some 7)
                (Examples.ideographic_space +:+ "alice" +:+ Examples.nbsp)
                " 555 ") as H.
  pose proof (profile_save_sends_trimmed_fields (Some 7)
                (Examples.nbsp +:+ Examples.nbsp) "") as H0.
  change (ProfileScreen.save_begin (Some 7)
            (Examples.ideographic_space +:+ "alice" +:+ Examples.nbsp) " 555 ")
    with (ProfileScreen.Update (Some 7)
            (ProfileScreen.mkUpdateData "alice" (Some "555"))) in H.
  change (ProfileScreen.save_begin (Some 7) (Examples.nbsp +:+ Examples.nbsp) "")
    with (ProfileScreen.Invalid
            (mkAlert "Validation Error" "Username is required")) in H0.
  cbn [ProfileScreen.u_username ProfileScreen.u_phone] in H.
  destruct H as (_ & _ & _ & _ & _ & Hname & _ & Hphone).
  destruct H0 as [Hblank _].
  split; [reflexivity|]. split; [exact Hname|].
  destruct (Hphone "555" eq_refl) as (_ & _ & _ & _ & _ & Hfix).
  split; [exact Hfix|]. split; [exact Hblank | reflexivity].
Defined.

Lemma or_str_nonempty a b :
  b <> EmptyString -> Js.or_str a b <> EmptyString.
Proof. destruct a as [[|c s]|]; intros H; [exact H | discriminate | exact H]. Qed.

Lemma truthy_nonempty s : s <> EmptyString -> Js.truthy_str (Some s) = true.
Proof. destruct s; [contradiction | reflexivity]. Qed.

(** X27. An SOS alert sent from the modal always names its sender: for
    every state of the dashboard, pressing 'Send SOS Alert' with the modal
    open issues one POST whose description is '[SOS ALERT] ' and a
    non-empty message followed by the sections 'User:', 'Phone:' and
    'Email:', each non-empty.  A blank message becomes 'Emergency SOS
    Alert!', and without a loaded profile the user is 'Unknown User' and
    the e-mail 'N/A'. *)
Theorem sos_alert_always_names_sender :
  forall (base : string) (st : ViewerDashboardNew.State),
    ViewerDashboardNew.sosModal st = true ->
    exists m u ph e,
      m <> EmptyString /\ u <> EmptyString /\ ph <> EmptyString
      /\ e <> EmptyString
      /\ ViewerDashboardNew.requests
           (ViewerDashboardNew.step base st ViewerDashboardNew.PressSendSOSAlert)
         = ViewerDashboardNew.requests st ++
           [Api.mkRequest "POST" (base +:+ "/api/v1/incidents/")
              (Api.IncidentBody
                 (Api.mkPayload (Some 1) "fall_health" "critical" 100
                    ("[SOS ALERT] " +:+ m +:+ Api.nl2 +:+ "User: " +:+ u
                     +:+ Api.nl2 +:+ "Phone: " +:+ ph
                     +:+ Api.nl2 +:+ "Email: " +:+ e)))]
      /\ (ViewerDashboardNew.trim (ViewerDashboardNew.sosMessage st) = EmptyString ->
          m = "Emergency SOS Alert!")
      /\ (ViewerDashboardNew.userProfile st = None ->
          u = "Unknown User" /\ e = "N/A").
Proof.
  intros base st Hopen.
  set (m := Js.or_str (Some (ViewerDashboardNew.trim (ViewerDashboardNew.sosMessage st)))
                      "Emergency SOS Alert!").
  set (ui := ViewerDashboardNew.sos_userInfo st).
  exists m, (default "" (Api.ui_username ui)), (default "" (Api.ui_phone ui)),
         (default "" (Api.ui_email ui)).
  assert (Hm : m <> EmptyString) by (apply or_str_nonempty; discriminate).
  assert (Hu : default "" (Api.ui_username ui) <> EmptyString)
    by (apply or_str_nonempty; discriminate).
  assert (Hp : default "" (Api.ui_phone ui) <> EmptyString)
    by (apply or_str_nonempty; discriminate).
  assert (He : default "" (Api.ui_email ui) <> EmptyString)
    by (apply or_str_nonempty; discriminate).
  split; [exact Hm|]. split; [exact Hu|]. split; [exact Hp|].
  split; [exact He|]. split; [|split].
  - cbn [ViewerDashboardNew.step]. rewrite Hopen.
    unfold ViewerDashboardNew.handleSOS_begin.
    cbn [ViewerDashboardNew.requests]. fold m. fold ui.
    unfold Api.sendSOSAlert_request, Api.sos_description.
    cbn [Api.ui_username Api.ui_phone Api.ui_email ViewerDashboardNew.sos_userInfo]
      in Hu, Hp, He.
    assert (Hmt : Js.or_str (Some m) "Emergency SOS Alert triggered by user" = m).
    { destruct m; [contradiction | reflexivity]. }
    rewrite Hmt.
    assert (Hut : Js.truthy_str (Api.ui_username ui) = true)
      by (apply truthy_nonempty, Hu).
    assert (Hpt : Js.truthy_str (Api.ui_phone ui) = true)
      by (apply truthy_nonempty, Hp).
    assert (Het : Js.truthy_str (Api.ui_email ui) = true)
      by (apply truthy_nonempty, He).
    rewrite Hut, Hpt, Het. rewrite !append_assoc. reflexivity.
  - intros Hblank. subst m. rewrite Hblank. reflexivity.
  - intros Hprofile. subst ui. unfold ViewerDashboardNew.sos_userInfo.
    rewrite Hprofile. split; reflexivity.
Qed.

(** X27 at work: the modal is open and the message field holds an
    ideographic space and a no-break space. *)
Lemma sos_alert_always_names_sender_witness :
  let st :=
    ViewerDashboardNew.mkState [] None true
      (Examples.ideographic_space +:+ Examples.nbsp) "" [] [] 0 in
  exists m u ph e,
    m <> EmptyString /\ u <> EmptyString /\ ph <> EmptyString
    /\ e <> EmptyString
    /\ ViewerDashboardNew.requests
         (ViewerDashboardNew.step Examples.base st
            ViewerDashboardNew.PressSendSOSAlert)
       = [] ++
         [Api.mkRequest "POST" (Examples.base +:+ "/api/v1/incidents/")
            (Api.IncidentBody
               (Api.mkPayload (Some 1) "fall_health" "critical" 100
                  ("[SOS ALERT] " +:+ m +:+ Api.nl2 +:+ "User: " +:+ u
                   +:+ Api.nl2 +:+ "Phone: " +:+ ph
                   +:+ Api.nl2 +:+ "Email: " +:+ e)))]
    /\ m = "Emergency SOS Alert!"
    /\ u = "Unknown User" /\ e = "N/A".
Proof.
  intros st.
  destruct (sos_alert_always_names_sender Examples.base st eq_refl)
    as (m & u & ph & e & Hm & Hu & Hp & He & Hreq & Hblank & Hnone).
  exists m, u, ph, e.
  split; [exact Hm|]. split; [exact Hu|]. split; [exact Hp|].
  split; [exact He|]. split; [exact Hreq|].
  split; [apply Hblank; reflexivity | apply Hnone; reflexivity].
Defined.
